(** * crypto-trading-bot: the trade executor, the retry wrapper and the
      decision parsers, embedded from the Python sources.

    Conventions of the embedding.
    - Python [str] is [string] (UTF-8 bytes); [a in b] on strings is
      [contains a b].
    - Python [float] values (amounts, prices, delays) are exact rationals
      [Q]: the code only compares them with zero, negates them, takes
      absolute values and, in the retry wrapper, multiplies them.
      Rounding, overflow of the arithmetic, infinities and NaN are outside
      the model.
    - A Python [dict] with string keys is a [gmap string pyval].
    - Effects (calls to the ccxt exchange object, [time.sleep],
      [datetime.now], the mutable [trade_history] list and the mutable
      local [result] dict of [execute_trade]) are threaded through a
      state-and-exception monad [M].  Every call that leaves the process
      is appended to [trace].
    - Console output ([print], [ColorLogger]) has no effect on control flow
      and is left out.
    - [exn] stands for instances of Python's [Exception]: everything an
      [except Exception] clause catches. *)

From Stdlib Require Import String Ascii List ZArith QArith Qabs Qpower Lia.
From Stdlib Require Import DecimalString.
From stdpp Require Import base strings list gmap.
Import ListNotations.

Local Open Scope string_scope.
Local Open Scope list_scope.

(** ** Python values *)

Record exn := Exn { exn_type : string; exn_str : string }.

(** The dict built by [get_current_position]. *)
Record position := Position {
  p_side : string;
  p_size : Q;
  p_entry_price : Q;
  p_unrealized_pnl : Q;
  p_position_amt : Q;
  p_symbol : string;
  p_leverage : option Q;
  p_liquidation_price : option Q
}.

Inductive pyval :=
| VNone
| VBool (b : bool)
| VNum (q : Q)
| VStr (s : string)
| VPosition (p : position).

Definition Qnonzero (q : Q) : bool := negb (Qeq_bool q 0).

(** Python truth value ([bool(x)]). *)
Definition truthy (v : pyval) : bool :=
  match v with
  | VNone => false
  | VBool b => b
  | VNum q => Qnonzero q
  | VStr s => negb (String.eqb s "")
  | VPosition _ => true
  end.

(** [bool(x)] for an [Optional[float]] argument. *)
Definition opt_truthy (o : option Q) : bool :=
  match o with
  | None => false
  | Some q => Qnonzero q
  end.

Definition opt_pos (o : option position) : pyval :=
  match o with None => VNone | Some p => VPosition p end.

(** [d.get(k)] and [bool(d)] on dicts. *)
Definition dict_get (d : gmap string pyval) (k : string) : pyval :=
  default VNone (d !! k).

Definition dict_truthy (d : gmap string pyval) : bool :=
  negb (Nat.eqb (size d) 0).

(** ** Strings *)

(** [needle in hay]. *)
Fixpoint contains (needle hay : string) : bool :=
  if String.prefix needle hay then true
  else match hay with
       | EmptyString => false
       | String _ rest => contains needle rest
       end.

Definition lower_ascii (c : ascii) : ascii :=
  let n := nat_of_ascii c in
  if (Nat.leb 65 n && Nat.leb n 90)%bool then ascii_of_nat (n + 32) else c.

Definition upper_ascii (c : ascii) : ascii :=
  let n := nat_of_ascii c in
  if (Nat.leb 97 n && Nat.leb n 122)%bool then ascii_of_nat (n - 32) else c.

(** [s.lower()] and [s.upper()], on the ASCII letters: the words the
    retry wrapper looks for in a lower-cased message are ASCII, and the
    executor upper-cases only the sides "long" and "short". *)
Fixpoint lower (s : string) : string :=
  match s with
  | EmptyString => EmptyString
  | String c rest => String (lower_ascii c) (lower rest)
  end.

Fixpoint upper (s : string) : string :=
  match s with
  | EmptyString => EmptyString
  | String c rest => String (upper_ascii c) (upper rest)
  end.

(** ** The exchange and the clock *)

(** One element of the list returned by [exchange.fetch_positions].  A
    field read through [float(...)] carries the outcome of that
    conversion; an outer [option] says whether the key is present. *)
Record raw_position := RawPosition {
  rp_symbol : string;
  rp_info_positionAmt : option (exn + Q);
  rp_contracts : option (exn + Q);
  rp_side : option string;
  rp_entryPrice : exn + Q;
  rp_unrealizedPnl : exn + Q;
  rp_leverage : option (option Q);
  rp_liquidationPrice : option (option Q)
}.

(** Calls that leave the process, with their arguments. *)
Inductive event :=
| EvFetchPositions (symbols : list string)
| EvMarketBuy (symbol : string) (amount : Q) (positionSide : string)
| EvMarketSell (symbol : string) (amount : Q) (positionSide : string)
| EvCreateOrder (symbol type side : string) (amount price : Q)
                (positionSide : string) (stopPrice : Q)
| EvMarketOrder (symbol side : string) (amount : Q) (reduceOnly : bool)
| EvSleep (seconds : Q)
| EvInvoke.

(** The order-placing (mutating) calls. *)
Definition is_order (e : event) : bool :=
  match e with
  | EvMarketBuy _ _ _ | EvMarketSell _ _ _
  | EvCreateOrder _ _ _ _ _ _ _ | EvMarketOrder _ _ _ _ => true
  | _ => false
  end.

(** The calls that reach the exchange at all. *)
Definition is_exchange_call (e : event) : bool :=
  match e with
  | EvFetchPositions _ => true
  | _ => is_order e
  end.

(** What the executor needs from the outside world: the ccxt exchange
    object, the passing of time and the wall clock. *)
Class World (W : Type) := {
  w_fetch_positions : list string -> W -> (exn + list raw_position) * W;
  w_create_market_buy_order :
    string -> Q -> string -> W -> (exn + gmap string pyval) * W;
  w_create_market_sell_order :
    string -> Q -> string -> W -> (exn + gmap string pyval) * W;
  w_create_order :
    string -> string -> string -> Q -> Q -> string -> Q -> W ->
    (exn + gmap string pyval) * W;
  w_create_market_order :
    string -> string -> Q -> bool -> W -> (exn + gmap string pyval) * W;
  w_sleep : Q -> W -> W;
  w_now : W -> string
}.

(** An entry of [trade_history]. *)
Inductive history_entry :=
| HTrade (result : gmap string pyval)
| HClose (timestamp action symbol : string) (quantity : Q)
         (result : gmap string pyval).

Record state (W : Type) := State {
  world : W;
  trace : list event;
  trade_history : list history_entry;
  result : gmap string pyval
}.
Arguments State {W}.
Arguments world {W}.
Arguments trace {W}.
Arguments trade_history {W}.
Arguments result {W}.

(** ** The monad *)

Definition M (W A : Type) : Type := state W -> state W * (exn + A).

Definition ret {W A} (a : A) : M W A := fun st => (st, inr a).

Definition raise {W A} (e : exn) : M W A := fun st => (st, inl e).

Definition bind {W A B} (m : M W A) (k : A -> M W B) : M W B :=
  fun st =>
    match m st with
    | (st', inr a) => k a st'
    | (st', inl e) => (st', inl e)
    end.

(** [try: m except Exception as e: h e]. *)
Definition try_catch {W A} (m : M W A) (h : exn -> M W A) : M W A :=
  fun st =>
    match m st with
    | (st', inr a) => (st', inr a)
    | (st', inl e) => h e st'
    end.

Definition lift {W A} (r : exn + A) : M W A := fun st => (st, r).

Declare Scope py_scope.
Delimit Scope py_scope with py.
Notation "x <- m ;; k" := (bind m (fun x => k))
  (at level 100, m at next level, right associativity) : py_scope.
Notation "m ;; k" := (bind m (fun _ => k))
  (at level 100, right associativity) : py_scope.
Local Open Scope py_scope.

(** The delays whose count of nanoseconds leaves the range of a signed
    64-bit integer. *)
Definition sleep_overflows (seconds : Q) : bool :=
  Qle_bool (inject_Z (2 ^ 63)) (Qabs seconds * inject_Z (10 ^ 9)).

(** The delays [time.sleep] accepts. *)
Definition sleepable (seconds : Q) : bool :=
  negb (sleep_overflows seconds) && Qle_bool 0 seconds.

Section Effects.
Context {W : Type} `{World W}.

(** A call to the outside: perform it on the world, record it. *)
Definition call {A} (ev : event) (f : W -> (exn + A) * W) : M W A :=
  fun st =>
    let '(r, w) := f (world st) in
    (State w (trace st ++ [ev]) (trade_history st) (result st), r).

Definition fetch_positions (symbols : list string) : M W (list raw_position) :=
  call (EvFetchPositions symbols) (w_fetch_positions symbols).

Definition create_market_buy_order (symbol : string) (amount : Q)
    (positionSide : string) : M W (gmap string pyval) :=
  call (EvMarketBuy symbol amount positionSide)
       (w_create_market_buy_order symbol amount positionSide).

Definition create_market_sell_order (symbol : string) (amount : Q)
    (positionSide : string) : M W (gmap string pyval) :=
  call (EvMarketSell symbol amount positionSide)
       (w_create_market_sell_order symbol amount positionSide).

Definition create_order (symbol type side : string) (amount price : Q)
    (positionSide : string) (stopPrice : Q) : M W (gmap string pyval) :=
  call (EvCreateOrder symbol type side amount price positionSide stopPrice)
       (w_create_order symbol type side amount price positionSide stopPrice).

Definition create_market_order (symbol side : string) (amount : Q)
    (reduceOnly : bool) : M W (gmap string pyval) :=
  call (EvMarketOrder symbol side amount reduceOnly)
       (w_create_market_order symbol side amount reduceOnly).

(** [time.sleep(seconds)]: the delay is first converted to a 64-bit
    count of nanoseconds, which raises [OverflowError] when it does not
    fit; a negative delay then raises [ValueError]; otherwise the process
    sleeps. *)
Definition sleep (seconds : Q) : M W unit :=
  if sleep_overflows seconds then
    raise (Exn "OverflowError" "timestamp too large to convert to C _PyTime_t")
  else if negb (Qle_bool 0 seconds) then
    raise (Exn "ValueError" "sleep length must be non-negative")
  else call (EvSleep seconds) (fun w => (inr tt, w_sleep seconds w)).

(** [datetime.now().strftime('%Y-%m-%d %H:%M:%S')]. *)
Definition now : M W string := fun st => (st, inr (w_now (world st))).

(** Reads and writes of the local dict [result]. *)
Definition new_result (d : gmap string pyval) : M W unit :=
  fun st => (State (world st) (trace st) (trade_history st) d, inr tt).

Definition set_result (k : string) (v : pyval) : M W unit :=
  fun st =>
    (State (world st) (trace st) (trade_history st) (<[k := v]> (result st)),
     inr tt).

Definition get_result : M W (gmap string pyval) :=
  fun st => (st, inr (result st)).

(** [self.trade_history.append(entry)]. *)
Definition history_append (entry : history_entry) : M W unit :=
  fun st =>
    (State (world st) (trace st) (trade_history st ++ [entry]) (result st),
     inr tt).
End Effects.

(** ** tradingagents/executors/binance_executor.py *)

Record BinanceExecutor := {
  config : gmap string pyval;
  test_mode : pyval
}.

(** [BinanceExecutor.__init__(config, test_mode)]; the argument defaults to
    [None].  Building the ccxt object contacts nobody. *)
Definition BinanceExecutor_init (config : gmap string pyval)
    (test_mode : pyval) : BinanceExecutor :=
  {| config := config;
     test_mode :=
       match test_mode with
       | VNone => default (VBool true) (config !! "binance_test_mode")
       | v => v
       end |}.

(** The signed amount of one fetched position. *)
Definition position_amt_of (pos : raw_position) : exn + Q :=
  match rp_info_positionAmt pos with
  | Some r => r
  | None =>
    match rp_contracts pos with
    | Some (inr contracts) =>
      match rp_side pos with
      | Some side => if String.eqb side "short" then inr (- contracts)%Q
                     else inr contracts
      | None => inr contracts
      end
    | Some (inl e) => inl e
    | None => inr 0%Q
    end
  end.

Definition build_position (pos : raw_position) (position_amt : Q)
    : exn + position :=
  match rp_entryPrice pos with
  | inl e => inl e
  | inr entry =>
    match rp_unrealizedPnl pos with
    | inl e => inl e
    | inr pnl =>
      inr {| p_side := if Qle_bool position_amt 0 then "short" else "long";
             p_size := Qabs position_amt;
             p_entry_price := entry;
             p_unrealized_pnl := pnl;
             p_position_amt := position_amt;
             p_symbol := rp_symbol pos;
             p_leverage := default (Some 1%Q) (rp_leverage pos);
             p_liquidation_price := default (Some 0%Q) (rp_liquidationPrice pos) |}
    end
  end.

(** The [for pos in positions] loop of [get_current_position]. *)
Fixpoint scan_positions (symbol_normalized : string)
    (positions : list raw_position) : exn + option position :=
  match positions with
  | [] => inr None
  | pos :: rest =>
    if String.eqb (rp_symbol pos) symbol_normalized then
      match position_amt_of pos with
      | inl e => inl e
      | inr position_amt =>
        if Qnonzero position_amt then
          match build_position pos position_amt with
          | inl e => inl e
          | inr p => inr (Some p)
          end
        else scan_positions symbol_normalized rest
      end
    else scan_positions symbol_normalized rest
  end.

Definition normalize_symbol (symbol : string) : string :=
  if contains ":" symbol then symbol else symbol +:+ ":USDT".

Section Executor.
Context {W : Type} `{World W}.
Variable self : BinanceExecutor.

Definition get_current_position (symbol : string) : M W (option position) :=
  try_catch
    (positions <- fetch_positions [symbol];;
     lift (scan_positions (normalize_symbol symbol) positions))
    (fun _ => ret None).

Definition _set_stop_orders (symbol : string)
    (stop_loss take_profit : option Q) : M W unit :=
  try_catch
    (current_position <- get_current_position symbol;;
     match current_position with
     | None => ret tt
     | Some p =>
       let side := p_side p in
       let size := p_size p in
       (match stop_loss with
        | Some sl =>
          if Qnonzero sl then
            if String.eqb side "long" then
              create_order symbol "STOP_MARKET" "sell" size sl "LONG" sl;;
              ret tt
            else
              create_order symbol "STOP_MARKET" "buy" size sl "SHORT" sl;;
              ret tt
          else ret tt
        | None => ret tt
        end);;
       (match take_profit with
        | Some tp =>
          if Qnonzero tp then
            if String.eqb side "long" then
              create_order symbol "TAKE_PROFIT_MARKET" "sell" size tp "LONG" tp;;
              ret tt
            else
              create_order symbol "TAKE_PROFIT_MARKET" "buy" size tp "SHORT" tp;;
              ret tt
          else ret tt
        | None => ret tt
        end)
     end)
    (fun _ => ret tt).

(** The [if action == ...] chain inside the [try] of [execute_trade].
    [None] is an early [return result]; [Some order] falls through to the
    bookkeeping with the last order placed. *)
Definition dispatch (symbol action : string) (amount : Q)
    (current_position : option position) : M W (option (gmap string pyval)) :=
  if String.eqb action "BUY" then
    (match current_position with
     | Some p => if String.eqb (p_side p) "short" then
                   create_market_buy_order symbol (p_size p) "SHORT";;
                   sleep 1
                 else ret tt
     | None => ret tt
     end);;
    match current_position with
    | Some p =>
      if negb (String.eqb (p_side p) "long") then
        order <- create_market_buy_order symbol amount "LONG";;
        ret (Some order)
      else
        set_result "message" (VStr "已有多仓，不重复开仓");;
        ret None
    | None =>
      order <- create_market_buy_order symbol amount "LONG";;
      ret (Some order)
    end
  else if String.eqb action "SELL" then
    (match current_position with
     | Some p => if String.eqb (p_side p) "long" then
                   create_market_sell_order symbol (p_size p) "LONG";;
                   sleep 1
                 else ret tt
     | None => ret tt
     end);;
    match current_position with
    | Some p =>
      if negb (String.eqb (p_side p) "short") then
        order <- create_market_sell_order symbol amount "SHORT";;
        ret (Some order)
      else
        set_result "message" (VStr "已有空仓，不重复开仓");;
        ret None
    | None =>
      order <- create_market_sell_order symbol amount "SHORT";;
      ret (Some order)
    end
  else if String.eqb action "CLOSE_LONG" then
    match current_position with
    | Some p =>
      if String.eqb (p_side p) "long" then
        order <- create_market_sell_order symbol (p_size p) "LONG";;
        ret (Some order)
      else
        set_result "message" (VStr "没有多仓可平");;
        ret None
    | None =>
      set_result "message" (VStr "没有多仓可平");;
      ret None
    end
  else if String.eqb action "CLOSE_SHORT" then
    match current_position with
    | Some p =>
      if String.eqb (p_side p) "short" then
        order <- create_market_buy_order symbol (p_size p) "SHORT";;
        ret (Some order)
      else
        set_result "message" (VStr "没有空仓可平");;
        ret None
    | None =>
      set_result "message" (VStr "没有空仓可平");;
      ret None
    end
  else if String.eqb action "HOLD" then
    set_result "success" (VBool true);;
    set_result "message" (VStr "观望，不执行交易");;
    ret None
  else
    set_result "message" (VStr ("未知的交易动作: " +:+ action));;
    ret None.

(** The [if order:] block that follows the chain. *)
Definition record_order (symbol : string) (stop_loss take_profit : option Q)
    (order : gmap string pyval) : M W unit :=
  if dict_truthy order then
    set_result "success" (VBool true);;
    set_result "order_id" (dict_get order "id");;
    set_result "price" (dict_get order "price");;
    set_result "filled" (dict_get order "filled");;
    set_result "message" (VStr "订单执行成功");;
    (if (opt_truthy stop_loss || opt_truthy take_profit)%bool then
       sleep 1;;
       _set_stop_orders symbol stop_loss take_profit
     else ret tt);;
    sleep 2;;
    new_position <- get_current_position symbol;;
    set_result "new_position" (opt_pos new_position);;
    r <- get_result;;
    history_append (HTrade r)
  else ret tt.

(** The dict [result] as [execute_trade] first builds it. *)
Definition initial_result (symbol action : string) (amount : Q)
    (reason timestamp : string) : gmap string pyval :=
  <["success" := VBool false]>
  (<["action" := VStr action]>
  (<["symbol" := VStr symbol]>
  (<["amount" := VNum amount]>
  (<["timestamp" := VStr timestamp]>
  (<["reason" := VStr reason]>
  (<["test_mode" := test_mode self]> ∅)))))).

Definition execute_trade (symbol action : string) (amount : Q)
    (stop_loss take_profit : option Q) (reason : string)
    : M W (gmap string pyval) :=
  timestamp <- now;;
  new_result (initial_result symbol action amount reason timestamp);;
  current_position <- get_current_position symbol;;
  if truthy (test_mode self) then
    set_result "success" (VBool true);;
    set_result "message" (VStr "测试模式：模拟交易成功");;
    get_result
  else
    try_catch
      (placed <- dispatch symbol action amount current_position;;
       match placed with
       | None => get_result
       | Some order =>
         record_order symbol stop_loss take_profit order;;
         get_result
       end)
      (fun e =>
         set_result "message" (VStr ("订单执行失败: " +:+ exn_str e));;
         get_result).

(** [close_position]: close whatever position is open, long or short. *)
Definition close_position (symbol : string) : M W (gmap string pyval) :=
  try_catch
    (position <- get_current_position symbol;;
     match position with
     | None =>
       ret (<["status" := VStr "info"]>
           (<["message" := VStr "没有持仓需要平仓"]> ∅))
     | Some p =>
       if (String.eqb (p_side p) "NONE" || String.eqb (p_side p) "none")%bool
       then
         ret (<["status" := VStr "info"]>
             (<["message" := VStr "没有持仓需要平仓"]> ∅))
       else
         let side := lower (p_side p) in
         let size := p_size p in
         if Qeq_bool size 0 then
           ret (<["status" := VStr "info"]>
               (<["message" := VStr "持仓数量为0，无需平仓"]> ∅))
         else
           res <-
             (if truthy (test_mode self) then
                ret (<["status" := VStr "test"]>
                    (<["action" := VStr ("平仓 " +:+ upper side)]>
                    (<["symbol" := VStr symbol]>
                    (<["quantity" := VNum size]>
                    (<["message" := VStr "测试模式：平仓模拟成功"]> ∅)))))
              else
                let close_side :=
                  if String.eqb side "long" then "sell" else "buy" in
                order <- create_market_order symbol close_side (Qabs size) true;;
                ret (<["status" := VStr "success"]>
                    (<["order_id" := dict_get order "id"]>
                    (<["action" := VStr ("平仓 " +:+ upper side)]>
                    (<["symbol" := VStr symbol]>
                    (<["quantity" := VNum size]>
                    (<["price" := default (VStr "market") (order !! "price")]>
                    (<["message" := VStr "平仓成功"]> ∅))))))));;
           timestamp <- now;;
           history_append
             (HClose timestamp ("close_" +:+ side) symbol size res);;
           ret res
     end)
    (fun e =>
       ret (<["status" := VStr "error"]>
           (<["message" := VStr ("平仓失败: " +:+ exn_str e)]> ∅))).

End Executor.

(** ** tradingagents/utils/llm_utils.py *)

(** The retryable vocabulary, tested on the lower-cased message. *)
Definition is_retryable (error_str : string) : bool :=
  (contains "404" error_str
   || contains "not found" error_str
   || contains "500" error_str
   || contains "502" error_str
   || contains "503" error_str
   || contains "504" error_str
   || contains "timeout" error_str
   || contains "connection" error_str
   || contains "rate limit" error_str
   || contains "too many requests" error_str)%bool.

(** [range(n)] for a Python int. *)
Definition range (n : Z) : list Z := map Z.of_nat (seq 0 (Z.to_nat n)).

(** [base_delay * (backoff_factor ** attempt)]. *)
Definition backoff_delay (base_delay backoff_factor : Q) (attempt : Z) : Q :=
  (base_delay * backoff_factor ^ attempt)%Q.

Section Retry.
Context {W : Type} `{World W} {A : Type}.
Variable max_retries : Z.
Variables base_delay backoff_factor : Q.
Variable func : M W A.

(** One call of the wrapped [func]; the invocation is recorded in the
    trace. *)
Definition invoke : M W A :=
  fun st =>
    func (State (world st) (trace st ++ [EvInvoke]) (trade_history st)
                (result st)).

(** [raise last_exception]; raising [None] is a [TypeError]. *)
Definition raise_last (last_exception : option exn) : M W A :=
  match last_exception with
  | Some e => raise e
  | None => raise (Exn "TypeError" "exceptions must derive from BaseException")
  end.

(** The [for attempt in ...] loop of [wrapper], over the attempts left. *)
Fixpoint retry_loop (attempts : list Z) (last_exception : option exn)
    : M W A :=
  match attempts with
  | [] => raise_last last_exception
  | attempt :: rest =>
    try_catch invoke
      (fun e =>
         if negb (is_retryable (lower (exn_str e))) then raise e
         else if (attempt <? max_retries)%Z then
           sleep (backoff_delay base_delay backoff_factor attempt);;
           retry_loop rest (Some e)
         else raise_last (Some e))
  end.

(** [llm_retry(max_retries, base_delay, backoff_factor)(func)]. *)
Definition llm_retry : M W A := retry_loop (range (max_retries + 1)) None.

End Retry.

(** ** tradingagents/graph/crypto_trading_graph.py *)

(** [d[k]] on the configuration. *)
Definition config_item {W} (cfg : gmap string pyval) (k : string)
    : M W pyval :=
  match cfg !! k with
  | Some v => ret v
  | None => raise (Exn "KeyError" k)
  end.

(** An order amount read from the configuration.  Every configuration
    built by [get_crypto_config] holds a float there, and the model covers
    these: for another kind of value it stops here with a [TypeError],
    where the source hands the value on to [execute_trade]. *)
Definition as_amount {W} (v : pyval) : M W Q :=
  match v with
  | VNum q => ret q
  | _ => raise (Exn "TypeError" "amount is not a number")
  end.

Record CryptoTradingAgentsGraph := {
  ct_config : gmap string pyval;
  ct_executor : BinanceExecutor;
  ct_auto_execute : bool
}.

(** The action [_execute_trade_decision] reads off the decision text. *)
Definition decision_action (decision : string) : string :=
  if (contains "BUY" decision || contains "做多" decision)%bool then "BUY"
  else if (contains "SELL" decision || contains "做空" decision)%bool
       then "SELL"
  else "HOLD".

Definition _execute_trade_decision {W} `{World W}
    (self : CryptoTradingAgentsGraph) (decision symbol : string) : M W unit :=
  let action := decision_action decision in
  if negb (String.eqb action "HOLD") then
    position_size <- config_item (ct_config self) "position_size";;
    amount <- as_amount position_size;;
    execute_trade (ct_executor self) symbol action amount None None
      "Multi-agent decision";;
    ret tt
  else ret tt.

(** ** tradingagents/graph/simple_crypto_graph.py *)

Record SimpleCryptoTradingGraph := {
  sg_config : gmap string pyval;
  sg_auto_execute : bool;
  sg_executor : option BinanceExecutor
}.

(** [SimpleCryptoTradingGraph.__init__], as far as the executor goes,
    for a non-empty [config]; the source replaces an empty one by
    [get_crypto_config()] and reads [project_dir], [quick_think_llm] and
    [backend_url] from it before it builds the executor. *)
Definition SimpleCryptoTradingGraph_init (config : gmap string pyval)
    (auto_execute : bool) : SimpleCryptoTradingGraph :=
  {| sg_config := config;
     sg_auto_execute := auto_execute;
     sg_executor :=
       if auto_execute then Some (BinanceExecutor_init config VNone)
       else None |}.

(** Everything an instance of [BinanceExecutor] answers to: the four
    attributes set by [__init__] and the methods of the class. *)
Definition BinanceExecutor_attributes : list string :=
  ["config"; "test_mode"; "exchange"; "trade_history";
   "__init__"; "setup_exchange"; "get_current_position"; "execute_trade";
   "_set_stop_orders"; "get_account_info"; "get_trade_history";
   "close_position"; "close_all_positions"; "get_position_summary"].

(** A method call [executor.name(args)] as [SimpleCryptoTradingGraph]
    makes it.  A name the object does not have raises [AttributeError] before
    any argument is looked at; of the names it has, only [close_position]
    is called on this path, with the symbol of the configuration, a [str]
    in every configuration built by [get_crypto_config]: for another kind
    of value the model stops with a [TypeError], where the source hands it
    on to [close_position]. *)
Definition call_method {W} `{World W} (executor : BinanceExecutor)
    (name : string) (args : list pyval) : M W (gmap string pyval) :=
  if negb (existsb (String.eqb name) BinanceExecutor_attributes) then
    raise (Exn "AttributeError"
               ("'BinanceExecutor' object has no attribute '" +:+ name
                +:+ "'"))
  else if String.eqb name "close_position" then
    match args with
    | [VStr symbol] => close_position executor symbol
    | _ => raise (Exn "TypeError" "close_position(symbol: str)")
    end
  else raise (Exn "TypeError" (name +:+ " is not called on this path")).

(** The marker scan of [SimpleCryptoTradingGraph.execute_trade]; [None]
    is the HOLD branch, which returns at once. *)
Definition marked_action (decision : string) : option string :=
  if (contains "**最终决策: BUY**" decision
      || contains "**最终决策: LONG**" decision)%bool then Some "BUY"
  else if (contains "**最终决策: SELL**" decision
           || contains "**最终决策: SHORT**" decision)%bool then Some "SELL"
  else if contains "**最终决策: CLOSE**" decision then Some "CLOSE"
  else None.

(** [SimpleCryptoTradingGraph.execute_trade]. *)
Definition simple_execute_trade {W} `{World W}
    (self : SimpleCryptoTradingGraph) (decision : string) : M W unit :=
  if negb (sg_auto_execute self) then ret tt
  else
    match sg_executor self with
    | None => ret tt
    | Some executor =>
      match marked_action decision with
      | None => ret tt
      | Some action =>
        symbol <- config_item (sg_config self) "crypto_symbol";;
        quantity <- config_item (sg_config self) "position_size";;
        try_catch
          (if String.eqb action "BUY" then
             call_method executor "open_long" [symbol; quantity];;
             ret tt
           else if String.eqb action "SELL" then
             call_method executor "open_short" [symbol; quantity];;
             ret tt
           else
             call_method executor "close_position" [symbol];;
             ret tt)
          (fun _ => ret tt)
      end
    end.

(** ** More of tradingagents/executors/binance_executor.py *)

Section ExecutorRest.
Context {W : Type} `{World W}.
Variable self : BinanceExecutor.

(** [close_all_positions]: read the position, then close its side through
    [execute_trade]. *)
Definition close_all_positions (symbol : string) : M W unit :=
  position <- get_current_position symbol;;
  match position with
  | Some p =>
    if String.eqb (p_side p) "long" then
      execute_trade self symbol "CLOSE_LONG" (p_size p) None None "强制平仓";;
      ret tt
    else
      execute_trade self symbol "CLOSE_SHORT" (p_size p) None None "强制平仓";;
      ret tt
  | None => ret tt
  end.

(** [get_trade_history]. *)
Definition get_trade_history : M W (list history_entry) :=
  fun st => (st, inr (trade_history st)).

End ExecutorRest.

(** ** main_simple_crypto.py *)

(** The decision type [run_analysis] writes to the dashboard log. *)
Definition monitor_decision_type (decision : string) : string :=
  if (contains "**最终决策: BUY**" decision
      || contains "**最终决策: LONG**" decision)%bool then "BUY"
  else if (contains "**最终决策: SELL**" decision
           || contains "**最终决策: SHORT**" decision)%bool then "SELL"
  else if contains "**最终决策: CLOSE**" decision then "CLOSE"
  else if contains "**最终决策: HOLD**" decision then "HOLD"
  else "UNKNOWN".

(** ** tradingagents/utils/scheduler.py *)

Module TradingScheduler.
Local Open Scope Z_scope.

(** A naive [datetime]: the date as its proleptic ordinal, the time of
    day in its four fields.  The operations below are the arithmetic of
    [datetime] and [timedelta] on the days 1 to 3652059 (0001-01-01 to
    9999-12-31); beyond them Python raises [OverflowError], which is not
    modelled: a statement that moves the date by more than a day carries
    this range as a hypothesis. *)
Record datetime := {
  dt_ordinal : Z;
  dt_hour : Z;
  dt_minute : Z;
  dt_second : Z;
  dt_microsecond : Z
}.

(** [d.replace(hour=0, minute=0, second=0, microsecond=0)]. *)
Definition replace_midnight (d : datetime) : datetime :=
  {| dt_ordinal := dt_ordinal d; dt_hour := 0; dt_minute := 0;
     dt_second := 0; dt_microsecond := 0 |}.

(** [d + timedelta(days=days)]. *)
Definition add_days (d : datetime) (days : Z) : datetime :=
  {| dt_ordinal := dt_ordinal d + days; dt_hour := dt_hour d;
     dt_minute := dt_minute d; dt_second := dt_second d;
     dt_microsecond := dt_microsecond d |}.

(** [d + timedelta(minutes=minutes)]. *)
Definition add_minutes (d : datetime) (minutes : Z) : datetime :=
  let total := dt_hour d * 60 + dt_minute d + minutes in
  {| dt_ordinal := dt_ordinal d + total / 1440;
     dt_hour := (total mod 1440) / 60;
     dt_minute := total mod 60;
     dt_second := dt_second d;
     dt_microsecond := dt_microsecond d |}.

Definition TIMEFRAME_MINUTES : gmap string Z :=
  list_to_map
    [("1m", 1); ("3m", 3); ("5m", 5); ("15m", 15); ("30m", 30);
     ("1h", 60); ("2h", 120); ("4h", 240); ("6h", 360); ("12h", 720);
     ("1d", 1440)].

(** [s.endswith(suffix)]. *)
Fixpoint endswith (suffix s : string) : bool :=
  String.eqb suffix s
  || match s with
     | EmptyString => false
     | String _ rest => endswith suffix rest
     end.

(** [s[:-1]]. *)
Fixpoint drop_last (s : string) : string :=
  match s with
  | EmptyString => EmptyString
  | String a rest =>
    match rest with
    | EmptyString => EmptyString
    | String _ _ => String a (drop_last rest)
    end
  end.

(** [f"{n:02d}"]: the decimal numeral, sign included, padded with a
    zero to two characters. *)
Definition format_02d (n : Z) : string :=
  let digits := NilZero.string_of_int (Z.to_int n) in
  if (String.length digits <? 2)%nat then "0" +:+ digits else digits.

Section Parsing.

(** Python's [int] on a string, left uninterpreted: a number or the
    [ValueError] it raises. *)
Variable int : string -> exn + Z.

Definition parse_timeframe (timeframe : string) : exn + Z :=
  match TIMEFRAME_MINUTES !! timeframe with
  | Some minutes => inr minutes
  | None =>
    if endswith "m" timeframe then int (drop_last timeframe)
    else if endswith "h" timeframe then
      match int (drop_last timeframe) with
      | inr n => inr (n * 60)
      | inl e => inl e
      end
    else if endswith "d" timeframe then
      match int (drop_last timeframe) with
      | inr n => inr (n * 1440)
      | inl e => inl e
      end
    else inl (Exn "ValueError" ("不支持的时间周期格式: " +:+ timeframe))
  end.

(** [get_next_timeframe_time], given the reading of [datetime.now()].
    Floor division by zero raises [ZeroDivisionError]. *)
Definition get_next_timeframe_time (timeframe : string) (now : datetime)
    : exn + datetime :=
  match parse_timeframe timeframe with
  | inl e => inl e
  | inr minutes =>
    let current_minute := dt_hour now * 60 + dt_minute now in
    if minutes =? 0 then
      inl (Exn "ZeroDivisionError" "integer division or modulo by zero")
    else
      let next_period := (current_minute / minutes + 1) * minutes in
      if 1440 <=? next_period then
        let next_day := add_days (replace_midnight now) 1 in
        let next_period_minutes := next_period - 1440 in
        inr (add_minutes next_day next_period_minutes)
      else
        inr (add_minutes (replace_midnight now) next_period)
  end.

(** [is_on_timeframe], given the reading of [datetime.now()].  The
    remainder by zero raises [ZeroDivisionError]. *)
Definition is_on_timeframe (timeframe : string) (now : datetime)
    : exn + bool :=
  match parse_timeframe timeframe with
  | inl e => inl e
  | inr minutes =>
    let current_minute := dt_hour now * 60 + dt_minute now in
    if minutes =? 0 then
      inl (Exn "ZeroDivisionError" "integer modulo by zero")
    else
      inr ((current_minute mod minutes =? 0) && (dt_second now <? 60))%bool
  end.

(** The [while] loop of [get_aligned_intervals]; each test of its
    condition takes one unit of fuel, and [None] is a loop still
    running when the fuel is spent. *)
Fixpoint aligned_intervals_loop (fuel : nat) (minutes total_minutes : Z)
    (intervals : list string) : option (list string) :=
  match fuel with
  | O => None
  | S fuel =>
    if total_minutes <? 1440 then
      let hour := total_minutes / 60 in
      let minute := total_minutes mod 60 in
      aligned_intervals_loop fuel minutes (total_minutes + minutes)
        (intervals ++ [format_02d hour +:+ ":" +:+ format_02d minute])
    else Some intervals
  end.

Definition get_aligned_intervals (fuel : nat) (timeframe : string)
    : exn + option (list string) :=
  match parse_timeframe timeframe with
  | inl e => inl e
  | inr minutes => inr (aligned_intervals_loop fuel minutes 0 [])
  end.

End Parsing.

End TradingScheduler.

(** ** tradingagents/web/monitor.py *)

Module Monitor.
Local Open Scope Z_scope.

(** [TradingMonitor], without its status dictionary. *)
Record TradingMonitor := {
  trading_logs : list (gmap string pyval);
  max_logs : Z
}.

Definition TradingMonitor_init : TradingMonitor :=
  {| trading_logs := []; max_logs := 100 |}.

(** The slice [l[:n]]: a negative [n] counts from the end. *)
Definition slice_to {A} (n : Z) (l : list A) : list A :=
  if n <? 0 then take (length l - Z.to_nat (- n)) l
  else take (Z.to_nat n) l.

(** [add_log], given the formatted reading of [datetime.now()]. *)
Definition add_log (now : string) (log_entry : gmap string pyval)
    (self : TradingMonitor) : TradingMonitor :=
  let logs := <["timestamp" := VStr now]> log_entry :: trading_logs self in
  {| trading_logs :=
       if max_logs self <? Z.of_nat (length logs)
       then slice_to (max_logs self) logs
       else logs;
     max_logs := max_logs self |}.

Definition get_latest_logs (count : Z) (self : TradingMonitor)
    : list (gmap string pyval) :=
  slice_to count (trading_logs self).

End Monitor.

(** ** A scripted exchange, for running the model on concrete inputs *)

Module Sim.

(** Replies are consumed in order; when a script runs out, positions are
    empty and orders are accepted. *)
Record sim := {
  fetch_script : list (exn + list raw_position);
  order_script : list (exn + gmap string pyval)
}.

Definition accepted : gmap string pyval :=
  <["id" := VStr "1"]> (<["price" := VNone]> (<["filled" := VNone]> ∅)).

Definition next_fetch (w : sim) : (exn + list raw_position) * sim :=
  match fetch_script w with
  | [] => (inr [], w)
  | r :: rest => (r, {| fetch_script := rest; order_script := order_script w |})
  end.

Definition next_order (w : sim) : (exn + gmap string pyval) * sim :=
  match order_script w with
  | [] => (inr accepted, w)
  | r :: rest => (r, {| fetch_script := fetch_script w; order_script := rest |})
  end.

#[global] Instance sim_world : World sim := {|
  w_fetch_positions := fun _ => next_fetch;
  w_create_market_buy_order := fun _ _ _ => next_order;
  w_create_market_sell_order := fun _ _ _ => next_order;
  w_create_order := fun _ _ _ _ _ _ _ => next_order;
  w_create_market_order := fun _ _ _ _ => next_order;
  w_sleep := fun _ w => w;
  w_now := fun _ => "2024-01-01 00:00:00"
|}.

Definition start (w : sim) : state sim := State w [] [] ∅.

Definition btc (amt : Q) : raw_position :=
  {| rp_symbol := "BTC/USDT:USDT";
     rp_info_positionAmt := Some (inr amt);
     rp_contracts := None;
     rp_side := None;
     rp_entryPrice := inr 50000%Q;
     rp_unrealizedPnl := inr 0%Q;
     rp_leverage := None;
     rp_liquidationPrice := None |}.

Definition flat : sim := {| fetch_script := []; order_script := [] |}.

(** The account holds the given positions, whenever it is asked. *)
Definition holding (ps : list raw_position) : sim :=
  {| fetch_script := [inr ps; inr ps; inr ps; inr ps]; order_script := [] |}.

Definition live : BinanceExecutor := BinanceExecutor_init ∅ (VBool false).
Definition paper : BinanceExecutor := BinanceExecutor_init ∅ VNone.

End Sim.

(** Inputs for the concrete runs. *)
Module Runs.

Definition short_002 : position :=
  {| p_side := "short"; p_size := 2 # 100; p_entry_price := 50000;
     p_unrealized_pnl := 0; p_position_amt := - (2 # 100);
     p_symbol := "BTC/USDT:USDT"; p_leverage := Some 1%Q;
     p_liquidation_price := Some 0%Q |}.

Definition long_001 : position :=
  {| p_side := "long"; p_size := 1 # 100; p_entry_price := 50000;
     p_unrealized_pnl := 0; p_position_amt := 1 # 100;
     p_symbol := "BTC/USDT:USDT"; p_leverage := Some 1%Q;
     p_liquidation_price := Some 0%Q |}.

Definition is_short : state Sim.sim :=
  Sim.start (Sim.holding [Sim.btc (- (2 # 100))]).

Definition is_long : state Sim.sim :=
  Sim.start (Sim.holding [Sim.btc (1 # 100)]).

Definition is_flat : state Sim.sim := Sim.start Sim.flat.

(** The exchange refuses the first order. *)
Definition refusing : state Sim.sim :=
  Sim.start {| Sim.fetch_script := [];
               Sim.order_script := [inl (Exn "NetworkError" "timed out")] |}.

Definition overloaded : M Sim.sim string :=
  raise (Exn "APIError" "Error code: 503 - service unavailable").

Definition configured : gmap string pyval :=
  <["crypto_symbol" := VStr "BTC/USDT"]>
  (<["position_size" := VNum (1 # 1000)]> ∅).

End Runs.

(** Further inputs: accounts and operations that change their answer
    from one call to the next. *)
Module Scenes.

(** A short is held; the exchange accepts the first order and refuses
    the second. *)
Definition closes_then_refuses : state Sim.sim :=
  Sim.start
    {| Sim.fetch_script := Sim.fetch_script (Sim.holding [Sim.btc (- (2 # 100))]);
       Sim.order_script :=
         [inr Sim.accepted;
          inl (Exn "InsufficientFunds" "margin is insufficient")] |}.

(** The account lists the symbol with a zero amount. *)
Definition listed_but_empty : state Sim.sim :=
  Sim.start (Sim.holding [Sim.btc 0]).

(** The position query itself fails. *)
Definition unreachable : state Sim.sim :=
  Sim.start {| Sim.fetch_script := [inl (Exn "NetworkError" "timed out")];
               Sim.order_script := [] |}.

(** Both sides are held (hedge mode), the short listed first. *)
Definition hedged : state Sim.sim :=
  Sim.start (Sim.holding [Sim.btc (- (2 # 100)); Sim.btc (1 # 100)]).



(** An operation that answers 503 once for every refusal left in the
    order script, using it up, and then answers. *)
Definition recovering : M Sim.sim string :=
  fun s =>
    match Sim.order_script (world s) with
    | inl _ :: rest =>
      (State {| Sim.fetch_script := Sim.fetch_script (world s);
                Sim.order_script := rest |}
             (trace s) (trade_history s) (result s),
       inl (Exn "APIError" "Error code: 503 - service unavailable"))
    | _ => (s, inr "pong")
    end.

(** [int] on the numerals made of ASCII digits with an optional minus
    sign; every other string is refused here. *)
Definition int_numerals (s : string) : exn + Z :=
  match NilZero.int_of_string s with
  | Some d => inr (Z.of_int d)
  | None =>
    inl (Exn "ValueError"
             ("invalid literal for int() with base 10: '" +:+ s +:+ "'"))
  end.

(** 2024-03-10 23:58:30.000005. *)
Definition late_evening : TradingScheduler.datetime :=
  {| TradingScheduler.dt_ordinal := 738955;
     TradingScheduler.dt_hour := 23;
     TradingScheduler.dt_minute := 58;
     TradingScheduler.dt_second := 30;
     TradingScheduler.dt_microsecond := 5 |}.

Definition first_log : string * gmap string pyval :=
  ("2024-03-10 23:45:02", <["decision" := VStr "HOLD"]> ∅).

Definition second_log : string * gmap string pyval :=
  ("2024-03-11 00:00:03", <["decision" := VStr "BUY"]> ∅).

Definition multi_agent : CryptoTradingAgentsGraph :=
  {| ct_config := Runs.configured; ct_executor := Sim.live;
     ct_auto_execute := true |}.

End Scenes.

(** ** Vocabulary for the statements *)

Section Vocabulary.
Context {W : Type} `{World W}.

(** What [get_current_position] reports on a world, and the world it
    leaves behind. *)
Definition position_seen (symbol : string) (w : W) : option position :=
  match fst (w_fetch_positions [symbol] w) with
  | inl _ => None
  | inr positions =>
    match scan_positions (normalize_symbol symbol) positions with
    | inl _ => None
    | inr found => found
    end
  end.

Definition world_after_fetch (symbol : string) (w : W) : W :=
  snd (w_fetch_positions [symbol] w).

(** The state in which the live branch of [execute_trade] enters its
    [try] block: the position has been fetched and [result] initialised. *)
Definition entry_state (self : BinanceExecutor) (symbol action : string)
    (amount : Q) (reason : string) (st : state W) : state W :=
  State (world_after_fetch symbol (world st))
        (trace st ++ [EvFetchPositions [symbol]])
        (trade_history st)
        (initial_result self symbol action amount reason (w_now (world st))).

(** Whether the reported position is on the given side. *)
Definition holds_side (current_position : option position) (side : string)
    : bool :=
  match current_position with
  | Some p => String.eqb (p_side p) side
  | None => false
  end.

(** The events a run added to the trace. *)
Definition added (st st' : state W) (evs : list event) : Prop :=
  trace st' = trace st ++ evs.

Definition is_market_order (e : event) : bool :=
  match e with
  | EvMarketBuy _ _ _ | EvMarketSell _ _ _ | EvMarketOrder _ _ _ _ => true
  | _ => false
  end.

(** The protective orders [_set_stop_orders] means to place for position
    [p]. *)
Definition stop_order_events (symbol : string) (p : position)
    (stop_loss take_profit : option Q) : list event :=
  let long := String.eqb (p_side p) "long" in
  let close_side := if long then "sell" else "buy" in
  let tag := if long then "LONG" else "SHORT" in
  match stop_loss with
  | Some sl =>
    if Qnonzero sl then
      [EvCreateOrder symbol "STOP_MARKET" close_side (p_size p) sl tag sl]
    else []
  | None => []
  end ++
  match take_profit with
  | Some tp =>
    if Qnonzero tp then
      [EvCreateOrder symbol "TAKE_PROFIT_MARKET" close_side (p_size p) tp tag tp]
    else []
  | None => []
  end.

(** The exchange accepts every conditional order. *)
Definition accepts_conditional_orders : Prop :=
  forall symbol type side amount price tag stopPrice (w : W),
    exists order,
      fst (w_create_order symbol type side amount price tag stopPrice w)
      = inr order.

(** [attempted] is what [_set_stop_orders] sends after its position
    query on world [w]: the protective orders in order, cut short only
    by an order the exchange refuses. *)
Definition protective_attempt (symbol : string) (w : W)
    (stop_loss take_profit : option Q) (attempted : list event) : Prop :=
  match position_seen symbol w with
  | None => attempted = []
  | Some p =>
    attempted `prefix_of` stop_order_events symbol p stop_loss take_profit
    /\ (stop_order_events symbol p stop_loss take_profit <> [] ->
        attempted <> [])
    /\ (accepts_conditional_orders ->
        attempted = stop_order_events symbol p stop_loss take_profit)
  end.


(** [result] once an order has been placed. *)
Definition placed_result (order r : gmap string pyval) : gmap string pyval :=
  <["message" := VStr "订单执行成功"]>
  (<["filled" := dict_get order "filled"]>
  (<["price" := dict_get order "price"]>
  (<["order_id" := dict_get order "id"]>
  (<["success" := VBool true]> r)))).

(** The five entries every result carries. *)
Definition well_formed_result (symbol action : string) (amount : Q)
    (timestamp : string) (r : gmap string pyval) : Prop :=
  (exists b, r !! "success" = Some (VBool b))
  /\ r !! "action" = Some (VStr action)
  /\ r !! "symbol" = Some (VStr symbol)
  /\ r !! "amount" = Some (VNum amount)
  /\ r !! "timestamp" = Some (VStr timestamp).

(** The retryable vocabulary, as a list. *)
Definition retryable_words : list string :=
  ["404"; "not found"; "500"; "502"; "503"; "504"; "timeout"; "connection";
   "rate limit"; "too many requests"].




(** The state in which the wrapper hands control to the operation. *)
Definition invoked (st : state W) : state W :=
  State (world st) (trace st ++ [EvInvoke]) (trade_history st) (result st).

(** The keywords and the markers the two decision parsers look for. *)
Definition bullish_keyword (decision : string) : bool :=
  (contains "BUY" decision || contains "做多" decision)%bool.

Definition bearish_keyword (decision : string) : bool :=
  (contains "SELL" decision || contains "做空" decision)%bool.

Definition bullish_marker (decision : string) : bool :=
  (contains "**最终决策: BUY**" decision
   || contains "**最终决策: LONG**" decision)%bool.

Definition bearish_marker (decision : string) : bool :=
  (contains "**最终决策: SELL**" decision
   || contains "**最终决策: SHORT**" decision)%bool.

Definition close_marker (decision : string) : bool :=
  contains "**最终决策: CLOSE**" decision.

End Vocabulary.

(** The number of order-placing calls among some events. *)
Definition count_orders (evs : list event) : nat :=
  length (List.filter is_order evs).

(** Reduce-only market orders: they can shrink a position, not open or
    grow one. *)
Definition is_reduce_only (e : event) : bool :=
  match e with
  | EvMarketOrder _ _ _ reduceOnly => reduceOnly
  | _ => false
  end.

(** Times of day that [datetime] can hold. *)
Definition valid_time (d : TradingScheduler.datetime) : Prop :=
  (0 <= TradingScheduler.dt_hour d < 24
   /\ 0 <= TradingScheduler.dt_minute d < 60
   /\ 0 <= TradingScheduler.dt_second d < 60
   /\ 0 <= TradingScheduler.dt_microsecond d < 1000000)%Z.

(** A [datetime] as microseconds on one axis. *)
Definition timestamp (d : TradingScheduler.datetime) : Z :=
  ((((TradingScheduler.dt_ordinal d * 24 + TradingScheduler.dt_hour d) * 60
     + TradingScheduler.dt_minute d) * 60
    + TradingScheduler.dt_second d) * 1000000
   + TradingScheduler.dt_microsecond d)%Z.

(** The minute of the day. *)
Definition minute_of_day (d : TradingScheduler.datetime) : Z :=
  (TradingScheduler.dt_hour d * 60 + TradingScheduler.dt_minute d)%Z.

(** The minutes from the midnight that starts the day of [today] to
    [d]. *)
Definition since_midnight (today d : TradingScheduler.datetime) : Z :=
  ((TradingScheduler.dt_ordinal d - TradingScheduler.dt_ordinal today) * 1440
   + minute_of_day d)%Z.

(** The days [datetime] can hold: 0001-01-01 to 9999-12-31. *)
Definition representable_day (ordinal : Z) : Prop :=
  (1 <= ordinal <= 3652059)%Z.

(** [next_period] of [get_next_timeframe_time], in minutes from today's
    midnight. *)
Definition coming_boundary (minutes : Z) (now : TradingScheduler.datetime)
    : Z :=
  ((minute_of_day now / minutes + 1) * minutes)%Z.

(** The text of a minute of the day in [get_aligned_intervals]. *)
Definition hhmm (total_minutes : Z) : string :=
  TradingScheduler.format_02d (total_minutes / 60)
  +:+ ":" +:+ TradingScheduler.format_02d (total_minutes mod 60).

(** A log entry as [add_log] stores it, and a run of [add_log] calls;
    each entry comes with the clock reading of its call. *)
Definition stamp (e : string * gmap string pyval) : gmap string pyval :=
  <["timestamp" := VStr e.1]> e.2.

Definition add_logs (entries : list (string * gmap string pyval))
    (self : Monitor.TradingMonitor) : Monitor.TradingMonitor :=
  foldl (fun m e => Monitor.add_log e.1 e.2 m) self entries.

Section RetryVocabulary.
Context {W : Type} `{World W}.


(** The state after [time.sleep(seconds)]. *)
Definition slept (seconds : Q) (st : state W) : state W :=
  State (w_sleep seconds (world st)) (trace st ++ [EvSleep seconds])
        (trade_history st) (result st).

End RetryVocabulary.

(** Conditional (stop and take-profit) orders. *)
Definition is_conditional_order (e : event) : bool :=
  match e with
  | EvCreateOrder _ _ _ _ _ _ _ => true
  | _ => false
  end.

(** ** Running the executor *)

(** A delay that [time.sleep] accepts is slept. *)
Lemma sleep_accepted {W : Type} `{World W} (seconds : Q) :
  sleepable seconds = true ->
  sleep seconds
  = call (EvSleep seconds) (fun w => (inr tt, w_sleep seconds w)).
Proof.
  unfold sleepable, sleep. intros [Hfits Hpositive]%andb_prop.
  destruct (sleep_overflows seconds); [discriminate |].
  by rewrite Hpositive.
Qed.

(** A delay that [time.sleep] refuses raises, and nothing happens. *)
Lemma sleep_refused {W : Type} `{World W} (seconds : Q) (st : state W) :
  sleepable seconds = false ->
  exists e,
    sleep seconds st = (st, inl e)
    /\ (exn_type e = "ValueError" \/ exn_type e = "OverflowError").
Proof.
  unfold sleepable, sleep. intros Hrefused.
  destruct (sleep_overflows seconds); [by eexists; split; [| right] |].
  cbn [negb andb] in Hrefused. rewrite Hrefused. cbn [negb].
  by eexists; split; [| left].
Qed.

(** The two delays of the executor. *)
Ltac awake :=
  rewrite ?(sleep_accepted 1), ?(sleep_accepted 2) by reflexivity.

(** Case analysis on every branch and every reply of the exchange. *)
Ltac split_run :=
  repeat (cbn in *;
          match goal with
          | |- context [match ?x with _ => _ end] => is_var x; destruct x
          | |- context [if ?b then _ else _] => destruct b eqn:?
          | |- context [w_create_market_buy_order ?a ?b ?c ?w] =>
            destruct (w_create_market_buy_order a b c w) as [[?|?] ?] eqn:?
          | |- context [w_create_market_sell_order ?a ?b ?c ?w] =>
            destruct (w_create_market_sell_order a b c w) as [[?|?] ?] eqn:?
          | |- context [w_create_market_order ?a ?b ?c ?d ?w] =>
            destruct (w_create_market_order a b c d w) as [[?|?] ?] eqn:?
          | |- context [w_create_order ?a ?b ?c ?d ?e ?f ?g ?w] =>
            destruct (w_create_order a b c d e f g w) as [[?|?] ?] eqn:?
          end);
  cbn in *.

Ltac unfold_calls :=
  awake;
  unfold create_market_buy_order, create_market_sell_order, create_order,
    create_market_order, sleep, call, set_result, get_result, history_append,
    lift, ret, raise.

Ltac refused_order Hacc :=
  exfalso;
  match goal with
  | Heq : w_create_order ?a ?b ?c ?d ?e ?f ?g ?w = (inl _, _) |- _ =>
    let o := fresh "o" in
    let Ho := fresh "Ho" in
    destruct (Hacc a b c d e f g w) as [o Ho];
    rewrite Heq in Ho; discriminate Ho
  end.

Ltac exists_last_events protective :=
  eexists _, _, (protective ++ [_; _]);
  split; [reflexivity |];
  split; [unfold added; cbn; by rewrite <- !app_assoc |].

Ltac fresh_key :=
  rewrite !not_elem_of_cons; repeat split; try discriminate;
  apply not_elem_of_nil.

Section ExecutorFacts.
Context {W : Type} `{World W}.

Lemma get_current_position_run symbol (st : state W) :
  get_current_position symbol st =
  (State (world_after_fetch symbol (world st))
         (trace st ++ [EvFetchPositions [symbol]])
         (trade_history st) (result st),
   inr (position_seen symbol (world st))).
Proof.
  unfold get_current_position, try_catch, bind, fetch_positions, call, lift,
    position_seen, world_after_fetch, ret.
  destruct (w_fetch_positions [symbol] (world st)) as [[e | positions] w];
    cbn; [reflexivity |].
  destruct (scan_positions (normalize_symbol symbol) positions) as [e | found];
    reflexivity.
Qed.

Lemma bind_run {A B} (m : M W A) (k : A -> M W B) (st : state W) :
  bind m k st =
  match m st with
  | (st', inr a) => k a st'
  | (st', inl e) => (st', inl e)
  end.
Proof. reflexivity. Qed.

Lemma execute_trade_test_run self symbol action amount stop_loss take_profit
    reason (st : state W) :
  truthy (test_mode self) = true ->
  let r := <["message" := VStr "测试模式：模拟交易成功"]>
           (<["success" := VBool true]>
            (initial_result self symbol action amount reason
               (w_now (world st)))) in
  execute_trade self symbol action amount stop_loss take_profit reason st =
  (State (world_after_fetch symbol (world st))
         (trace st ++ [EvFetchPositions [symbol]])
         (trade_history st) r,
   inr r).
Proof.
  intros Htest. unfold execute_trade.
  cbn [bind now new_result].
  rewrite bind_run, get_current_position_run, Htest. reflexivity.
Qed.

Lemma execute_trade_live_run self symbol action amount stop_loss take_profit
    reason (st : state W) :
  truthy (test_mode self) = false ->
  execute_trade self symbol action amount stop_loss take_profit reason st =
  try_catch
    (placed <- dispatch symbol action amount
                 (position_seen symbol (world st));;
     match placed with
     | None => get_result
     | Some order =>
       record_order symbol stop_loss take_profit order;;
       get_result
     end)
    (fun e =>
       set_result "message" (VStr ("订单执行失败: " +:+ exn_str e));;
       get_result)
    (entry_state self symbol action amount reason st).
Proof.
  intros Hlive. unfold execute_trade.
  cbn [bind now new_result].
  rewrite bind_run, get_current_position_run, Hlive. reflexivity.
Qed.

(** What [dispatch] does to [result]: nothing when it places an order or
    fails, a message (and [success] for HOLD) when it returns early. *)
Lemma dispatch_result symbol action amount cp (st : state W) :
  match snd (dispatch symbol action amount cp st) with
  | inl _ | inr (Some _) =>
    result (fst (dispatch symbol action amount cp st)) = result st
  | inr None =>
    exists m,
      result (fst (dispatch symbol action amount cp st))
      = <["message" := VStr m]> (result st)
      \/ (action = "HOLD" /\
          result (fst (dispatch symbol action amount cp st))
          = <["message" := VStr m]> (<["success" := VBool true]> (result st)))
  end.
Proof.
  unfold dispatch, bind. unfold_calls.
  destruct (String.eqb action "BUY");
    [| destruct (String.eqb action "SELL");
       [| destruct (String.eqb action "CLOSE_LONG");
          [| destruct (String.eqb action "CLOSE_SHORT");
             [| destruct (String.eqb action "HOLD") eqn:Hhold ]]]];
    cbn; split_run; try reflexivity; eauto.
  apply String.eqb_eq in Hhold. eauto.
Qed.

(** [_set_stop_orders] never raises and leaves [result] and
    [trade_history] alone. *)
Lemma _set_stop_orders_run symbol stop_loss take_profit (st : state W) :
  exists w' attempted,
    _set_stop_orders symbol stop_loss take_profit st =
    (State w' (trace st ++ EvFetchPositions [symbol] :: attempted)
           (trade_history st) (result st), inr tt)
    /\ protective_attempt symbol (world st) stop_loss take_profit attempted.
Proof.
  unfold _set_stop_orders, try_catch, protective_attempt.
  rewrite bind_run, get_current_position_run.
  destruct (position_seen symbol (world st)) as [p |].
  - unfold bind, stop_order_events. unfold_calls.
    split_run;
      (eexists _, _; split;
       [ rewrite <- ?app_assoc; reflexivity
       | split; [| split ];
         [ repeat apply prefix_cons; apply prefix_nil
         | try discriminate; intros Hne; try congruence
         | intros Hacc; first [ reflexivity | refused_order Hacc ] ] ]).
  - eexists _, []. split; reflexivity.
Qed.

Lemma record_order_run symbol stop_loss take_profit order (st : state W) :
  dict_truthy order = true ->
  exists w' protective new_position,
    let r := <["new_position" := opt_pos new_position]>
             (placed_result order (result st)) in
    record_order symbol stop_loss take_profit order st =
    (State w'
           (trace st ++ protective ++ [EvSleep 2; EvFetchPositions [symbol]])
           (trade_history st ++ [HTrade r]) r, inr tt)
    /\ if (opt_truthy stop_loss || opt_truthy take_profit)%bool
       then exists attempted,
           protective = EvSleep 1 :: EvFetchPositions [symbol] :: attempted
           /\ protective_attempt symbol (w_sleep 1 (world st))
                stop_loss take_profit attempted
       else protective = [].
Proof.
  intros Horder. unfold record_order. rewrite Horder.
  cbn [bind set_result world trace trade_history result].
  destruct (opt_truthy stop_loss || opt_truthy take_profit)%bool.
  - awake. rewrite bind_run.
    cbn [bind sleep call world trace trade_history result].
    match goal with
    | |- context [_set_stop_orders symbol stop_loss take_profit ?s] =>
      destruct (_set_stop_orders_run symbol stop_loss take_profit s)
        as (w1 & attempted & Hrun & Hatt)
    end.
    rewrite Hrun.
    cbn [bind sleep call world trace trade_history result].
    rewrite bind_run, get_current_position_run.
    cbn [bind set_result get_result history_append
         world trace trade_history result].
    eexists _, (EvSleep 1 :: EvFetchPositions [symbol] :: attempted), _.
    split; [| exists attempted; split; [reflexivity | exact Hatt]].
    unfold placed_result. rewrite <- !app_assoc. reflexivity.
  - awake. cbn [bind ret sleep call world trace trade_history result].
    rewrite bind_run, get_current_position_run.
    cbn [bind set_result get_result history_append
         world trace trade_history result].
    eexists _, [], _. split; [| reflexivity].
    unfold placed_result. rewrite <- !app_assoc. reflexivity.
Qed.

Lemma record_order_falsy symbol stop_loss take_profit order (st : state W) :
  dict_truthy order = false ->
  record_order symbol stop_loss take_profit order st = (st, inr tt).
Proof. intros Horder. unfold record_order. rewrite Horder. reflexivity. Qed.

Lemma get_current_position_seen symbol (st : state W) cp :
  snd (get_current_position symbol st) = inr cp ->
  position_seen symbol (world st) = cp.
Proof. rewrite get_current_position_run. cbn. congruence. Qed.

(** The live branch: what comes back once [dispatch] has run. *)
Lemma execute_trade_after_dispatch self symbol action amount stop_loss
    take_profit reason (st : state W) :
  truthy (test_mode self) = false ->
  let entry := entry_state self symbol action amount reason st in
  let d := dispatch symbol action amount (position_seen symbol (world st))
             entry in
  execute_trade self symbol action amount stop_loss take_profit reason st =
  match snd d with
  | inl e =>
    (State (world (fst d)) (trace (fst d)) (trade_history (fst d))
           (<["message" := VStr ("订单执行失败: " +:+ exn_str e)]>
              (result (fst d))),
     inr (<["message" := VStr ("订单执行失败: " +:+ exn_str e)]>
            (result (fst d))))
  | inr None => (fst d, inr (result (fst d)))
  | inr (Some order) =>
    let b := record_order symbol stop_loss take_profit order (fst d) in
    (fst b, inr (result (fst b)))
  end.
Proof.
  intros Hlive entry d. rewrite execute_trade_live_run by exact Hlive.
  unfold try_catch. rewrite bind_run. fold entry. fold d.
  destruct d as [st1 [e | [order |]]]; cbn [fst snd]; try reflexivity.
  rewrite bind_run.
  destruct (dict_truthy order) eqn:Horder.
  - destruct (record_order_run symbol stop_loss take_profit order st1 Horder)
      as (w' & protective & np & Hrun & _).
    cbn zeta in Hrun. rewrite Hrun. reflexivity.
  - rewrite record_order_falsy by exact Horder. reflexivity.
Qed.

Lemma execute_trade_dispatched self symbol action amount stop_loss
    take_profit reason (st st1 : state W) out :
  truthy (test_mode self) = false ->
  dispatch symbol action amount (position_seen symbol (world st))
    (entry_state self symbol action amount reason st) = (st1, out) ->
  execute_trade self symbol action amount stop_loss take_profit reason st =
  match out with
  | inl e =>
    (State (world st1) (trace st1) (trade_history st1)
           (<["message" := VStr ("订单执行失败: " +:+ exn_str e)]>
              (result st1)),
     inr (<["message" := VStr ("订单执行失败: " +:+ exn_str e)]>
            (result st1)))
  | inr None => (st1, inr (result st1))
  | inr (Some order) =>
    let b := record_order symbol stop_loss take_profit order st1 in
    (fst b, inr (result (fst b)))
  end.
Proof.
  intros Hlive Hd. rewrite execute_trade_after_dispatch by exact Hlive.
  cbn zeta. rewrite Hd. reflexivity.
Qed.

(** BUY on a short position, the closing order accepted. *)
Lemma dispatch_buy_on_short symbol amount p (st : state W) closing w1 :
  p_side p = "short" ->
  w_create_market_buy_order symbol (p_size p) "SHORT" (world st)
  = (inr closing, w1) ->
  dispatch symbol "BUY" amount (Some p) st =
  (State (snd (w_create_market_buy_order symbol amount "LONG" (w_sleep 1 w1)))
         (trace st ++ [EvMarketBuy symbol (p_size p) "SHORT"; EvSleep 1;
                       EvMarketBuy symbol amount "LONG"])
         (trade_history st) (result st),
   match fst (w_create_market_buy_order symbol amount "LONG" (w_sleep 1 w1))
   with
   | inl e => inl e
   | inr order => inr (Some order)
   end).
Proof.
  intros Hside Hclose. unfold dispatch. cbn [String.eqb Ascii.eqb Bool.eqb].
  rewrite Hside. cbn [String.eqb Ascii.eqb Bool.eqb negb].
  awake. unfold bind, create_market_buy_order, sleep, call, ret.
  rewrite Hclose. cbn [world trace trade_history result].
  destruct (w_create_market_buy_order symbol amount "LONG" (w_sleep 1 w1))
    as [[e | order] w2]; cbn [fst snd]; by rewrite <- !app_assoc.
Qed.

Lemma initial_result_well_formed self symbol action amount reason timestamp :
  well_formed_result symbol action amount timestamp
    (initial_result self symbol action amount reason timestamp).
Proof.
  unfold well_formed_result, initial_result.
  repeat split; [exists false |..]; by simplify_map_eq.
Qed.

Lemma well_formed_insert symbol action amount timestamp r k v :
  k ∉ ["success"; "action"; "symbol"; "amount"; "timestamp"] ->
  well_formed_result symbol action amount timestamp r ->
  well_formed_result symbol action amount timestamp (<[k := v]> r).
Proof.
  intros Hk ([b Hb] & Ha & Hs & Hm & Ht).
  repeat split; [exists b |..];
    (rewrite lookup_insert_ne; [assumption |]);
    intros ->; apply Hk; set_solver.
Qed.

Lemma well_formed_success symbol action amount timestamp r b :
  well_formed_result symbol action amount timestamp r ->
  well_formed_result symbol action amount timestamp
    (<["success" := VBool b]> r).
Proof.
  intros (_ & Ha & Hs & Hm & Ht).
  repeat split; [exists b |..]; by simplify_map_eq.
Qed.

Lemma placed_result_well_formed symbol action amount timestamp order r :
  well_formed_result symbol action amount timestamp r ->
  well_formed_result symbol action amount timestamp (placed_result order r).
Proof.
  intros Hr. unfold placed_result.
  repeat (apply well_formed_insert; [fresh_key |]).
  by apply well_formed_success.
Qed.

Lemma placed_result_success order r :
  placed_result order r !! "success" = Some (VBool true).
Proof. unfold placed_result. by simplify_map_eq. Qed.

(** The protective orders are conditional orders, never market orders. *)
Lemma stop_order_events_conditional symbol p stop_loss take_profit :
  Forall (fun e => is_market_order e = false)
         (stop_order_events symbol p stop_loss take_profit).
Proof.
  unfold stop_order_events.
  destruct stop_loss as [sl |], take_profit as [tp |]; cbn;
    repeat match goal with
           | |- context [if ?b then _ else _] => destruct b
           end; cbn; repeat constructor.
Qed.



Lemma protective_attempt_no_market symbol (w : W) stop_loss take_profit
    attempted :
  protective_attempt symbol w stop_loss take_profit attempted ->
  Forall (fun e => is_market_order e = false) attempted.
Proof.
  unfold protective_attempt.
  destruct (position_seen symbol w) as [p |]; [| intros ->; constructor].
  intros ([rest Hpre] & _).
  pose proof (stop_order_events_conditional symbol p stop_loss take_profit)
    as Hall.
  rewrite Hpre in Hall. by apply Forall_app in Hall as [Hall _].
Qed.

(** *** The test-mode gate *)

(** C1.  A constructor call without [test_mode] on a configuration that
    lacks the key [binance_test_mode] yields [test_mode = True]; and with
    a true [test_mode], whatever the action, [execute_trade] returns a
    result with [success = True] after one position query and no order. *)
Theorem test_mode_gate cfg self symbol action amount stop_loss take_profit
    reason (st : state W) :
  (cfg !! "binance_test_mode" = None ->
   test_mode (BinanceExecutor_init cfg VNone) = VBool true)
  /\ (truthy (test_mode self) = true ->
      exists st' r,
        execute_trade self symbol action amount stop_loss take_profit
          reason st = (st', inr r)
        /\ r !! "success" = Some (VBool true)
        /\ added st st' [EvFetchPositions [symbol]]
        /\ Forall (fun e => is_order e = false) [EvFetchPositions [symbol]]).
Proof.
  split.
  - intros Hmissing. cbn. by rewrite Hmissing.
  - intros Htest.
    rewrite execute_trade_test_run by exact Htest. cbn zeta.
    eexists _, _. split; [reflexivity |].
    split; [by simplify_map_eq |].
    split; [reflexivity | by repeat constructor].
Qed.

(** *** HOLD *)

(** C8, as the code has it.  For HOLD, in either mode, [execute_trade]
    returns [success = True], places no order and records nothing; its
    one contact with the exchange is the position query made before the
    action is looked at. *)
Theorem hold_places_no_order self symbol amount stop_loss take_profit reason
    (st : state W) :
  exists st' r,
    execute_trade self symbol "HOLD" amount stop_loss take_profit reason st
    = (st', inr r)
    /\ r !! "success" = Some (VBool true)
    /\ added st st' [EvFetchPositions [symbol]]
    /\ trade_history st' = trade_history st.
Proof.
  destruct (truthy (test_mode self)) eqn:Hmode.
  - rewrite execute_trade_test_run by exact Hmode. cbn zeta.
    eexists _, _. split; [reflexivity |].
    split; [by simplify_map_eq |]. split; reflexivity.
  - rewrite execute_trade_after_dispatch by exact Hmode. cbn.
    eexists _, _. split; [reflexivity |].
    split; [by simplify_map_eq |]. split; reflexivity.
Qed.

(** *** Closing a side that is flat *)

(** C2, as the code has it.  CLOSE_LONG (CLOSE_SHORT) when the reported
    position is absent or on the other side: no order is placed, nothing
    is raised and nothing is recorded.  In live mode the result carries
    the message "no long (short) position to close" with [success] left
    at [False]; only test mode reports [success = True]. *)
Theorem close_flat_side_places_no_order self symbol action side amount
    stop_loss take_profit reason (st : state W) cp :
  snd (get_current_position symbol st) = inr cp ->
  holds_side cp side = false ->
  (action = "CLOSE_LONG" /\ side = "long")
  \/ (action = "CLOSE_SHORT" /\ side = "short") ->
  exists st' r,
    execute_trade self symbol action amount stop_loss take_profit reason st
    = (st', inr r)
    /\ added st st' [EvFetchPositions [symbol]]
    /\ trade_history st' = trade_history st
    /\ r !! "success" = Some (VBool (truthy (test_mode self)))
    /\ (truthy (test_mode self) = false ->
        r !! "message" =
        Some (VStr (if String.eqb side "long" then "没有多仓可平"
                    else "没有空仓可平"))).
Proof.
  intros Hcp Hflat Haction.
  apply get_current_position_seen in Hcp.
  destruct (truthy (test_mode self)) eqn:Hmode.
  - rewrite execute_trade_test_run by exact Hmode. cbn zeta.
    eexists _, _. split; [reflexivity |].
    split; [reflexivity |]. split; [reflexivity |].
    split; [by simplify_map_eq | discriminate].
  - rewrite execute_trade_after_dispatch by exact Hmode.
    rewrite Hcp.
    destruct Haction as [[-> ->] | [-> ->]];
      destruct cp as [p |]; cbn in Hflat; cbn; rewrite ?Hflat; cbn;
      (eexists _, _; split; [reflexivity |];
       split; [reflexivity |]; split; [reflexivity |];
       split; [by simplify_map_eq | intros _; by simplify_map_eq]).
Qed.

(** *** Entering a side already held *)

(** C4.  BUY while the reported position is long (SELL while it is
    short): no order is placed and nothing is recorded, in either mode;
    in live mode the result carries the message "already long (short),
    not opening again". *)
Theorem same_side_entry_places_no_order self symbol action side amount
    stop_loss take_profit reason (st : state W) cp :
  snd (get_current_position symbol st) = inr cp ->
  holds_side cp side = true ->
  (action = "BUY" /\ side = "long") \/ (action = "SELL" /\ side = "short") ->
  exists st' r,
    execute_trade self symbol action amount stop_loss take_profit reason st
    = (st', inr r)
    /\ added st st' [EvFetchPositions [symbol]]
    /\ Forall (fun e => is_order e = false) [EvFetchPositions [symbol]]
    /\ trade_history st' = trade_history st
    /\ (truthy (test_mode self) = false ->
        r !! "message" =
        Some (VStr (if String.eqb side "long" then "已有多仓，不重复开仓"
                    else "已有空仓，不重复开仓"))).
Proof.
  intros Hcp Hheld Haction.
  apply get_current_position_seen in Hcp.
  destruct (truthy (test_mode self)) eqn:Hmode.
  - rewrite execute_trade_test_run by exact Hmode. cbn zeta.
    eexists _, _. split; [reflexivity |].
    split; [reflexivity |]. split; [by repeat constructor |].
    split; [reflexivity | discriminate].
  - rewrite execute_trade_after_dispatch by exact Hmode.
    rewrite Hcp.
    destruct cp as [p |]; [| discriminate Hheld]. cbn in Hheld.
    destruct Haction as [[-> ->] | [-> ->]];
      apply String.eqb_eq in Hheld; cbn; rewrite Hheld; cbn;
      (eexists _, _; split; [reflexivity |];
       split; [reflexivity |]; split; [by repeat constructor |];
       split; [reflexivity | intros _; by simplify_map_eq]).
Qed.

(** *** Reversing a short into a long *)

(** C3.  Live BUY while the reported position is short, the exchange
    accepting the closing order: after the position query the executor
    sends a market buy of the short's size tagged SHORT, sleeps one
    second, then sends a market buy of the requested amount tagged LONG.
    Nothing that follows is a market order, and without stop-loss and
    take-profit nothing that follows is an order at all. *)
Theorem buy_closes_short_then_opens_long self symbol amount stop_loss
    take_profit reason (st : state W) p closing :
  truthy (test_mode self) = false ->
  snd (get_current_position symbol st) = inr (Some p) ->
  p_side p = "short" ->
  fst (w_create_market_buy_order symbol (p_size p) "SHORT"
         (world (fst (get_current_position symbol st)))) = inr closing ->
  exists st' r rest,
    execute_trade self symbol "BUY" amount stop_loss take_profit reason st
    = (st', inr r)
    /\ added st st'
         ([EvFetchPositions [symbol];
           EvMarketBuy symbol (p_size p) "SHORT";
           EvSleep 1;
           EvMarketBuy symbol amount "LONG"] ++ rest)
    /\ Forall (fun e => is_market_order e = false) rest
    /\ ((opt_truthy stop_loss || opt_truthy take_profit)%bool = false ->
        Forall (fun e => is_order e = false) rest).
Proof.
  intros Hlive Hcp Hside Hclose.
  apply get_current_position_seen in Hcp.
  rewrite get_current_position_run in Hclose. cbn [fst world] in Hclose.
  destruct (w_create_market_buy_order symbol (p_size p) "SHORT"
              (world_after_fetch symbol (world st))) as [reply w1] eqn:Hcall.
  cbn [fst] in Hclose. subst reply.
  erewrite execute_trade_dispatched; [| exact Hlive |].
  2:{ rewrite Hcp. apply (dispatch_buy_on_short _ _ _ _ closing w1);
      [exact Hside | exact Hcall]. }
  destruct (w_create_market_buy_order symbol amount "LONG" (w_sleep 1 w1))
    as [[e | order] w2]; cbn [fst snd].
  - eexists _, _, []. split; [reflexivity |].
    split; [unfold added; cbn; by rewrite <- !app_assoc |].
    split; [constructor | intros _; constructor].
  - destruct (dict_truthy order) eqn:Horder.
    + match goal with
      | |- context [record_order symbol stop_loss take_profit order ?s] =>
        destruct (record_order_run symbol stop_loss take_profit order s
                    Horder) as (w' & protective & np & Hrun & Hprot)
      end.
      cbn zeta in Hrun. cbn zeta. rewrite Hrun.
      cbn [fst snd result trace entry_state] in *.
      exists_last_events protective.
      destruct (opt_truthy stop_loss || opt_truthy take_profit)%bool.
      * destruct Hprot as (attempted & -> & Hatt).
        split; [| discriminate].
        apply Forall_app. split; [| by repeat constructor].
        repeat constructor.
        by eapply protective_attempt_no_market.
      * subst protective. split; [| intros _]; by repeat constructor.
    + cbn zeta. rewrite record_order_falsy by exact Horder.
      eexists _, _, []. split; [reflexivity |].
      split; [unfold added; cbn; by rewrite <- !app_assoc |].
      split; [constructor | intros _; constructor].
Qed.

(** *** Every call returns a result *)

Lemma dispatch_unknown symbol action amount cp (st : state W) :
  action ∉ ["BUY"; "SELL"; "CLOSE_LONG"; "CLOSE_SHORT"; "HOLD"] ->
  dispatch symbol action amount cp st =
  (State (world st) (trace st) (trade_history st)
         (<["message" := VStr ("未知的交易动作: " +:+ action)]> (result st)),
   inr None).
Proof.
  rewrite !not_elem_of_cons. intros (Hb & Hs & Hl & Hc & Hh & _).
  apply String.eqb_neq in Hb, Hs, Hl, Hc, Hh.
  unfold dispatch. rewrite Hb, Hs, Hl, Hc, Hh. reflexivity.
Qed.

(** C5.  [execute_trade] never raises: for every symbol, action and
    amount, in either mode, it returns a result dict holding [success],
    [action], [symbol], [amount] and [timestamp].  In live mode an action
    outside the five known ones places no order and comes back with
    [success = False] and the message "unknown action"; and an exception
    raised while the order is being placed is caught and reported in the
    message of the returned result, with [success = False]. *)
Theorem execute_trade_never_raises self symbol action amount stop_loss
    take_profit reason (st : state W) :
  (exists st' r,
      execute_trade self symbol action amount stop_loss take_profit reason st
      = (st', inr r)
      /\ well_formed_result symbol action amount (w_now (world st)) r)
  /\ (truthy (test_mode self) = false ->
      action ∉ ["BUY"; "SELL"; "CLOSE_LONG"; "CLOSE_SHORT"; "HOLD"] ->
      exists st' r,
        execute_trade self symbol action amount stop_loss take_profit
          reason st = (st', inr r)
        /\ added st st' [EvFetchPositions [symbol]]
        /\ r !! "success" = Some (VBool false)
        /\ r !! "message" = Some (VStr ("未知的交易动作: " +:+ action)))
  /\ (truthy (test_mode self) = false ->
      forall st1 e,
        dispatch symbol action amount (position_seen symbol (world st))
          (entry_state self symbol action amount reason st) = (st1, inl e) ->
        exists st' r,
          execute_trade self symbol action amount stop_loss take_profit
            reason st = (st', inr r)
          /\ trace st' = trace st1
          /\ r !! "success" = Some (VBool false)
          /\ r !! "message"
             = Some (VStr ("订单执行失败: " +:+ exn_str e))).
Proof.
  pose proof (initial_result_well_formed self symbol action amount reason
                (w_now (world st))) as Hwf.
  split; [| split].
  - destruct (truthy (test_mode self)) eqn:Hmode.
    + rewrite execute_trade_test_run by exact Hmode. cbn zeta.
      eexists _, _. split; [reflexivity |].
      apply well_formed_insert; [fresh_key |].
      by apply well_formed_success.
    + destruct (dispatch symbol action amount
                  (position_seen symbol (world st))
                  (entry_state self symbol action amount reason st))
        as [st1 out] eqn:Hd.
      pose proof (dispatch_result symbol action amount
                    (position_seen symbol (world st))
                    (entry_state self symbol action amount reason st))
        as Hres.
      rewrite Hd in Hres. cbn [fst snd entry_state result] in Hres.
      erewrite execute_trade_dispatched by eassumption.
      destruct out as [e | [order |]].
      * eexists _, _. split; [reflexivity |]. rewrite Hres.
        by apply well_formed_insert; [fresh_key |].
      * destruct (dict_truthy order) eqn:Horder.
        -- destruct (record_order_run symbol stop_loss take_profit order st1
                       Horder) as (w' & protective & np & Hrun & _).
           cbn zeta in Hrun. cbn zeta. rewrite Hrun. cbn [fst result].
           eexists _, _. split; [reflexivity |]. rewrite Hres.
           apply well_formed_insert; [fresh_key |].
           by apply placed_result_well_formed.
        -- cbn zeta. rewrite record_order_falsy by exact Horder.
           eexists _, _. split; [reflexivity |]. cbn [fst]. by rewrite Hres.
      * eexists _, _. split; [reflexivity |].
        destruct Hres as [m [-> | [_ ->]]];
          (apply well_formed_insert; [fresh_key |]); [done |].
        by apply well_formed_success.
  - intros Hlive Hunknown.
    erewrite execute_trade_dispatched;
      [| exact Hlive | by apply dispatch_unknown].
    eexists _, _. split; [reflexivity |].
    split; [reflexivity |].
    cbn [result entry_state]. destruct Hwf as ([b Hb] & _).
    unfold initial_result. split; by simplify_map_eq.
  - intros Hlive st1 e Hd.
    pose proof (dispatch_result symbol action amount
                  (position_seen symbol (world st))
                  (entry_state self symbol action amount reason st))
      as Hres.
    rewrite Hd in Hres. cbn [fst snd entry_state result] in Hres.
    erewrite execute_trade_dispatched by eassumption.
    eexists _, _. split; [reflexivity |].
    split; [reflexivity |]. rewrite Hres.
    unfold initial_result. split; by simplify_map_eq.
Qed.

(** *** Protective orders *)


End ExecutorFacts.

(** ** Strings *)

Lemma prefix_lower needle hay :
  String.prefix needle hay = true ->
  String.prefix (lower needle) (lower hay) = true.
Proof.
  revert needle. induction hay as [| b hay IH]; intros [| a needle]; cbn;
    try done.
  destruct (ascii_dec a b) as [-> | Hab]; [| done].
  intros Hp. destruct (ascii_dec (lower_ascii b) (lower_ascii b)); [| done].
  by apply IH.
Qed.

Lemma contains_lower needle hay :
  contains needle hay = true -> contains (lower needle) (lower hay) = true.
Proof.
  induction hay as [| c hay IH]; cbn [contains lower].
  - destruct (String.prefix needle "") eqn:Hp; [| done].
    intros _. apply prefix_lower in Hp. cbn [lower] in Hp. by rewrite Hp.
  - destruct (String.prefix needle (String c hay)) eqn:Hp.
    + intros _. apply prefix_lower in Hp. cbn [lower] in Hp. by rewrite Hp.
    + intros Hc. rewrite (IH Hc).
      by destruct (String.prefix (lower needle) _).
Qed.


(** ** Running the retry wrapper *)

Section RetryFacts.
Context {W : Type} `{World W} {A : Type}.
Variable max_retries : Z.
Variables base_delay backoff_factor : Q.
Variable func : M W A.

Lemma range_succ n : (0 <= n)%Z -> range (n + 1) = range n ++ [n].
Proof.
  intros Hn. unfold range.
  replace (Z.to_nat (n + 1)) with (S (Z.to_nat n)) by lia.
  rewrite seq_S, map_app. cbn. by rewrite Z2Nat.id.
Qed.


Lemma is_retryable_words message :
  is_retryable message = true <->
  exists word, word ∈ retryable_words /\ contains word message = true.
Proof.
  unfold is_retryable, retryable_words. split.
  - intros Hany.
    repeat (apply orb_prop in Hany as [Hany | Hany]);
      (eexists; split; [| exact Hany]); set_solver.
  - intros (word & Hword & Hin).
    repeat (apply elem_of_cons in Hword as [-> | Hword];
            [rewrite Hin; by rewrite ?orb_true_r |]).
    by apply elem_of_nil in Hword.
Qed.




End RetryFacts.

(** ** The decision parsers *)

Section GraphFacts.
Context {W : Type} `{World W}.

(** C7.  A decision text with neither keyword leaves
    [_execute_trade_decision] at HOLD, and one with none of the markers
    sends [SimpleCryptoTradingGraph.execute_trade] down its HOLD branch;
    in both cases the executor is not called and the state is untouched.
    A text with a bullish and a bearish keyword (marker) is read as BUY:
    the bullish test comes first. *)
Theorem decision_parsing_defaults_to_hold (graph : CryptoTradingAgentsGraph)
    (simple : SimpleCryptoTradingGraph) decision symbol (st : state W) :
  (bullish_keyword decision = false ->
   bearish_keyword decision = false ->
   decision_action decision = "HOLD"
   /\ _execute_trade_decision graph decision symbol st = (st, inr tt))
  /\ (bullish_marker decision = false ->
      bearish_marker decision = false ->
      close_marker decision = false ->
      marked_action decision = None
      /\ simple_execute_trade simple decision st = (st, inr tt))
  /\ (bullish_keyword decision = true ->
      bearish_keyword decision = true ->
      decision_action decision = "BUY")
  /\ (bullish_marker decision = true ->
      bearish_marker decision = true ->
      marked_action decision = Some "BUY").
Proof.
  unfold bullish_keyword, bearish_keyword, bullish_marker, bearish_marker,
    close_marker.
  split; [| split; [| split]].
  - intros Hbull Hbear.
    unfold _execute_trade_decision, decision_action.
    by rewrite Hbull, Hbear.
  - intros Hbull Hbear Hclose.
    unfold simple_execute_trade, marked_action.
    rewrite Hbull, Hbear, Hclose. split; [done |].
    destruct (sg_auto_execute simple); [| done].
    by destruct (sg_executor simple).
  - intros Hbull _. unfold decision_action. by rewrite Hbull.
  - intros Hbull _. unfold marked_action. by rewrite Hbull.
Qed.

Lemma close_position_returns executor symbol (st : state W) :
  exists r, snd (close_position executor symbol st) = inr r.
Proof.
  unfold close_position, try_catch.
  destruct (bind _ _ st) as [st' [e | r]]; cbn; eauto.
Qed.

(** C10.  With auto-execute on, an executor in place and the symbol and
    the position size configured: a decision marked BUY or SELL calls
    [open_long] or [open_short], which [BinanceExecutor] does not have;
    the [AttributeError] is caught, so the call returns normally with the
    state untouched, no order placed.  A decision marked CLOSE reaches
    [close_position], which the class defines. *)
Theorem simple_graph_never_opens_a_position (self : SimpleCryptoTradingGraph)
    executor decision action symbol quantity (st : state W) :
  sg_auto_execute self = true ->
  sg_executor self = Some executor ->
  sg_config self !! "crypto_symbol" = Some symbol ->
  sg_config self !! "position_size" = Some quantity ->
  marked_action decision = Some action ->
  (action = "BUY" \/ action = "SELL" ->
   simple_execute_trade self decision st = (st, inr tt))
  /\ (forall name args,
        name = "open_long" \/ name = "open_short" ->
        (name ∉ BinanceExecutor_attributes)
        /\ call_method executor name args st =
           (st, inl (Exn "AttributeError"
                         ("'BinanceExecutor' object has no attribute '"
                          +:+ name +:+ "'"))))
  /\ "close_position" ∈ BinanceExecutor_attributes
  /\ (action = "CLOSE" ->
      forall s, symbol = VStr s ->
      simple_execute_trade self decision st =
      (fst (close_position executor s st), inr tt)).
Proof.
  intros Hauto Hexec Hsym Hqty Haction.
  split; [| split; [| split]].
  - intros Hentry. unfold simple_execute_trade.
    rewrite Hauto, Hexec, Haction. cbn [negb].
    unfold config_item. rewrite Hsym, Hqty.
    by destruct Hentry as [-> | ->].
  - intros name args [-> | ->];
      (split; [unfold BinanceExecutor_attributes; fresh_key | reflexivity]).
  - unfold BinanceExecutor_attributes. set_solver.
  - intros -> s ->. unfold simple_execute_trade.
    rewrite Hauto, Hexec, Haction. cbn [negb].
    unfold config_item. rewrite Hsym, Hqty.
    cbn [bind ret]. unfold try_catch.
    cbn [String.eqb Ascii.eqb Bool.eqb]. rewrite bind_run.
    unfold call_method.
    cbn [String.eqb Ascii.eqb Bool.eqb existsb BinanceExecutor_attributes
         negb orb].
    destruct (close_position_returns executor s st) as [r Hr].
    destruct (close_position executor s st) as [st' out].
    cbn [snd] in Hr. subst out. reflexivity.
Qed.

End GraphFacts.

(** ** The statements on concrete runs *)

Lemma test_mode_gate_witness :
  (∅ : gmap string pyval) !! "binance_test_mode" = None
  /\ truthy (test_mode Sim.paper) = true
  /\ test_mode (BinanceExecutor_init ∅ VNone) = VBool true
  /\ exists st' r,
      execute_trade Sim.paper "BTC/USDT" "BUY" (1 # 100) None None ""
        Runs.is_short = (st', inr r)
      /\ r !! "success" = Some (VBool true)
      /\ added Runs.is_short st' [EvFetchPositions ["BTC/USDT"]]
      /\ Forall (fun e => is_order e = false) [EvFetchPositions ["BTC/USDT"]].
Proof.
  destruct (test_mode_gate ∅ Sim.paper "BTC/USDT" "BUY" (1 # 100) None None ""
              Runs.is_short) as [Hdefault Hgate].
  split; [reflexivity |]. split; [reflexivity |].
  split; [apply Hdefault; reflexivity | apply Hgate; reflexivity].
Defined.

(** C2, as stated, fails in live mode: closing the long side while flat
    comes back with [success = False]. *)
Lemma close_long_while_flat_reports_failure :
  snd (get_current_position "BTC/USDT" Runs.is_flat) = inr None
  /\ exists r,
      snd (execute_trade Sim.live "BTC/USDT" "CLOSE_LONG" (1 # 1000) None None
             "" Runs.is_flat) = inr r
      /\ r !! "success" = Some (VBool false)
      /\ r !! "success" <> Some (VBool true).
Proof.
  split; [reflexivity |].
  eexists. split; [vm_compute; reflexivity |].
  split; [vm_compute; reflexivity | vm_compute; discriminate].
Qed.

Lemma close_flat_side_places_no_order_witness :
  snd (get_current_position "BTC/USDT" Runs.is_short) = inr (Some Runs.short_002)
  /\ holds_side (Some Runs.short_002) "long" = false
  /\ exists st' r,
      execute_trade Sim.live "BTC/USDT" "CLOSE_LONG" (1 # 100) None None ""
        Runs.is_short = (st', inr r)
      /\ added Runs.is_short st' [EvFetchPositions ["BTC/USDT"]]
      /\ trade_history st' = trade_history Runs.is_short
      /\ r !! "success" = Some (VBool (truthy (test_mode Sim.live)))
      /\ (truthy (test_mode Sim.live) = false ->
          r !! "message" = Some (VStr "没有多仓可平")).
Proof.
  split; [reflexivity |]. split; [reflexivity |].
  apply (close_flat_side_places_no_order Sim.live "BTC/USDT" "CLOSE_LONG"
           "long" (1 # 100) None None "" Runs.is_short
           (Some Runs.short_002));
    [reflexivity | reflexivity | left; split; reflexivity].
Defined.

Lemma buy_closes_short_then_opens_long_witness :
  truthy (test_mode Sim.live) = false
  /\ snd (get_current_position "BTC/USDT" Runs.is_short)
     = inr (Some Runs.short_002)
  /\ exists st' r rest,
      execute_trade Sim.live "BTC/USDT" "BUY" (1 # 100) None None ""
        Runs.is_short = (st', inr r)
      /\ added Runs.is_short st'
           ([EvFetchPositions ["BTC/USDT"];
             EvMarketBuy "BTC/USDT" (2 # 100) "SHORT";
             EvSleep 1;
             EvMarketBuy "BTC/USDT" (1 # 100) "LONG"] ++ rest)
      /\ Forall (fun e => is_market_order e = false) rest
      /\ ((opt_truthy None || opt_truthy None)%bool = false ->
          Forall (fun e => is_order e = false) rest).
Proof.
  split; [reflexivity |]. split; [reflexivity |].
  apply (buy_closes_short_then_opens_long Sim.live "BTC/USDT" (1 # 100)
           None None "" Runs.is_short Runs.short_002 Sim.accepted);
    reflexivity.
Defined.

Lemma same_side_entry_places_no_order_witness :
  snd (get_current_position "BTC/USDT" Runs.is_long) = inr (Some Runs.long_001)
  /\ holds_side (Some Runs.long_001) "long" = true
  /\ exists st' r,
      execute_trade Sim.live "BTC/USDT" "BUY" (1 # 100) None None ""
        Runs.is_long = (st', inr r)
      /\ added Runs.is_long st' [EvFetchPositions ["BTC/USDT"]]
      /\ Forall (fun e => is_order e = false) [EvFetchPositions ["BTC/USDT"]]
      /\ trade_history st' = trade_history Runs.is_long
      /\ (truthy (test_mode Sim.live) = false ->
          r !! "message" = Some (VStr "已有多仓，不重复开仓")).
Proof.
  split; [reflexivity |]. split; [reflexivity |].
  apply (same_side_entry_places_no_order Sim.live "BTC/USDT" "BUY" "long"
           (1 # 100) None None "" Runs.is_long (Some Runs.long_001));
    [reflexivity | reflexivity | left; split; reflexivity].
Defined.

(** C4, as stated, fails on an account that holds both sides with the
    short listed first: a long exists, yet BUY closes the short and buys
    again on the long side. *)
Lemma buy_with_both_sides_held_buys_again :
  fst (w_fetch_positions ["BTC/USDT"] (world Scenes.hedged))
  = inr [Sim.btc (- (2 # 100)); Sim.btc (1 # 100)]
  /\ position_amt_of (Sim.btc (1 # 100)) = inr (1 # 100)
  /\ snd (get_current_position "BTC/USDT" Scenes.hedged)
     = inr (Some Runs.short_002)
  /\ trace (fst (execute_trade Sim.live "BTC/USDT" "BUY" (1 # 100) None None
                   "" Scenes.hedged))
     = [EvFetchPositions ["BTC/USDT"];
        EvMarketBuy "BTC/USDT" (2 # 100) "SHORT";
        EvSleep 1;
        EvMarketBuy "BTC/USDT" (1 # 100) "LONG";
        EvSleep 2;
        EvFetchPositions ["BTC/USDT"]]
  /\ ~ Forall (fun e => is_order e = false)
         (trace (fst (execute_trade Sim.live "BTC/USDT" "BUY" (1 # 100) None
                        None "" Scenes.hedged))).
Proof.
  assert (Htrace :
            trace (fst (execute_trade Sim.live "BTC/USDT" "BUY" (1 # 100)
                          None None "" Scenes.hedged))
            = [EvFetchPositions ["BTC/USDT"];
               EvMarketBuy "BTC/USDT" (2 # 100) "SHORT";
               EvSleep 1;
               EvMarketBuy "BTC/USDT" (1 # 100) "LONG";
               EvSleep 2;
               EvFetchPositions ["BTC/USDT"]])
    by (vm_compute; reflexivity).
  split; [reflexivity |]. split; [reflexivity |]. split; [reflexivity |].
  split; [exact Htrace |]. rewrite Htrace.
  intros Hnone. apply Forall_cons in Hnone as [_ Hnone].
  apply Forall_cons in Hnone as [Hbuy _]. discriminate Hbuy.
Qed.

Lemma execute_trade_never_raises_witness :
  truthy (test_mode Sim.live) = false
  /\ ("REVERSE" ∉ ["BUY"; "SELL"; "CLOSE_LONG"; "CLOSE_SHORT"; "HOLD"])
  /\ (exists st' r,
        execute_trade Sim.live "BTC/USDT" "REVERSE" (1 # 100) None None ""
          Runs.is_flat = (st', inr r)
        /\ added Runs.is_flat st' [EvFetchPositions ["BTC/USDT"]]
        /\ r !! "success" = Some (VBool false)
        /\ r !! "message" = Some (VStr "未知的交易动作: REVERSE"))
  /\ snd (dispatch "BTC/USDT" "BUY" (1 # 100)
            (position_seen "BTC/USDT" (world Runs.refusing))
            (entry_state Sim.live "BTC/USDT" "BUY" (1 # 100) ""
               Runs.refusing))
     = inl (Exn "NetworkError" "timed out")
  /\ exists st' r,
      execute_trade Sim.live "BTC/USDT" "BUY" (1 # 100) None None ""
        Runs.refusing = (st', inr r)
      /\ r !! "success" = Some (VBool false)
      /\ r !! "message" = Some (VStr "订单执行失败: timed out").
Proof.
  assert (Hunknown :
            "REVERSE" ∉ ["BUY"; "SELL"; "CLOSE_LONG"; "CLOSE_SHORT"; "HOLD"])
    by fresh_key.
  split; [reflexivity |]. split; [exact Hunknown |].
  split; [| split; [reflexivity |]].
  - exact (proj1 (proj2 (execute_trade_never_raises Sim.live "BTC/USDT"
                           "REVERSE" (1 # 100) None None "" Runs.is_flat))
                 eq_refl Hunknown).
  - assert (Hrefused :
              dispatch "BTC/USDT" "BUY" (1 # 100)
                (position_seen "BTC/USDT" (world Runs.refusing))
                (entry_state Sim.live "BTC/USDT" "BUY" (1 # 100) ""
                   Runs.refusing)
              = (fst (dispatch "BTC/USDT" "BUY" (1 # 100)
                        (position_seen "BTC/USDT" (world Runs.refusing))
                        (entry_state Sim.live "BTC/USDT" "BUY" (1 # 100) ""
                           Runs.refusing)),
                 inl (Exn "NetworkError" "timed out")))
      by (vm_compute; reflexivity).
    destruct (proj2 (proj2 (execute_trade_never_raises Sim.live "BTC/USDT"
                              "BUY" (1 # 100) None None "" Runs.refusing))
                    eq_refl _ _ Hrefused)
      as (st' & r & Hrun & _ & Hsuccess & Hmessage).
    exists st', r. split; [exact Hrun |]. split; [exact Hsuccess |].
    exact Hmessage.
Defined.

(** C8, as stated, fails: a HOLD does query the exchange, once, for the
    current position. *)
Lemma hold_queries_the_exchange :
  trace (fst (execute_trade Sim.live "BTC/USDT" "HOLD" (1 # 1000) None None
                "" Runs.is_flat)) = [EvFetchPositions ["BTC/USDT"]]
  /\ ~ Forall (fun e => is_exchange_call e = false)
         (trace (fst (execute_trade Sim.live "BTC/USDT" "HOLD" (1 # 1000)
                        None None "" Runs.is_flat))).
Proof.
  split; [reflexivity |].
  intros Hnone. apply Forall_cons in Hnone as [Hfetch _].
  discriminate Hfetch.
Qed.




Lemma decision_parsing_defaults_to_hold_witness :
  bullish_keyword "市场震荡，建议观望" = false
  /\ bearish_keyword "市场震荡，建议观望" = false
  /\ decision_action "市场震荡，建议观望" = "HOLD"
  /\ bullish_keyword "BUY now, SELL later" = true
  /\ bearish_keyword "BUY now, SELL later" = true
  /\ decision_action "BUY now, SELL later" = "BUY".
Proof.
  pose proof (decision_parsing_defaults_to_hold
                {| ct_config := Runs.configured; ct_executor := Sim.live;
                   ct_auto_execute := true |}
                (SimpleCryptoTradingGraph_init Runs.configured true)
                "市场震荡，建议观望" "BTC/USDT" Runs.is_flat)
    as (Hhold & _).
  pose proof (decision_parsing_defaults_to_hold
                {| ct_config := Runs.configured; ct_executor := Sim.live;
                   ct_auto_execute := true |}
                (SimpleCryptoTradingGraph_init Runs.configured true)
                "BUY now, SELL later" "BTC/USDT" Runs.is_flat)
    as (_ & _ & Hboth & _).
  split; [reflexivity |]. split; [reflexivity |].
  split; [exact (proj1 (Hhold eq_refl eq_refl)) |].
  split; [reflexivity |]. split; [reflexivity |].
  exact (Hboth eq_refl eq_refl).
Defined.

Lemma simple_graph_never_opens_a_position_witness :
  marked_action "趋势向上。**最终决策: BUY**" = Some "BUY"
  /\ simple_execute_trade (SimpleCryptoTradingGraph_init Runs.configured true)
       "趋势向上。**最终决策: BUY**" Runs.is_flat = (Runs.is_flat, inr tt).
Proof.
  split; [reflexivity |].
  apply (simple_graph_never_opens_a_position
           (SimpleCryptoTradingGraph_init Runs.configured true)
           (BinanceExecutor_init Runs.configured VNone)
           "趋势向上。**最终决策: BUY**" "BUY" (VStr "BTC/USDT")
           (VNum (1 # 1000)) Runs.is_flat);
    [reflexivity | reflexivity | reflexivity | reflexivity | reflexivity
    | left; reflexivity ].
Defined.

(** ** More on strings *)

Lemma append_cons a (s t : string) : String a s +:+ t = String a (s +:+ t).
Proof. reflexivity. Qed.

Lemma append_nil (t : string) : "" +:+ t = t.
Proof. reflexivity. Qed.

Lemma prefix_append needle rest : String.prefix needle (needle +:+ rest) = true.
Proof.
  induction needle as [| a needle IH].
  - rewrite append_nil. by destruct rest.
  - rewrite append_cons. cbn. by destruct (ascii_dec a a).
Qed.

Lemma contains_skip needle before hay :
  contains needle hay = true -> contains needle (before +:+ hay) = true.
Proof.
  intros Hc. induction before as [| c before IH].
  - by rewrite append_nil.
  - rewrite append_cons. cbn [contains]. rewrite IH.
    by destruct (String.prefix needle _).
Qed.

Lemma contains_prefix needle hay :
  String.prefix needle hay = true -> contains needle hay = true.
Proof. intros Hp. destruct hay; cbn [contains]; by rewrite Hp. Qed.

(** A text that holds [needle] anywhere contains it. *)
Lemma contains_inside needle before after :
  contains needle (before +:+ needle +:+ after) = true.
Proof. apply contains_skip, contains_prefix, prefix_append. Qed.

(** ** More on the executor *)

Lemma normalize_symbol_has_colon symbol :
  contains ":" (normalize_symbol symbol) = true.
Proof.
  unfold normalize_symbol. destruct (contains ":" symbol) eqn:Hc; [exact Hc |].
  apply contains_skip. reflexivity.
Qed.

(** Normalising a symbol twice changes nothing more: a symbol without
    a colon gets the suffix [:USDT] once, one with a colon is kept. *)
Lemma normalize_symbol_idempotent symbol :
  normalize_symbol (normalize_symbol symbol) = normalize_symbol symbol
  /\ contains ":" (normalize_symbol symbol) = true
  /\ (contains ":" symbol = true -> normalize_symbol symbol = symbol).
Proof.
  split; [| split].
  - unfold normalize_symbol at 1. by rewrite normalize_symbol_has_colon.
  - apply normalize_symbol_has_colon.
  - intros Hc. unfold normalize_symbol. by rewrite Hc.
Qed.

Lemma Qnonzero_spec q : Qnonzero q = true -> ~ (q == 0)%Q.
Proof.
  unfold Qnonzero. intros Hq Heq. apply Qeq_bool_iff in Heq.
  rewrite Heq in Hq. discriminate.
Qed.

Lemma build_position_fields pos amt p :
  Qnonzero amt = true ->
  build_position pos amt = inr p ->
  p_symbol p = rp_symbol pos
  /\ p_position_amt p = amt
  /\ p_size p = Qabs amt
  /\ (0 < p_size p)%Q
  /\ ((p_side p = "long" /\ (0 < amt)%Q)
      \/ (p_side p = "short" /\ (amt < 0)%Q)).
Proof.
  intros Hnz Hbuild. apply Qnonzero_spec in Hnz.
  unfold build_position in Hbuild.
  destruct (rp_entryPrice pos) as [? | entry]; [discriminate |].
  destruct (rp_unrealizedPnl pos) as [? | pnl]; [discriminate |].
  injection Hbuild as <-. cbn.
  assert (Habs : (0 < Qabs amt)%Q).
  { destruct amt as [n d]. unfold Qeq, Qlt, Qabs in *. cbn in *. lia. }
  repeat split; [exact Habs |].
  destruct (Qle_bool amt 0) eqn:Hle.
  - right. split; [reflexivity |]. apply Qle_bool_iff in Hle.
    apply Qle_lteq in Hle as [Hlt | Heq]; [exact Hlt | contradiction].
  - left. split; [reflexivity |]. apply Qnot_le_lt. intros Hle'.
    apply Qle_bool_iff in Hle'. congruence.
Qed.

Lemma scan_positions_found symbol_normalized positions p :
  scan_positions symbol_normalized positions = inr (Some p) ->
  p_symbol p = symbol_normalized
  /\ Qnonzero (p_position_amt p) = true
  /\ p_size p = Qabs (p_position_amt p)
  /\ (0 < p_size p)%Q
  /\ ((p_side p = "long" /\ (0 < p_position_amt p)%Q)
      \/ (p_side p = "short" /\ (p_position_amt p < 0)%Q)).
Proof.
  induction positions as [| pos rest IH]; cbn; [discriminate |].
  destruct (String.eqb (rp_symbol pos) symbol_normalized) eqn:Hsym;
    [| exact IH].
  destruct (position_amt_of pos) as [? | amt]; [discriminate |].
  destruct (Qnonzero amt) eqn:Hnz; [| exact IH].
  destruct (build_position pos amt) as [? | built] eqn:Hbuild;
    [discriminate |].
  intros Hp. injection Hp as <-.
  destruct (build_position_fields pos amt built Hnz Hbuild)
    as (Hs & Ha & Hsize & Hpos & Hside).
  apply String.eqb_eq in Hsym.
  rewrite Ha. repeat split; congruence || assumption.
Qed.

Lemma scan_positions_nothing_open symbol_normalized positions :
  Forall (fun pos =>
            rp_symbol pos <> symbol_normalized
            \/ exists amt, position_amt_of pos = inr amt
                           /\ Qnonzero amt = false) positions ->
  scan_positions symbol_normalized positions = inr None.
Proof.
  induction 1 as [| pos rest Hpos _ IH]; cbn; [reflexivity |].
  destruct Hpos as [Hother | (amt & Hamt & Hzero)].
  - apply String.eqb_neq in Hother. by rewrite Hother.
  - rewrite Hamt, Hzero. by destruct (String.eqb _ _).
Qed.

Ltac by_action action :=
  destruct (String.eqb action "BUY");
  [| destruct (String.eqb action "SELL");
     [| destruct (String.eqb action "CLOSE_LONG");
        [| destruct (String.eqb action "CLOSE_SHORT");
           [| destruct (String.eqb action "HOLD") ]]]].

Section ExecutorMoreFacts.
Context {W : Type} `{World W}.

(** X1.  A position reported by [get_current_position] is an open one
    on the normalised symbol: a non-zero signed amount, a positive size
    equal to its absolute value, and the side long for a positive amount,
    short for a negative one. *)
Theorem reported_position_is_open symbol (st : state W) p :
  snd (get_current_position symbol st) = inr (Some p) ->
  p_symbol p = normalize_symbol symbol
  /\ Qnonzero (p_position_amt p) = true
  /\ p_size p = Qabs (p_position_amt p)
  /\ (0 < p_size p)%Q
  /\ ((p_side p = "long" /\ (0 < p_position_amt p)%Q)
      \/ (p_side p = "short" /\ (p_position_amt p < 0)%Q)).
Proof.
  intros Hcp. apply get_current_position_seen in Hcp.
  unfold position_seen in Hcp.
  destruct (fst (w_fetch_positions [symbol] (world st))) as [? | positions];
    [discriminate |].
  destruct (scan_positions (normalize_symbol symbol) positions)
    as [? | found] eqn:Hscan; [discriminate |].
  subst found. by apply scan_positions_found in Hscan.
Qed.

(** X2.  [get_current_position] reports no position when the query to
    the exchange fails, and when no entry of the answer is both for the
    normalised symbol and of non-zero amount; it raises in neither
    case. *)
Theorem no_position_reported symbol (st : state W) :
  (forall e,
      fst (w_fetch_positions [symbol] (world st)) = inl e ->
      snd (get_current_position symbol st) = inr None)
  /\ (forall positions,
        fst (w_fetch_positions [symbol] (world st)) = inr positions ->
        Forall (fun pos =>
                  rp_symbol pos <> normalize_symbol symbol
                  \/ exists amt, position_amt_of pos = inr amt
                                 /\ Qnonzero amt = false) positions ->
        snd (get_current_position symbol st) = inr None).
Proof.
  rewrite get_current_position_run. cbn [snd]. unfold position_seen.
  split.
  - intros e ->. reflexivity.
  - intros positions -> Hnone.
    by rewrite scan_positions_nothing_open.
Qed.

(** [dispatch] leaves [trade_history] alone, and an order it returns was
    sent as a market order. *)
Lemma dispatch_history symbol action amount cp (st : state W) :
  trade_history (fst (dispatch symbol action amount cp st)) = trade_history st.
Proof.
  unfold dispatch, bind. unfold_calls.
  by_action action; cbn; split_run; reflexivity.
Qed.

Lemma dispatch_placed_event symbol action amount cp (st : state W) order :
  snd (dispatch symbol action amount cp st) = inr (Some order) ->
  exists evs,
    trace (fst (dispatch symbol action amount cp st)) = trace st ++ evs
    /\ Exists (fun e => is_market_order e = true) evs.
Proof.
  unfold dispatch, bind. unfold_calls.
  by_action action; cbn; split_run; intros Hout; try discriminate Hout;
    rewrite <- ?app_assoc; eexists; (split; [reflexivity |]);
    cbn; first [ by apply Exists_cons_hd
               | by apply Exists_cons_tl, Exists_cons_tl, Exists_cons_hd ].
Qed.

Lemma dispatch_buy_when_flat symbol amount (st : state W) :
  dispatch symbol "BUY" amount None st =
  (State (snd (w_create_market_buy_order symbol amount "LONG" (world st)))
         (trace st ++ [EvMarketBuy symbol amount "LONG"])
         (trade_history st) (result st),
   match fst (w_create_market_buy_order symbol amount "LONG" (world st)) with
   | inl e => inl e
   | inr order => inr (Some order)
   end).
Proof.
  unfold dispatch, bind, create_market_buy_order, call, ret. cbn.
  by destruct (w_create_market_buy_order symbol amount "LONG" (world st))
    as [[e | order] w].
Qed.

(** SELL on a long position, the closing order accepted. *)
Lemma dispatch_sell_on_long symbol amount p (st : state W) closing w1 :
  p_side p = "long" ->
  w_create_market_sell_order symbol (p_size p) "LONG" (world st)
  = (inr closing, w1) ->
  dispatch symbol "SELL" amount (Some p) st =
  (State (snd (w_create_market_sell_order symbol amount "SHORT"
                 (w_sleep 1 w1)))
         (trace st ++ [EvMarketSell symbol (p_size p) "LONG"; EvSleep 1;
                       EvMarketSell symbol amount "SHORT"])
         (trade_history st) (result st),
   match fst (w_create_market_sell_order symbol amount "SHORT"
                (w_sleep 1 w1))
   with
   | inl e => inl e
   | inr order => inr (Some order)
   end).
Proof.
  intros Hside Hclose. unfold dispatch. cbn [String.eqb Ascii.eqb Bool.eqb].
  rewrite Hside. cbn [String.eqb Ascii.eqb Bool.eqb negb].
  awake. unfold bind, create_market_sell_order, sleep, call, ret.
  rewrite Hclose. cbn [world trace trade_history result].
  destruct (w_create_market_sell_order symbol amount "SHORT" (w_sleep 1 w1))
    as [[e | order] w2]; cbn [fst snd]; by rewrite <- !app_assoc.
Qed.

(** What follows an accepted order when no stop is supplied: two seconds
    of sleep, a position query, and the result appended to the history. *)
Lemma execute_trade_placed self symbol action amount stop_loss take_profit
    reason (st st1 : state W) order :
  truthy (test_mode self) = false ->
  dispatch symbol action amount (position_seen symbol (world st))
    (entry_state self symbol action amount reason st)
  = (st1, inr (Some order)) ->
  dict_truthy order = true ->
  (opt_truthy stop_loss || opt_truthy take_profit)%bool = false ->
  exists st' new_position,
    let r := <["new_position" := opt_pos new_position]>
             (placed_result order
                (initial_result self symbol action amount reason
                   (w_now (world st)))) in
    execute_trade self symbol action amount stop_loss take_profit reason st
    = (st', inr r)
    /\ trace st' = trace st1 ++ [EvSleep 2; EvFetchPositions [symbol]]
    /\ trade_history st' = trade_history st ++ [HTrade r]
    /\ result st' = r.
Proof.
  intros Hlive Hd Horder Hstops.
  pose proof (dispatch_result symbol action amount
                (position_seen symbol (world st))
                (entry_state self symbol action amount reason st)) as Hres.
  pose proof (dispatch_history symbol action amount
                (position_seen symbol (world st))
                (entry_state self symbol action amount reason st)) as Hhist.
  rewrite Hd in Hres, Hhist. cbn [fst snd entry_state result trade_history]
    in Hres, Hhist.
  erewrite execute_trade_dispatched by eassumption.
  destruct (record_order_run symbol stop_loss take_profit order st1 Horder)
    as (w' & protective & np & Hrun & Hprot).
  rewrite Hstops in Hprot. subst protective.
  cbn zeta in Hrun. cbn zeta. rewrite Hrun. cbn [fst result].
  rewrite Hres, Hhist. eexists _, np.
  split; [reflexivity |]. repeat split.
Qed.

(** X3.  Live BUY with no position reported, the order accepted and no
    stop supplied: one market buy of the requested amount tagged LONG is
    the only order; the result has [success = True], the order id and
    the message "order executed", and it is appended to
    [trade_history]. *)
Theorem buy_when_flat_opens_one_long self symbol amount stop_loss take_profit
    reason (st : state W) order w1 :
  truthy (test_mode self) = false ->
  snd (get_current_position symbol st) = inr None ->
  w_create_market_buy_order symbol amount "LONG"
    (world (fst (get_current_position symbol st))) = (inr order, w1) ->
  dict_truthy order = true ->
  (opt_truthy stop_loss || opt_truthy take_profit)%bool = false ->
  exists st' r,
    execute_trade self symbol "BUY" amount stop_loss take_profit reason st
    = (st', inr r)
    /\ added st st'
         [EvFetchPositions [symbol]; EvMarketBuy symbol amount "LONG";
          EvSleep 2; EvFetchPositions [symbol]]
    /\ r !! "success" = Some (VBool true)
    /\ r !! "order_id" = Some (dict_get order "id")
    /\ r !! "message" = Some (VStr "订单执行成功")
    /\ trade_history st' = trade_history st ++ [HTrade r].
Proof.
  intros Hlive Hcp Hcall Horder Hstops.
  apply get_current_position_seen in Hcp.
  rewrite get_current_position_run in Hcall. cbn [fst world] in Hcall.
  destruct (execute_trade_placed self symbol "BUY" amount stop_loss
              take_profit reason st
              (State w1
                 ((trace st ++ [EvFetchPositions [symbol]])
                  ++ [EvMarketBuy symbol amount "LONG"])
                 (trade_history st)
                 (initial_result self symbol "BUY" amount reason
                    (w_now (world st))))
              order Hlive)
    as (st' & np & Hrun & Htrace & Hhist & _); [| exact Horder | exact Hstops |].
  { rewrite Hcp, dispatch_buy_when_flat. cbn [world entry_state].
    by rewrite Hcall. }
  cbn zeta in Hrun, Hhist. eexists _, _. split; [exact Hrun |].
  split; [unfold added; rewrite Htrace; cbn; by rewrite <- !app_assoc |].
  split; [rewrite lookup_insert_ne by discriminate;
          apply placed_result_success |].
  split; [unfold placed_result; by simplify_map_eq |].
  split; [unfold placed_result; by simplify_map_eq | exact Hhist].
Qed.

(** X4.  Live SELL while the reported position is long, the exchange
    accepting the closing order: a market sell of the long's size tagged
    LONG, one second of sleep, then a market sell of the requested amount
    tagged SHORT; no market order follows. *)
Theorem sell_closes_long_then_opens_short self symbol amount stop_loss
    take_profit reason (st : state W) p closing :
  truthy (test_mode self) = false ->
  snd (get_current_position symbol st) = inr (Some p) ->
  p_side p = "long" ->
  fst (w_create_market_sell_order symbol (p_size p) "LONG"
         (world (fst (get_current_position symbol st)))) = inr closing ->
  exists st' r rest,
    execute_trade self symbol "SELL" amount stop_loss take_profit reason st
    = (st', inr r)
    /\ added st st'
         ([EvFetchPositions [symbol];
           EvMarketSell symbol (p_size p) "LONG";
           EvSleep 1;
           EvMarketSell symbol amount "SHORT"] ++ rest)
    /\ Forall (fun e => is_market_order e = false) rest.
Proof.
  intros Hlive Hcp Hside Hclose.
  apply get_current_position_seen in Hcp.
  rewrite get_current_position_run in Hclose. cbn [fst world] in Hclose.
  destruct (w_create_market_sell_order symbol (p_size p) "LONG"
              (world_after_fetch symbol (world st))) as [reply w1] eqn:Hcall.
  cbn [fst] in Hclose. subst reply.
  erewrite execute_trade_dispatched; [| exact Hlive |].
  2:{ rewrite Hcp. apply (dispatch_sell_on_long _ _ _ _ closing w1);
      [exact Hside | exact Hcall]. }
  destruct (w_create_market_sell_order symbol amount "SHORT" (w_sleep 1 w1))
    as [[e | order] w2]; cbn [fst snd].
  - eexists _, _, []. split; [reflexivity |].
    split; [unfold added; cbn; by rewrite <- !app_assoc | constructor].
  - destruct (dict_truthy order) eqn:Horder.
    + match goal with
      | |- context [record_order symbol stop_loss take_profit order ?s] =>
        destruct (record_order_run symbol stop_loss take_profit order s
                    Horder) as (w' & protective & np & Hrun & Hprot)
      end.
      cbn zeta in Hrun. cbn zeta. rewrite Hrun.
      cbn [fst snd result trace entry_state] in *.
      exists_last_events protective.
      apply Forall_app. split; [| by repeat constructor].
      destruct (opt_truthy stop_loss || opt_truthy take_profit)%bool.
      * destruct Hprot as (attempted & -> & Hatt).
        repeat constructor. by eapply protective_attempt_no_market.
      * subst protective. constructor.
    + cbn zeta. rewrite record_order_falsy by exact Horder.
      eexists _, _, []. split; [reflexivity |].
      split; [unfold added; cbn; by rewrite <- !app_assoc | constructor].
Qed.

(** The order a CLOSE action sends for position [p]. *)
Lemma dispatch_close_held_side symbol action amount p (st : state W) :
  (action = "CLOSE_LONG" /\ p_side p = "long")
  \/ (action = "CLOSE_SHORT" /\ p_side p = "short") ->
  exists w reply,
    dispatch symbol action amount (Some p) st =
    (State w
           (trace st ++
            [if String.eqb (p_side p) "long"
             then EvMarketSell symbol (p_size p) "LONG"
             else EvMarketBuy symbol (p_size p) "SHORT"])
           (trade_history st) (result st),
     match reply with
     | inl e => inl e
     | inr order => inr (Some order)
     end).
Proof.
  intros [[-> Hside] | [-> Hside]]; unfold dispatch;
    cbn [String.eqb Ascii.eqb Bool.eqb]; rewrite Hside;
    cbn [String.eqb Ascii.eqb Bool.eqb];
    unfold bind, create_market_sell_order, create_market_buy_order, call, ret;
    cbn [world trace trade_history result].
  - destruct (w_create_market_sell_order symbol (p_size p) "LONG" (world st))
      as [[e | order] w]; [by exists w, (inl e) | by exists w, (inr order)].
  - destruct (w_create_market_buy_order symbol (p_size p) "SHORT" (world st))
      as [[e | order] w]; [by exists w, (inl e) | by exists w, (inr order)].
Qed.

(** X5.  Live CLOSE_LONG on a long position (CLOSE_SHORT on a short
    one): the one market order sent is a sell (buy) of the size of the
    reported position, tagged with its side; the [amount] argument plays
    no part in it. *)
Theorem close_sends_the_position_size self symbol action amount stop_loss
    take_profit reason (st : state W) p :
  truthy (test_mode self) = false ->
  snd (get_current_position symbol st) = inr (Some p) ->
  (action = "CLOSE_LONG" /\ p_side p = "long")
  \/ (action = "CLOSE_SHORT" /\ p_side p = "short") ->
  exists st' r rest,
    execute_trade self symbol action amount stop_loss take_profit reason st
    = (st', inr r)
    /\ added st st'
         ([EvFetchPositions [symbol];
           if String.eqb (p_side p) "long"
           then EvMarketSell symbol (p_size p) "LONG"
           else EvMarketBuy symbol (p_size p) "SHORT"] ++ rest)
    /\ Forall (fun e => is_market_order e = false) rest.
Proof.
  intros Hlive Hcp Haction.
  apply get_current_position_seen in Hcp.
  destruct (dispatch_close_held_side symbol action amount p
              (entry_state self symbol action amount reason st) Haction)
    as (w & reply & Hd).
  erewrite execute_trade_dispatched; [| exact Hlive | rewrite Hcp; exact Hd].
  destruct reply as [e | order].
  - eexists _, _, []. split; [reflexivity |].
    split; [unfold added; cbn; by rewrite <- !app_assoc | constructor].
  - destruct (dict_truthy order) eqn:Horder.
    + match goal with
      | |- context [record_order symbol stop_loss take_profit order ?s] =>
        destruct (record_order_run symbol stop_loss take_profit order s
                    Horder) as (w' & protective & np & Hrun & Hprot)
      end.
      cbn zeta in Hrun. cbn zeta. rewrite Hrun.
      cbn [fst snd result trace entry_state] in *.
      exists_last_events protective.
      apply Forall_app. split; [| by repeat constructor].
      destruct (opt_truthy stop_loss || opt_truthy take_profit)%bool.
      * destruct Hprot as (attempted & -> & Hatt).
        repeat constructor. by eapply protective_attempt_no_market.
      * subst protective. constructor.
    + cbn zeta. rewrite record_order_falsy by exact Horder.
      eexists _, _, []. split; [reflexivity |].
      split; [unfold added; cbn; by rewrite <- !app_assoc | constructor].
Qed.

(** X6.  Live BUY on a short position where the exchange accepts the
    closing order and refuses the opening one: the short has been closed,
    yet the call reports [success = False] with the error in the message,
    carries no order id and appends nothing to [trade_history]. *)
Theorem refused_opening_after_close self symbol amount stop_loss take_profit
    reason (st : state W) p closing w1 e :
  truthy (test_mode self) = false ->
  snd (get_current_position symbol st) = inr (Some p) ->
  p_side p = "short" ->
  w_create_market_buy_order symbol (p_size p) "SHORT"
    (world (fst (get_current_position symbol st))) = (inr closing, w1) ->
  fst (w_create_market_buy_order symbol amount "LONG" (w_sleep 1 w1))
  = inl e ->
  exists st' r,
    execute_trade self symbol "BUY" amount stop_loss take_profit reason st
    = (st', inr r)
    /\ added st st'
         [EvFetchPositions [symbol];
          EvMarketBuy symbol (p_size p) "SHORT";
          EvSleep 1;
          EvMarketBuy symbol amount "LONG"]
    /\ r !! "success" = Some (VBool false)
    /\ r !! "message" = Some (VStr ("订单执行失败: " +:+ exn_str e))
    /\ r !! "order_id" = None
    /\ trade_history st' = trade_history st.
Proof.
  intros Hlive Hcp Hside Hclose Hopen.
  apply get_current_position_seen in Hcp.
  rewrite get_current_position_run in Hclose. cbn [fst world] in Hclose.
  erewrite execute_trade_dispatched; [| exact Hlive |].
  2:{ rewrite Hcp. apply (dispatch_buy_on_short _ _ _ _ closing w1);
      [exact Hside | exact Hclose]. }
  rewrite Hopen. eexists _, _. split; [reflexivity |].
  cbn [trace trade_history result entry_state].
  split; [unfold added; cbn; by rewrite <- !app_assoc |].
  unfold initial_result. repeat split; by simplify_map_eq.
Qed.

(** X7.  [execute_trade] appends to [trade_history] at most once, and
    only in live mode, only a result with [success = True], and that
    result is the one it returns. *)
Theorem trade_history_grows_only_on_success self symbol action amount
    stop_loss take_profit reason (st : state W) :
  exists st' r,
    execute_trade self symbol action amount stop_loss take_profit reason st
    = (st', inr r)
    /\ (trade_history st' = trade_history st
        \/ (trade_history st' = trade_history st ++ [HTrade r]
            /\ r !! "success" = Some (VBool true)
            /\ truthy (test_mode self) = false)).
Proof.
  destruct (truthy (test_mode self)) eqn:Hmode.
  - rewrite execute_trade_test_run by exact Hmode. cbn zeta.
    eexists _, _. split; [reflexivity | by left].
  - destruct (dispatch symbol action amount
                (position_seen symbol (world st))
                (entry_state self symbol action amount reason st))
      as [st1 out] eqn:Hd.
    pose proof (dispatch_history symbol action amount
                  (position_seen symbol (world st))
                  (entry_state self symbol action amount reason st))
      as Hhist.
    rewrite Hd in Hhist. cbn [fst entry_state trade_history] in Hhist.
    erewrite execute_trade_dispatched by eassumption.
    destruct out as [e | [order |]].
    + eexists _, _. split; [reflexivity | by left].
    + destruct (dict_truthy order) eqn:Horder.
      * destruct (record_order_run symbol stop_loss take_profit order st1
                    Horder) as (w' & protective & np & Hrun & _).
        cbn zeta in Hrun. cbn zeta. rewrite Hrun. cbn [fst result].
        eexists _, _. split; [reflexivity |]. right.
        cbn [trade_history]. rewrite Hhist.
        split; [reflexivity |]. split; [| reflexivity].
        rewrite lookup_insert_ne by discriminate.
        apply placed_result_success.
      * cbn zeta. rewrite record_order_falsy by exact Horder.
        eexists _, _. split; [reflexivity | by left].
    + eexists _, _. split; [reflexivity | by left].
Qed.

(** X8.  In live mode [success = True] is reported only for HOLD or
    after a market order has been sent. *)
Theorem live_success_needs_hold_or_order self symbol action amount stop_loss
    take_profit reason (st st' : state W) r :
  truthy (test_mode self) = false ->
  execute_trade self symbol action amount stop_loss take_profit reason st
  = (st', inr r) ->
  r !! "success" = Some (VBool true) ->
  action = "HOLD"
  \/ exists evs,
      added st st' evs /\ Exists (fun e => is_market_order e = true) evs.
Proof.
  intros Hlive Hrun Hsuccess.
  destruct (dispatch symbol action amount
              (position_seen symbol (world st))
              (entry_state self symbol action amount reason st))
    as [st1 out] eqn:Hd.
  pose proof (dispatch_result symbol action amount
                (position_seen symbol (world st))
                (entry_state self symbol action amount reason st)) as Hres.
  rewrite Hd in Hres. cbn [fst snd entry_state result] in Hres.
  erewrite execute_trade_dispatched in Hrun by eassumption.
  destruct out as [e | [order |]].
  - injection Hrun as <- <-. rewrite Hres in Hsuccess.
    unfold initial_result in Hsuccess. by simplify_map_eq.
  - right.
    destruct (dispatch_placed_event symbol action amount
                (position_seen symbol (world st))
                (entry_state self symbol action amount reason st) order)
      as (evs & Htrace & Hev); [by rewrite Hd |].
    rewrite Hd in Htrace. cbn [fst entry_state trace] in Htrace.
    destruct (dict_truthy order) eqn:Horder.
    + destruct (record_order_run symbol stop_loss take_profit order st1
                  Horder) as (w' & protective & np & Hrec & _).
      cbn zeta in Hrec. cbn zeta in Hrun. rewrite Hrec in Hrun.
      injection Hrun as <- <-. cbn [trace].
      exists ([EvFetchPositions [symbol]] ++ evs ++ protective
              ++ [EvSleep 2; EvFetchPositions [symbol]]).
      split; [unfold added; rewrite Htrace; by rewrite <- !app_assoc |].
      apply Exists_app. right. apply Exists_app. by left.
    + cbn zeta in Hrun. rewrite record_order_falsy in Hrun by exact Horder.
      injection Hrun as <- <-.
      exists ([EvFetchPositions [symbol]] ++ evs).
      split; [unfold added; rewrite Htrace; by rewrite <- !app_assoc |].
      apply Exists_app. by right.
  - injection Hrun as <- <-.
    destruct Hres as [m [Hr | [Hhold _]]]; [| by left].
    rewrite Hr in Hsuccess. unfold initial_result in Hsuccess.
    by simplify_map_eq.
Qed.

(** *** [close_position] *)

Lemma position_seen_open symbol (w : W) p :
  position_seen symbol w = Some p ->
  (p_side p = "long" \/ p_side p = "short") /\ Qeq_bool (p_size p) 0 = false.
Proof.
  unfold position_seen.
  destruct (fst (w_fetch_positions [symbol] w)) as [? | positions];
    [discriminate |].
  destruct (scan_positions (normalize_symbol symbol) positions)
    as [? | found] eqn:Hscan; [discriminate |].
  intros ->. apply scan_positions_found in Hscan
    as (_ & _ & _ & Hpos & Hside).
  split; [destruct Hside as [[? _] | [? _]]; auto |].
  destruct (Qeq_bool (p_size p) 0) eqn:Heq; [| reflexivity].
  apply Qeq_bool_iff in Heq. rewrite Heq in Hpos. discriminate Hpos.
Qed.

(** [close_position] once an open position has been read. *)
Lemma close_position_run self symbol (st : state W) p :
  position_seen symbol (world st) = Some p ->
  let side := p_side p in
  let after := State (world_after_fetch symbol (world st))
                     (trace st ++ [EvFetchPositions [symbol]])
                     (trade_history st) (result st) in
  close_position self symbol st =
  if truthy (test_mode self) then
    let res := <["status" := VStr "test"]>
               (<["action" := VStr ("平仓 " +:+ upper side)]>
               (<["symbol" := VStr symbol]>
               (<["quantity" := VNum (p_size p)]>
               (<["message" := VStr "测试模式：平仓模拟成功"]> ∅)))) in
    (State (world after) (trace after)
           (trade_history st
            ++ [HClose (w_now (world after)) ("close_" +:+ side) symbol
                       (p_size p) res])
           (result st), inr res)
  else
    let close_side := if String.eqb side "long" then "sell" else "buy" in
    match w_create_market_order symbol close_side (Qabs (p_size p)) true
            (world after) with
    | (inl e, w) =>
      (State w (trace after
                ++ [EvMarketOrder symbol close_side (Qabs (p_size p)) true])
             (trade_history st) (result st),
       inr (<["status" := VStr "error"]>
            (<["message" := VStr ("平仓失败: " +:+ exn_str e)]> ∅)))
    | (inr order, w) =>
      let res := <["status" := VStr "success"]>
                 (<["order_id" := dict_get order "id"]>
                 (<["action" := VStr ("平仓 " +:+ upper side)]>
                 (<["symbol" := VStr symbol]>
                 (<["quantity" := VNum (p_size p)]>
                 (<["price" := default (VStr "market") (order !! "price")]>
                 (<["message" := VStr "平仓成功"]> ∅)))))) in
      (State w (trace after
                ++ [EvMarketOrder symbol close_side (Qabs (p_size p)) true])
             (trade_history st
              ++ [HClose (w_now w) ("close_" +:+ side) symbol (p_size p) res])
             (result st), inr res)
    end.
Proof.
  intros Hseen side after.
  destruct (position_seen_open symbol (world st) p Hseen) as [Hside Hsize].
  assert (Hlower : lower side = side)
    by (subst side; destruct Hside as [-> | ->]; reflexivity).
  assert (Hnone : (String.eqb side "NONE" || String.eqb side "none")%bool
                  = false)
    by (subst side; destruct Hside as [-> | ->]; reflexivity).
  unfold close_position, try_catch.
  rewrite bind_run, get_current_position_run, Hseen.
  fold side. rewrite Hnone, Hsize, Hlower.
  destruct (truthy (test_mode self)); cbn zeta.
  - reflexivity.
  - rewrite !bind_run. unfold create_market_order, call.
    cbn [world trace trade_history result].
    subst after. cbn [world trace].
    by destruct (w_create_market_order symbol _ (Qabs (p_size p)) true
                   (world_after_fetch symbol (world st)))
      as [[e | order] w].
Qed.

Lemma close_position_flat self symbol (st : state W) :
  position_seen symbol (world st) = None ->
  close_position self symbol st =
  (State (world_after_fetch symbol (world st))
         (trace st ++ [EvFetchPositions [symbol]])
         (trade_history st) (result st),
   inr (<["status" := VStr "info"]>
        (<["message" := VStr "没有持仓需要平仓"]> ∅))).
Proof.
  intros Hseen. unfold close_position, try_catch.
  by rewrite bind_run, get_current_position_run, Hseen.
Qed.

(** X9.  [close_position] never raises, and beyond its position query
    it sends at most one order: in live mode, for the position it read, a
    reduce-only market order on the closing side (sell for long, buy for
    short) for the position's size. *)
Theorem close_position_sends_one_reduce_only_order self symbol
    (st : state W) :
  exists st' r evs,
    close_position self symbol st = (st', inr r)
    /\ added st st' (EvFetchPositions [symbol] :: evs)
    /\ (evs = []
        \/ (truthy (test_mode self) = false
            /\ exists p,
                snd (get_current_position symbol st) = inr (Some p)
                /\ evs = [EvMarketOrder symbol
                            (if String.eqb (p_side p) "long" then "sell"
                             else "buy")
                            (Qabs (p_size p)) true])).
Proof.
  destruct (position_seen symbol (world st)) as [p |] eqn:Hseen.
  - rewrite (close_position_run self symbol st p Hseen). cbn zeta.
    destruct (truthy (test_mode self)) eqn:Hmode.
    + eexists _, _, []. split; [reflexivity |]. split; [reflexivity | by left].
    + destruct (w_create_market_order symbol _ (Qabs (p_size p)) true _)
        as [[e | order] w];
        (eexists _, _, [_]; split; [reflexivity |];
         split; [unfold added; cbn; by rewrite <- !app_assoc |];
         right; split; [reflexivity |]; exists p;
         split; [by rewrite get_current_position_run, Hseen | reflexivity]).
  - rewrite (close_position_flat self symbol st Hseen).
    eexists _, _, []. split; [reflexivity |]. split; [reflexivity | by left].
Qed.

(** X10.  Live [close_position] on an open position: when the exchange
    accepts the order the result has status "success" with the order id
    and the size closed, and one entry is appended to [trade_history];
    when it refuses, the result has status "error" with the error in the
    message and [trade_history] is unchanged. *)
Theorem close_position_reports_the_order self symbol (st : state W) p :
  truthy (test_mode self) = false ->
  snd (get_current_position symbol st) = inr (Some p) ->
  let close_side := if String.eqb (p_side p) "long" then "sell" else "buy" in
  let reply :=
    w_create_market_order symbol close_side (Qabs (p_size p)) true
      (world (fst (get_current_position symbol st))) in
  exists st' r,
    close_position self symbol st = (st', inr r)
    /\ match fst reply with
       | inr order =>
         r !! "status" = Some (VStr "success")
         /\ r !! "order_id" = Some (dict_get order "id")
         /\ r !! "quantity" = Some (VNum (p_size p))
         /\ trade_history st' =
            trade_history st
            ++ [HClose (w_now (snd reply)) ("close_" +:+ p_side p) symbol
                       (p_size p) r]
       | inl e =>
         r !! "status" = Some (VStr "error")
         /\ r !! "message" = Some (VStr ("平仓失败: " +:+ exn_str e))
         /\ trade_history st' = trade_history st
       end.
Proof.
  intros Hlive Hcp close_side reply.
  apply get_current_position_seen in Hcp.
  rewrite (close_position_run self symbol st p Hcp). cbn zeta.
  rewrite Hlive. subst reply close_side.
  rewrite get_current_position_run. cbn [fst world].
  destruct (w_create_market_order symbol _ (Qabs (p_size p)) true _)
    as [[e | order] w]; cbn [fst snd];
    (eexists _, _; split; [reflexivity |]); repeat split;
    by simplify_map_eq.
Qed.

(** X11.  [close_position] without an order: with no position reported
    the result has status "info" and nothing is recorded; in test mode
    with a position reported the result has status "test" and, unlike a
    test-mode [execute_trade], the simulated close is appended to
    [trade_history]. *)
Theorem close_position_without_order self symbol (st : state W) :
  (snd (get_current_position symbol st) = inr None ->
   exists st' r,
     close_position self symbol st = (st', inr r)
     /\ added st st' [EvFetchPositions [symbol]]
     /\ r !! "status" = Some (VStr "info")
     /\ trade_history st' = trade_history st)
  /\ (forall p,
        truthy (test_mode self) = true ->
        snd (get_current_position symbol st) = inr (Some p) ->
        exists st' r,
          close_position self symbol st = (st', inr r)
          /\ added st st' [EvFetchPositions [symbol]]
          /\ r !! "status" = Some (VStr "test")
          /\ r !! "quantity" = Some (VNum (p_size p))
          /\ trade_history st' =
             trade_history st
             ++ [HClose (w_now (world st')) ("close_" +:+ p_side p) symbol
                        (p_size p) r]).
Proof.
  split.
  - intros Hcp. apply get_current_position_seen in Hcp.
    rewrite (close_position_flat self symbol st Hcp).
    eexists _, _. split; [reflexivity |]. repeat split; by simplify_map_eq.
  - intros p Htest Hcp. apply get_current_position_seen in Hcp.
    rewrite (close_position_run self symbol st p Hcp). cbn zeta.
    rewrite Htest. eexists _, _. split; [reflexivity |].
    repeat split; by simplify_map_eq.
Qed.

(** *** [close_all_positions] *)

Lemma count_orders_app evs1 evs2 :
  count_orders (evs1 ++ evs2) = (count_orders evs1 + count_orders evs2)%nat.
Proof. unfold count_orders. by rewrite List.filter_app, length_app. Qed.

Lemma count_orders_le evs : (count_orders evs <= length evs)%nat.
Proof. apply List.filter_length_le. Qed.

Lemma dispatch_close_events symbol action amount cp (st : state W) :
  action = "CLOSE_LONG" \/ action = "CLOSE_SHORT" ->
  exists evs,
    trace (fst (dispatch symbol action amount cp st)) = trace st ++ evs
    /\ (length evs <= 1)%nat.
Proof.
  intros [-> | ->]; unfold dispatch, bind; unfold_calls; cbn; split_run;
    first [ exists []; split; [by rewrite app_nil_r | cbn; lia]
          | eexists [_]; split; [reflexivity | cbn; lia] ].
Qed.

Lemma execute_trade_close_orders self symbol action amount reason
    (st : state W) :
  action = "CLOSE_LONG" \/ action = "CLOSE_SHORT" ->
  exists st' r evs,
    execute_trade self symbol action amount None None reason st = (st', inr r)
    /\ added st st' evs
    /\ (count_orders evs <= 1)%nat
    /\ (truthy (test_mode self) = true -> count_orders evs = 0%nat).
Proof.
  intros Haction.
  destruct (truthy (test_mode self)) eqn:Hmode.
  - rewrite execute_trade_test_run by exact Hmode. cbn zeta.
    eexists _, _, [_]. split; [reflexivity |]. split; [reflexivity |].
    split; [cbn; lia | reflexivity].
  - destruct (dispatch symbol action amount
                (position_seen symbol (world st))
                (entry_state self symbol action amount reason st))
      as [st1 out] eqn:Hd.
    destruct (dispatch_close_events symbol action amount
                (position_seen symbol (world st))
                (entry_state self symbol action amount reason st) Haction)
      as (devs & Htrace & Hlen).
    rewrite Hd in Htrace. cbn [fst entry_state trace] in Htrace.
    pose proof (count_orders_le devs) as Hcount.
    erewrite execute_trade_dispatched by eassumption.
    assert (Hdone : forall (st2 : state W) (r : gmap string pyval),
               trace st2 = trace st1 ->
               exists (st' : state W) r' evs,
                 (st2, @inr exn _ r) = (st', inr r')
                 /\ added st st' evs
                 /\ (count_orders evs <= 1)%nat
                 /\ (false = true -> count_orders evs = 0%nat)).
    { intros st2 r Hsame.
      eexists _, _, ([EvFetchPositions [symbol]] ++ devs).
      split; [reflexivity |].
      split; [unfold added; rewrite Hsame, Htrace; by rewrite <- app_assoc |].
      split; [rewrite count_orders_app; cbn; lia | discriminate]. }
    destruct out as [e | [order |]].
    + by apply Hdone.
    + destruct (dict_truthy order) eqn:Horder.
      * destruct (record_order_run symbol None None order st1 Horder)
          as (w' & protective & np & Hrun & Hprot).
        cbn in Hprot. subst protective.
        cbn zeta in Hrun. cbn zeta. rewrite Hrun. cbn [fst result].
        eexists _, _, ([EvFetchPositions [symbol]] ++ devs
                       ++ [EvSleep 2; EvFetchPositions [symbol]]).
        split; [reflexivity |].
        split; [unfold added; cbn [trace]; rewrite Htrace; cbn;
                by rewrite <- !app_assoc |].
        split; [rewrite !count_orders_app; cbn; lia | discriminate].
      * cbn zeta. rewrite record_order_falsy by exact Horder.
        by apply Hdone.
    + by apply Hdone.
Qed.

(** X12.  [close_all_positions] never raises and places at most one
    order, none in test mode; when no position is reported it stops
    after its position query. *)
Theorem close_all_positions_places_at_most_one_order self symbol
    (st : state W) :
  exists st' evs,
    close_all_positions self symbol st = (st', inr tt)
    /\ added st st' evs
    /\ (count_orders evs <= 1)%nat
    /\ (truthy (test_mode self) = true -> count_orders evs = 0%nat)
    /\ (snd (get_current_position symbol st) = inr None ->
        evs = [EvFetchPositions [symbol]]).
Proof.
  unfold close_all_positions. rewrite bind_run.
  rewrite !get_current_position_run. cbn [snd].
  destruct (position_seen symbol (world st)) as [p |].
  - set (read := State _ _ _ _).
    assert (Hclose :
              forall action,
                action = "CLOSE_LONG" \/ action = "CLOSE_SHORT" ->
                exists (st' : state W) evs,
                  (execute_trade self symbol action (p_size p) None None
                     "强制平仓";; ret tt) read = (st', inr tt)
                  /\ added st st' evs
                  /\ (count_orders evs <= 1)%nat
                  /\ (truthy (test_mode self) = true ->
                      count_orders evs = 0%nat)
                  /\ (@inr exn _ (Some p) = inr None ->
                      evs = [EvFetchPositions [symbol]])).
    { intros action Haction.
      destruct (execute_trade_close_orders self symbol action (p_size p)
                  "强制平仓" read Haction)
        as (st' & r & evs & Hrun & Hadded & Hone & Htest).
      rewrite bind_run, Hrun. cbn [ret].
      exists st', ([EvFetchPositions [symbol]] ++ evs).
      split; [reflexivity |].
      split; [unfold added in *; rewrite Hadded; subst read; cbn [trace];
              by rewrite <- app_assoc |].
      split; [rewrite count_orders_app; cbn; lia |].
      split; [intros Ht; rewrite count_orders_app, (Htest Ht); reflexivity
             | discriminate]. }
    destruct (String.eqb (p_side p) "long"); apply Hclose; auto.
  - eexists _, [_]. split; [reflexivity |]. split; [reflexivity |].
    split; [cbn; lia |]. split; reflexivity.
Qed.

End ExecutorMoreFacts.

(** ** More on the retry wrapper *)

(** X13.  The retryable words are matched without regard to the case
    of ASCII letters: a message that holds one of them in any mix of
    upper and lower case is classified as retryable. *)
Theorem retryable_words_match_in_any_case word message :
  lower word ∈ retryable_words ->
  contains word message = true ->
  is_retryable (lower message) = true.
Proof.
  intros Hword Hin. apply is_retryable_words.
  exists (lower word). split; [exact Hword |]. by apply contains_lower.
Qed.

Section RetryMoreFacts.
Context {W : Type} `{World W} {A : Type}.
Variable max_retries : Z.
Variables base_delay backoff_factor : Q.
Variable func : M W A.



(** X15.  With a negative [max_retries] the wrapper never invokes the
    operation: the loop has no attempt and the final [raise] of [None]
    is a [TypeError]. *)
Theorem llm_retry_negative_never_invokes (st : state W) :
  (max_retries < 0)%Z ->
  llm_retry max_retries base_delay backoff_factor func st =
  (st, inl (Exn "TypeError" "exceptions must derive from BaseException")).
Proof.
  intros Hneg. unfold llm_retry, range.
  replace (Z.to_nat (max_retries + 1)) with 0%nat by lia. reflexivity.
Qed.

(** X16.  With [max_retries > 0]: a value returned by the first
    invocation is returned at once, with no sleep.  After a first failure
    with a retryable message the wrapper sleeps [base_delay] (times
    [backoff_factor ^ 0]) and returns the value of the second invocation,
    when [time.sleep] accepts that delay; when it refuses it, the wrapper
    raises the [ValueError] or [OverflowError] of the sleep and there is
    no second invocation. *)
Theorem llm_retry_returns_the_first_success (st s1 s2 : state W) e a :
  (0 < max_retries)%Z ->
  (func (invoked st) = (s1, inr a) ->
   llm_retry max_retries base_delay backoff_factor func st = (s1, inr a))
  /\ (func (invoked st) = (s1, inl e) ->
      is_retryable (lower (exn_str e)) = true ->
      sleepable (backoff_delay base_delay backoff_factor 0) = true ->
      func (invoked (slept (backoff_delay base_delay backoff_factor 0) s1))
      = (s2, inr a) ->
      llm_retry max_retries base_delay backoff_factor func st = (s2, inr a))
  /\ (func (invoked st) = (s1, inl e) ->
      is_retryable (lower (exn_str e)) = true ->
      sleepable (backoff_delay base_delay backoff_factor 0) = false ->
      exists refusal,
        llm_retry max_retries base_delay backoff_factor func st
        = (s1, inl refusal)
        /\ (exn_type refusal = "ValueError"
            \/ exn_type refusal = "OverflowError")).
Proof.
  intros Hmax. unfold llm_retry, range.
  replace (Z.to_nat (max_retries + 1))
    with (S (S (Z.to_nat (max_retries - 1)))) by lia.
  change (map Z.of_nat (seq 0 (S (S (Z.to_nat (max_retries - 1))))))
    with (0%Z :: map Z.of_nat (seq 1 (S (Z.to_nat (max_retries - 1))))).
  cbn [retry_loop].
  split; [| split].
  - intros Hf. unfold try_catch at 1. unfold invoke at 1. cbv beta.
    unfold invoked in Hf. by rewrite Hf.
  - intros Hf Hretry Hdelay Hf2. unfold try_catch at 1. unfold invoke at 1.
    cbv beta. unfold invoked in Hf. rewrite Hf, Hretry.
    cbn [negb]. replace (0 <? max_retries)%Z with true by (symmetry; lia).
    rewrite (sleep_accepted _ Hdelay), bind_run.
    cbn [call seq map retry_loop].
    unfold try_catch, invoke. unfold invoked, slept in Hf2.
    cbn [world trace trade_history result] in *. by rewrite Hf2.
  - intros Hf Hretry Hdelay. unfold try_catch at 1. unfold invoke at 1.
    cbv beta. unfold invoked in Hf. rewrite Hf, Hretry.
    cbn [negb]. replace (0 <? max_retries)%Z with true by (symmetry; lia).
    destruct (sleep_refused _ s1 Hdelay) as (refusal & Hsleep & Htype).
    rewrite bind_run, Hsleep. by exists refusal.
Qed.

End RetryMoreFacts.

(** ** More on the decision parsers and the graphs *)

Lemma prefix_split needle hay :
  String.prefix needle hay = true -> exists after, hay = needle +:+ after.
Proof.
  revert needle. induction hay as [| b hay IH]; intros [| a needle]; cbn;
    try done.
  - by exists "".
  - by exists (String b hay).
  - destruct (ascii_dec a b) as [-> | ?]; [| done].
    intros Hp. destruct (IH needle Hp) as [after ->]. by exists after.
Qed.

Lemma contains_split needle hay :
  contains needle hay = true ->
  exists before after, hay = before +:+ needle +:+ after.
Proof.
  induction hay as [| c hay IH]; cbn [contains].
  - destruct (String.prefix needle "") eqn:Hp; [| done].
    intros _. destruct (prefix_split _ _ Hp) as [after ->]. by exists "", after.
  - destruct (String.prefix needle (String c hay)) eqn:Hp.
    + intros _. destruct (prefix_split _ _ Hp) as [after ->].
      by exists "", after.
    + intros Hc. destruct (IH Hc) as (before & after & ->).
      by exists (String c before), after.
Qed.

Lemma contains_iff needle hay :
  contains needle hay = true <->
  exists before after, hay = before +:+ needle +:+ after.
Proof.
  split; [apply contains_split |].
  intros (before & after & ->). apply contains_inside.
Qed.

(** X17.  [_execute_trade_decision] reads BUY exactly from the texts
    that hold "BUY" or "做多" anywhere, whatever else they hold, and SELL
    exactly from the texts that hold "SELL" or "做空" and neither of the
    bullish words. *)
Theorem decision_action_reads_keywords_anywhere decision :
  (decision_action decision = "BUY" <->
   exists before after,
     decision = before +:+ "BUY" +:+ after
     \/ decision = before +:+ "做多" +:+ after)
  /\ (decision_action decision = "SELL" <->
      bullish_keyword decision = false
      /\ exists before after,
          decision = before +:+ "SELL" +:+ after
          \/ decision = before +:+ "做空" +:+ after).
Proof.
  unfold decision_action, bullish_keyword. split; split.
  - destruct (contains "BUY" decision) eqn:Hbuy.
    + intros _. apply contains_split in Hbuy as (b & a & ->). eauto.
    + destruct (contains "做多" decision) eqn:Hlong.
      * intros _. apply contains_split in Hlong as (b & a & ->). eauto.
      * cbn. by destruct (_ || _)%bool.
  - intros (b & a & [-> | ->]); rewrite contains_inside; [done |].
    by rewrite orb_true_r.
  - destruct (contains "BUY" decision || contains "做多" decision)%bool;
      [done |].
    destruct (contains "SELL" decision) eqn:Hsell.
    + intros _. split; [done |].
      apply contains_split in Hsell as (b & a & ->). eauto.
    + destruct (contains "做空" decision) eqn:Hshort; [| done].
      intros _. split; [done |].
      apply contains_split in Hshort as (b & a & ->). eauto.
  - intros [-> (b & a & [-> | ->])]; rewrite contains_inside; [done |].
    by rewrite orb_true_r.
Qed.

Section GraphMoreFacts.
Context {W : Type} `{World W}.

(** [dispatch] sends market orders and sleeps, nothing else. *)
Lemma dispatch_events_kind symbol action amount cp (st : state W) :
  exists evs,
    trace (fst (dispatch symbol action amount cp st)) = trace st ++ evs
    /\ Forall (fun e => is_conditional_order e = false) evs.
Proof.
  unfold dispatch, bind. unfold_calls.
  by_action action; cbn; split_run; rewrite <- ?app_assoc;
    first [ exists []; split; [by rewrite app_nil_r | constructor]
          | eexists; split; [reflexivity | by repeat constructor] ].
Qed.

Lemma execute_trade_without_stops self symbol action amount reason
    (st : state W) :
  exists st' r evs,
    execute_trade self symbol action amount None None reason st = (st', inr r)
    /\ added st st' evs
    /\ Forall (fun e => is_conditional_order e = false) evs.
Proof.
  destruct (truthy (test_mode self)) eqn:Hmode.
  - rewrite execute_trade_test_run by exact Hmode. cbn zeta.
    eexists _, _, [_]. split; [reflexivity |]. split; [reflexivity |].
    by repeat constructor.
  - destruct (dispatch symbol action amount
                (position_seen symbol (world st))
                (entry_state self symbol action amount reason st))
      as [st1 out] eqn:Hd.
    destruct (dispatch_events_kind symbol action amount
                (position_seen symbol (world st))
                (entry_state self symbol action amount reason st))
      as (devs & Htrace & Hkind).
    rewrite Hd in Htrace. cbn [fst entry_state trace] in Htrace.
    erewrite execute_trade_dispatched by eassumption.
    assert (Hdone : forall (st2 : state W) (r : gmap string pyval),
               trace st2 = trace st1 ->
               exists (st' : state W) r' evs,
                 (st2, @inr exn _ r) = (st', inr r')
                 /\ added st st' evs
                 /\ Forall (fun e => is_conditional_order e = false) evs).
    { intros st2 r Hsame.
      eexists _, _, ([EvFetchPositions [symbol]] ++ devs).
      split; [reflexivity |].
      split; [unfold added; rewrite Hsame, Htrace; by rewrite <- app_assoc |].
      apply Forall_app. split; [by repeat constructor | exact Hkind]. }
    destruct out as [e | [order |]]; [by apply Hdone | | by apply Hdone].
    destruct (dict_truthy order) eqn:Horder.
    + destruct (record_order_run symbol None None order st1 Horder)
        as (w' & protective & np & Hrun & Hprot).
      cbn in Hprot. subst protective.
      cbn zeta in Hrun. cbn zeta. rewrite Hrun. cbn [fst result].
      eexists _, _, ([EvFetchPositions [symbol]] ++ devs
                     ++ [EvSleep 2; EvFetchPositions [symbol]]).
      split; [reflexivity |].
      split; [unfold added; cbn [trace]; rewrite Htrace; cbn;
              by rewrite <- !app_assoc |].
      apply Forall_app. split; [by repeat constructor |].
      apply Forall_app. split; [exact Hkind | by repeat constructor].
    + cbn zeta. rewrite record_order_falsy by exact Horder. by apply Hdone.
Qed.

(** X18.  [_execute_trade_decision] on a text with a keyword: without
    [position_size] in the configuration it raises [KeyError] before the
    exchange is contacted; with a numeric [position_size] it runs
    [execute_trade] for BUY (bullish keyword) or SELL with that amount
    and no stop, returns normally, and no conditional order is placed. *)
Theorem multi_agent_decision_runs_the_executor
    (graph : CryptoTradingAgentsGraph) decision symbol (st : state W) :
  decision_action decision <> "HOLD" ->
  (ct_config graph !! "position_size" = None ->
   _execute_trade_decision graph decision symbol st
   = (st, inl (Exn "KeyError" "position_size")))
  /\ (forall amount,
        ct_config graph !! "position_size" = Some (VNum amount) ->
        exists st' r evs,
          execute_trade (ct_executor graph) symbol
            (if bullish_keyword decision then "BUY" else "SELL")
            amount None None "Multi-agent decision" st = (st', inr r)
          /\ _execute_trade_decision graph decision symbol st
             = (st', inr tt)
          /\ added st st' evs
          /\ Forall (fun e => is_conditional_order e = false) evs).
Proof.
  intros Hact.
  assert (Haction : decision_action decision
                    = if bullish_keyword decision then "BUY" else "SELL").
  { revert Hact. unfold decision_action, bullish_keyword.
    destruct (contains "BUY" decision || contains "做多" decision)%bool;
      [done |].
    by destruct (contains "SELL" decision || contains "做空" decision)%bool. }
  apply String.eqb_neq in Hact.
  unfold _execute_trade_decision. rewrite Hact. cbn [negb].
  unfold config_item. split.
  - by intros ->.
  - intros amount ->. rewrite Haction.
    destruct (execute_trade_without_stops (ct_executor graph) symbol
                (if bullish_keyword decision then "BUY" else "SELL")
                amount "Multi-agent decision" st)
      as (st' & r & evs & Hrun & Hadded & Hkind).
    exists st', r, evs. split; [exact Hrun |].
    split; [| split; [exact Hadded | exact Hkind]].
    cbn [bind ret as_amount]. by rewrite bind_run, Hrun.
Qed.

Lemma close_position_reduce_only self symbol (st : state W) :
  exists st' r evs,
    close_position self symbol st = (st', inr r)
    /\ added st st' evs
    /\ (count_orders evs <= 1)%nat
    /\ Forall (fun e => is_order e = true -> is_reduce_only e = true) evs.
Proof.
  destruct (position_seen symbol (world st)) as [p |] eqn:Hseen.
  - rewrite (close_position_run self symbol st p Hseen). cbn zeta.
    destruct (truthy (test_mode self)).
    + eexists _, _, [_]. split; [reflexivity |]. split; [reflexivity |].
      split; [cbn; lia | by repeat constructor].
    + destruct (w_create_market_order symbol _ (Qabs (p_size p)) true _)
        as [[e | order] w];
        (eexists _, _, [_; _]; split; [reflexivity |];
         split; [unfold added; cbn; by rewrite <- !app_assoc |];
         split; [cbn; lia | by repeat constructor]).
  - rewrite (close_position_flat self symbol st Hseen).
    eexists _, _, [_]. split; [reflexivity |]. split; [reflexivity |].
    split; [cbn; lia | by repeat constructor].
Qed.

(** X19.  Whatever the decision text, the configuration and the mode,
    [SimpleCryptoTradingGraph.execute_trade] places at most one order and
    any order it places is a reduce-only market order: this path can
    close a position but never open or enlarge one.  It either returns
    normally or, before any contact with the exchange, raises the
    [KeyError] of a missing configuration entry. *)
Theorem simple_graph_orders_are_reduce_only (self : SimpleCryptoTradingGraph)
    decision (st : state W) :
  exists st' out evs,
    simple_execute_trade self decision st = (st', out)
    /\ added st st' evs
    /\ (count_orders evs <= 1)%nat
    /\ Forall (fun e => is_order e = true -> is_reduce_only e = true) evs
    /\ (out = inr tt \/ (evs = [] /\ exists key, out = inl (Exn "KeyError" key))).
Proof.
  assert (Hidle : forall out : exn + unit,
             out = inr tt \/ (exists key, out = inl (Exn "KeyError" key)) ->
             exists (st' : state W) out' evs,
               (st, out) = (st', out')
               /\ added st st' evs
               /\ (count_orders evs <= 1)%nat
               /\ Forall (fun e => is_order e = true ->
                                   is_reduce_only e = true) evs
               /\ (out' = inr tt
                   \/ (evs = [] /\ exists key, out' = inl (Exn "KeyError" key)))).
  { intros out Hout. exists st, out, [].
    split; [reflexivity |]. split; [unfold added; by rewrite app_nil_r |].
    split; [cbn; lia |]. split; [constructor |].
    destruct Hout as [-> | Hkey]; [by left | by right]. }
  unfold simple_execute_trade.
  destruct (sg_auto_execute self); cbn [negb]; [| apply Hidle; by left].
  destruct (sg_executor self) as [executor |]; [| apply Hidle; by left].
  destruct (marked_action decision) as [action |]; [| apply Hidle; by left].
  unfold config_item.
  destruct (sg_config self !! "crypto_symbol") as [symbol |];
    [| apply Hidle; right; by eexists].
  destruct (sg_config self !! "position_size") as [quantity |];
    [| apply Hidle; right; by eexists].
  cbn [bind ret]. unfold try_catch.
  destruct (String.eqb action "BUY"); [apply Hidle; by left |].
  destruct (String.eqb action "SELL"); [apply Hidle; by left |].
  rewrite bind_run. unfold call_method.
  cbn [String.eqb Ascii.eqb Bool.eqb existsb BinanceExecutor_attributes
       negb orb].
  destruct symbol as [| | | s |]; try (apply Hidle; by left).
  destruct (close_position_reduce_only executor s st)
    as (st' & r & evs & Hrun & Hadded & Hone & Honly).
  rewrite Hrun. cbn [ret]. exists st', (inr tt), evs.
  split; [reflexivity |]. repeat split; auto.
Qed.

(** X20.  With auto-execute on, an executor in place and a decision
    that carries a BUY, SELL or CLOSE marker, a configuration without
    [crypto_symbol], or with it but without [position_size], makes
    [SimpleCryptoTradingGraph.execute_trade] raise [KeyError]: both
    entries are read before the [try]. *)
Theorem simple_graph_missing_config_raises (self : SimpleCryptoTradingGraph)
    executor decision action (st : state W) :
  sg_auto_execute self = true ->
  sg_executor self = Some executor ->
  marked_action decision = Some action ->
  (sg_config self !! "crypto_symbol" = None ->
   simple_execute_trade self decision st
   = (st, inl (Exn "KeyError" "crypto_symbol")))
  /\ (forall symbol,
        sg_config self !! "crypto_symbol" = Some symbol ->
        sg_config self !! "position_size" = None ->
        simple_execute_trade self decision st
        = (st, inl (Exn "KeyError" "position_size"))).
Proof.
  intros Hauto Hexec Haction. unfold simple_execute_trade, config_item.
  rewrite Hauto, Hexec, Haction. cbn [negb]. split.
  - by intros ->.
  - by intros symbol -> ->.
Qed.

End GraphMoreFacts.

(** X21.  The decision type written to the dashboard by [run_analysis]
    agrees with the action [SimpleCryptoTradingGraph.execute_trade] reads
    from the same text: it is BUY, SELL or CLOSE exactly when that is the
    marked action, and HOLD or UNKNOWN exactly when the graph takes its
    HOLD branch. *)
Theorem monitor_decision_type_agrees decision :
  (forall action,
      marked_action decision = Some action ->
      monitor_decision_type decision = action)
  /\ (marked_action decision = None <->
      monitor_decision_type decision = "HOLD"
      \/ monitor_decision_type decision = "UNKNOWN").
Proof.
  unfold marked_action, monitor_decision_type.
  destruct (contains "**最终决策: BUY**" decision
            || contains "**最终决策: LONG**" decision)%bool;
    [split; [by intros ? [= <-] | split; [done | by intros [? | ?]]] |].
  destruct (contains "**最终决策: SELL**" decision
            || contains "**最终决策: SHORT**" decision)%bool;
    [split; [by intros ? [= <-] | split; [done | by intros [? | ?]]] |].
  destruct (contains "**最终决策: CLOSE**" decision);
    [split; [by intros ? [= <-] | split; [done | by intros [? | ?]]] |].
  split; [done |]. split; [| done].
  intros _. destruct (contains "**最终决策: HOLD**" decision); auto.
Qed.

(** ** The scheduler *)

Lemma timeframe_table timeframe minutes :
  TradingScheduler.TIMEFRAME_MINUTES !! timeframe = Some minutes ->
  (0 < minutes)%Z /\ (minutes | 1440)%Z.
Proof.
  intros Hin. apply elem_of_map_to_list in Hin.
  assert (Hall : Forall (fun e : string * Z =>
                           (0 < e.2)%Z /\ (e.2 | 1440)%Z)
                        (map_to_list TradingScheduler.TIMEFRAME_MINUTES)).
  { vm_compute map_to_list.
    repeat (apply Forall_cons; split;
            [cbn; split; [lia | apply Z.mod_divide; [lia | reflexivity]] |]).
    constructor. }
  rewrite Forall_forall in Hall. exact (Hall _ Hin).
Qed.

Section SchedulerFacts.
Import TradingScheduler.
Local Open Scope Z_scope.
Variable int : string -> exn + Z.

Lemma add_minutes_from_midnight now days n :
  let d := add_minutes (add_days (replace_midnight now) days) n in
  valid_time d
  /\ dt_second d = 0 /\ dt_microsecond d = 0
  /\ since_midnight now d = days * 1440 + n.
Proof.
  unfold valid_time, since_midnight, minute_of_day. cbn.
  Z.to_euclidean_division_equations. lia.
Qed.

Lemma add_minutes_midnight now n :
  let d := add_minutes (replace_midnight now) n in
  valid_time d
  /\ dt_second d = 0 /\ dt_microsecond d = 0
  /\ since_midnight now d = n.
Proof.
  unfold valid_time, since_midnight, minute_of_day. cbn.
  Z.to_euclidean_division_equations. lia.
Qed.

Lemma get_next_timeframe_time_run timeframe minutes now :
  parse_timeframe int timeframe = inr minutes ->
  minutes <> 0 ->
  exists next,
    get_next_timeframe_time int timeframe now = inr next
    /\ valid_time next
    /\ dt_second next = 0 /\ dt_microsecond next = 0
    /\ since_midnight now next
       = (minute_of_day now / minutes + 1) * minutes.
Proof.
  intros Hparse Hnonzero. unfold get_next_timeframe_time. rewrite Hparse.
  destruct (Z.eqb_spec minutes 0) as [| _]; [contradiction |].
  fold (minute_of_day now).
  destruct (1440 <=? (minute_of_day now / minutes + 1) * minutes).
  - eexists. split; [reflexivity |].
    destruct (add_minutes_from_midnight now 1
                ((minute_of_day now / minutes + 1) * minutes - 1440))
      as (Hvalid & Hs & Hus & Hsince).
    cbv zeta in *. split; [exact Hvalid |]. split; [exact Hs |].
    split; [exact Hus |]. rewrite Hsince. lia.
  - eexists. split; [reflexivity |].
    destruct (add_minutes_midnight now
                ((minute_of_day now / minutes + 1) * minutes))
      as (Hvalid & Hs & Hus & Hsince).
    cbv zeta in *. split; [exact Hvalid |]. split; [exact Hs |].
    split; [exact Hus | exact Hsince].
Qed.

Lemma timestamp_since_midnight now next :
  dt_second next = 0 -> dt_microsecond next = 0 ->
  timestamp next - timestamp now
  = (since_midnight now next - minute_of_day now) * 60000000
    - (dt_second now * 1000000 + dt_microsecond now).
Proof.
  unfold timestamp, since_midnight, minute_of_day. intros -> ->. lia.
Qed.

(** X22.  For a timeframe of [minutes > 0], on a day [datetime] can
    hold and with the coming boundary on such a day too,
    [get_next_timeframe_time] returns the first multiple of [minutes],
    counted from today's midnight, that lies after the current minute:
    seconds and microseconds are zero, it is strictly later than now and
    at most [minutes] minutes away. *)
Theorem next_timeframe_time_is_the_coming_boundary timeframe minutes now :
  parse_timeframe int timeframe = inr minutes ->
  0 < minutes ->
  valid_time now ->
  representable_day (dt_ordinal now) ->
  representable_day (dt_ordinal now + coming_boundary minutes now / 1440) ->
  exists next,
    get_next_timeframe_time int timeframe now = inr next
    /\ valid_time next
    /\ representable_day (dt_ordinal next)
    /\ dt_second next = 0 /\ dt_microsecond next = 0
    /\ since_midnight now next = coming_boundary minutes now
    /\ coming_boundary minutes now
       = minute_of_day now - minute_of_day now mod minutes + minutes
    /\ since_midnight now next mod minutes = 0
    /\ timestamp now < timestamp next <= timestamp now + minutes * 60000000.
Proof.
  intros Hparse Hpos Hnow Htoday Hthen.
  destruct (get_next_timeframe_time_run timeframe minutes now Hparse)
    as (next & Hrun & Hvalid & Hs & Hus & Hsince); [lia |].
  exists next. split; [exact Hrun |]. split; [exact Hvalid |].
  pose proof (timestamp_since_midnight now next Hs Hus) as Hgap.
  fold (coming_boundary minutes now) in Hsince.
  assert (Hboundary : coming_boundary minutes now
                      = minute_of_day now - minute_of_day now mod minutes
                        + minutes).
  { unfold coming_boundary.
    pose proof (Z.div_mod (minute_of_day now) minutes). lia. }
  split.
  { unfold representable_day in *.
    replace (dt_ordinal next)
      with (dt_ordinal now + coming_boundary minutes now / 1440);
      [exact Hthen |].
    rewrite <- Hsince. unfold since_midnight, minute_of_day.
    unfold valid_time in Hvalid.
    Z.to_euclidean_division_equations. lia. }
  split; [exact Hs |]. split; [exact Hus |]. split; [exact Hsince |].
  split; [exact Hboundary |].
  rewrite Hsince in *. unfold valid_time in Hnow.
  split.
  - unfold coming_boundary. apply Z.mod_mul. lia.
  - rewrite Hboundary in Hgap. unfold minute_of_day in *.
    pose proof (Z.mod_pos_bound (dt_hour now * 60 + dt_minute now) minutes).
    lia.
Qed.

(** X23.  For every timeframe listed in [TIMEFRAME_MINUTES],
    whatever [int] does: [parse_timeframe] gives the listed minutes and
    [get_next_timeframe_time] gives a time later than now whose minute of
    the day is a multiple of them; it is on the same day, or it is the
    midnight that starts the next day. *)
Theorem listed_timeframes_stay_on_the_daily_grid timeframe minutes now :
  TIMEFRAME_MINUTES !! timeframe = Some minutes ->
  valid_time now ->
  parse_timeframe int timeframe = inr minutes
  /\ exists next,
      get_next_timeframe_time int timeframe now = inr next
      /\ minute_of_day next mod minutes = 0
      /\ timestamp now < timestamp next
      /\ (dt_ordinal next = dt_ordinal now
          \/ (dt_ordinal next = dt_ordinal now + 1
              /\ minute_of_day next = 0)).
Proof.
  intros Hlisted Hnow.
  assert (Hparse : parse_timeframe int timeframe = inr minutes)
    by (unfold parse_timeframe; by rewrite Hlisted).
  split; [exact Hparse |].
  destruct (timeframe_table timeframe minutes Hlisted) as [Hpos [c Hc]].
  destruct (get_next_timeframe_time_run timeframe minutes now Hparse)
    as (next & Hrun & Hvalid & Hs & Hus & Hsince); [lia |].
  exists next. split; [exact Hrun |].
  pose proof (timestamp_since_midnight now next Hs Hus) as Hgap.
  unfold valid_time in Hnow, Hvalid.
  unfold since_midnight in Hsince, Hgap. unfold minute_of_day in *.
  set (cm := dt_hour now * 60 + dt_minute now) in *.
  pose proof (Z.div_mod cm minutes ltac:(lia)) as Hdiv.
  pose proof (Z.mod_pos_bound cm minutes Hpos) as Hmod.
  assert (Hq : cm / minutes + 1 <= c) by nia.
  assert (Hday : dt_ordinal next = dt_ordinal now
                 \/ (dt_ordinal next = dt_ordinal now + 1
                     /\ dt_hour next * 60 + dt_minute next = 0)) by nia.
  split; [| split; [nia | exact Hday]].
  destruct Hday as [Hsame | [_ ->]]; [| reflexivity].
  replace (dt_hour next * 60 + dt_minute next)
    with ((cm / minutes + 1) * minutes) by lia.
  apply Z.mod_mul. lia.
Qed.

Lemma aligned_intervals_loop_diverges minutes :
  minutes <= 0 ->
  forall fuel total_minutes intervals,
    total_minutes < 1440 ->
    aligned_intervals_loop fuel minutes total_minutes intervals = None.
Proof.
  intros Hneg fuel. induction fuel as [| fuel IH]; [reflexivity |].
  intros total_minutes intervals Hbelow. cbn.
  destruct (Z.ltb_spec total_minutes 1440); [| lia].
  apply IH. lia.
Qed.

(** X24.  A timeframe parsed as zero or negative minutes: the loop of
    [get_aligned_intervals] never ends; with zero minutes
    [get_next_timeframe_time] and [is_on_timeframe] raise
    [ZeroDivisionError]; with negative minutes, on a day [datetime] can
    hold and with the computed boundary on such a day too, the time
    returned as next lies before now. *)
Theorem timeframe_without_minutes_breaks_the_scheduler timeframe minutes now :
  parse_timeframe int timeframe = inr minutes ->
  minutes <= 0 ->
  (forall fuel, get_aligned_intervals int fuel timeframe = inr None)
  /\ (minutes = 0 ->
      (exists message,
          get_next_timeframe_time int timeframe now
          = inl (Exn "ZeroDivisionError" message))
      /\ exists message,
          is_on_timeframe int timeframe now
          = inl (Exn "ZeroDivisionError" message))
  /\ (minutes < 0 ->
      valid_time now ->
      representable_day (dt_ordinal now) ->
      representable_day (dt_ordinal now + coming_boundary minutes now / 1440) ->
      exists next,
        get_next_timeframe_time int timeframe now = inr next
        /\ representable_day (dt_ordinal next)
        /\ since_midnight now next = coming_boundary minutes now
        /\ timestamp next < timestamp now).
Proof.
  intros Hparse Hneg. split; [| split].
  - intros fuel. unfold get_aligned_intervals. rewrite Hparse.
    by rewrite aligned_intervals_loop_diverges.
  - intros ->. unfold get_next_timeframe_time, is_on_timeframe.
    rewrite Hparse. cbn. split; by eexists.
  - intros Hlt Hnow Htoday Hthen.
    destruct (get_next_timeframe_time_run timeframe minutes now Hparse)
      as (next & Hrun & Hvalid & Hs & Hus & Hsince); [lia |].
    exists next. split; [exact Hrun |].
    pose proof (timestamp_since_midnight now next Hs Hus) as Hgap.
    fold (coming_boundary minutes now) in Hsince.
    split.
    { unfold representable_day in *.
      replace (dt_ordinal next)
        with (dt_ordinal now + coming_boundary minutes now / 1440);
        [exact Hthen |].
      rewrite <- Hsince. unfold since_midnight, minute_of_day.
      unfold valid_time in Hvalid.
      Z.to_euclidean_division_equations. lia. }
    split; [exact Hsince |].
    rewrite Hsince in Hgap. unfold coming_boundary in Hgap.
    unfold valid_time in Hnow. unfold minute_of_day in *.
    set (cm := dt_hour now * 60 + dt_minute now) in *.
    assert (cm = minutes * (cm / minutes) + cm mod minutes)
      by (apply Z.div_mod; lia).
    pose proof (Z.mod_neg_bound cm minutes Hlt). nia.
Qed.

Lemma aligned_intervals_loop_run minutes (j : nat) :
  0 < minutes ->
  forall (k : nat) intervals fuel,
    Z.of_nat (k + j) = 1439 / minutes + 1 ->
    (j < fuel)%nat ->
    aligned_intervals_loop fuel minutes (Z.of_nat k * minutes) intervals
    = Some (intervals
            ++ map (fun i => hhmm (Z.of_nat i * minutes)) (seq k j)).
Proof.
  intros Hpos. induction j as [| j IH]; intros k intervals fuel Hn Hfuel.
  - destruct fuel as [| fuel]; [lia |]. cbn.
    destruct (Z.ltb_spec (Z.of_nat k * minutes) 1440) as [Hlt |].
    + exfalso. revert Hn Hlt. Z.to_euclidean_division_equations. nia.
    + by rewrite app_nil_r.
  - destruct fuel as [| fuel]; [lia |]. cbn [aligned_intervals_loop].
    destruct (Z.ltb_spec (Z.of_nat k * minutes) 1440) as [| Hge].
    + replace (Z.of_nat k * minutes + minutes)
        with (Z.of_nat (S k) * minutes) by lia.
      rewrite IH by lia. cbn [seq map]. by rewrite <- app_assoc.
    + exfalso. revert Hn Hge. Z.to_euclidean_division_equations. nia.
Qed.

(** X25.  For a timeframe of [minutes > 0], [get_aligned_intervals]
    ends and returns the texts of the minutes [0, minutes, 2 * minutes,
    ...] below 1440, in order: [1439 // minutes + 1] entries, all inside
    the day. *)
Theorem aligned_intervals_cover_the_day timeframe minutes :
  parse_timeframe int timeframe = inr minutes ->
  0 < minutes ->
  exists n : nat,
    Z.of_nat n = 1439 / minutes + 1
    /\ (forall fuel,
          (n < fuel)%nat ->
          get_aligned_intervals int fuel timeframe
          = inr (Some (map (fun i => hhmm (Z.of_nat i * minutes))
                           (seq 0 n))))
    /\ forall i : nat,
        (i < n)%nat -> 0 <= Z.of_nat i * minutes < 1440.
Proof.
  intros Hparse Hpos.
  exists (Z.to_nat (1439 / minutes + 1)).
  assert (Hn : Z.of_nat (Z.to_nat (1439 / minutes + 1))
               = 1439 / minutes + 1).
  { apply Z2Nat.id. Z.to_euclidean_division_equations. nia. }
  split; [exact Hn |]. split.
  - intros fuel Hfuel. unfold get_aligned_intervals. rewrite Hparse.
    change 0 with (Z.of_nat 0 * minutes) at 1.
    by rewrite (aligned_intervals_loop_run minutes _ Hpos 0%nat [] fuel Hn).
  - intros i Hi. revert Hn. Z.to_euclidean_division_equations. nia.
Qed.

End SchedulerFacts.

(** ** The monitor *)

Section MonitorFacts.
Import Monitor.
Local Open Scope Z_scope.

Lemma take_app_take {A} (n : nat) (l k : list A) :
  take n (l ++ take n k) = take n (l ++ k).
Proof.
  rewrite !take_app, take_take. do 2 f_equal. lia.
Qed.

Lemma add_log_run now log_entry self :
  0 <= max_logs self ->
  trading_logs (add_log now log_entry self)
  = take (Z.to_nat (max_logs self))
         (stamp (now, log_entry) :: trading_logs self)
  /\ max_logs (add_log now log_entry self) = max_logs self.
Proof.
  intros Hmax. split; [| reflexivity]. unfold add_log, stamp. cbn [fst snd].
  cbv zeta. cbn [trading_logs].
  destruct (Z.ltb_spec (max_logs self)
              (Z.of_nat (length (<["timestamp" := VStr now]> log_entry
                                 :: trading_logs self)))) as [Hover | Hfits].
  - unfold slice_to. destruct (Z.ltb_spec (max_logs self) 0); [lia | done].
  - symmetry. apply take_ge. lia.
Qed.

(** X26.  On a monitor that holds at most [max_logs >= 0] entries,
    after any run of [add_log] calls the log is the newest [max_logs]
    entries, newest first, each with the timestamp of its call;
    [max_logs] is unchanged, and [get_latest_logs count] for
    [0 <= count <= max_logs] gives the newest [count] of them. *)
Theorem monitor_keeps_the_newest_logs entries self :
  0 <= max_logs self ->
  Z.of_nat (length (trading_logs self)) <= max_logs self ->
  trading_logs (add_logs entries self)
  = take (Z.to_nat (max_logs self))
         (reverse (map stamp entries) ++ trading_logs self)
  /\ max_logs (add_logs entries self) = max_logs self
  /\ Z.of_nat (length (trading_logs (add_logs entries self))) <= max_logs self
  /\ forall count,
      0 <= count <= max_logs self ->
      get_latest_logs count (add_logs entries self)
      = take (Z.to_nat count)
             (reverse (map stamp entries) ++ trading_logs self).
Proof.
  intros Hmax Hlen.
  assert (Hlogs : trading_logs (add_logs entries self)
                  = take (Z.to_nat (max_logs self))
                         (reverse (map stamp entries) ++ trading_logs self)
                  /\ max_logs (add_logs entries self) = max_logs self).
  { revert self Hmax Hlen.
    induction entries as [| [now log_entry] entries IH]; intros self Hmax Hlen.
    - split; [| reflexivity]. cbn. symmetry. apply take_ge. lia.
    - destruct (add_log_run now log_entry self Hmax) as [Hstep Hsame].
      unfold add_logs. cbn [foldl fst snd].
      fold (add_logs entries (add_log now log_entry self)).
      destruct (IH (add_log now log_entry self)) as [Hrest Hkeep].
      + by rewrite Hsame.
      + rewrite Hsame, Hstep, length_take. lia.
      + rewrite Hrest, Hkeep, Hsame, Hstep, take_app_take.
        split; [| reflexivity].
        cbn [map]. by rewrite reverse_cons, <- app_assoc. }
  destruct Hlogs as [Hlogs Hkeep].
  split; [exact Hlogs |]. split; [exact Hkeep |]. split.
  - rewrite Hlogs, length_take. lia.
  - intros count Hcount. unfold get_latest_logs, slice_to.
    destruct (Z.ltb_spec count 0); [lia |].
    rewrite Hlogs, take_take. f_equal. lia.
Qed.

End MonitorFacts.

(** ** The further statements on concrete runs *)

Lemma reported_position_is_open_witness :
  snd (get_current_position "BTC/USDT" Runs.is_short)
  = inr (Some Runs.short_002)
  /\ p_symbol Runs.short_002 = normalize_symbol "BTC/USDT"
  /\ Qnonzero (p_position_amt Runs.short_002) = true
  /\ p_size Runs.short_002 = Qabs (p_position_amt Runs.short_002)
  /\ (0 < p_size Runs.short_002)%Q
  /\ ((p_side Runs.short_002 = "long"
       /\ (0 < p_position_amt Runs.short_002)%Q)
      \/ (p_side Runs.short_002 = "short"
          /\ (p_position_amt Runs.short_002 < 0)%Q)).
Proof.
  split; [reflexivity |].
  apply (reported_position_is_open "BTC/USDT" Runs.is_short Runs.short_002).
  reflexivity.
Defined.

Lemma no_position_reported_witness :
  fst (w_fetch_positions ["BTC/USDT"] (world Scenes.unreachable))
  = inl (Exn "NetworkError" "timed out")
  /\ snd (get_current_position "BTC/USDT" Scenes.unreachable) = inr None
  /\ fst (w_fetch_positions ["BTC/USDT"] (world Scenes.listed_but_empty))
     = inr [Sim.btc 0]
  /\ position_amt_of (Sim.btc 0) = inr 0%Q
  /\ snd (get_current_position "BTC/USDT" Scenes.listed_but_empty) = inr None.
Proof.
  split; [reflexivity |]. split.
  - apply (proj1 (no_position_reported "BTC/USDT" Scenes.unreachable)
                 (Exn "NetworkError" "timed out")).
    reflexivity.
  - split; [reflexivity |]. split; [reflexivity |].
    apply (proj2 (no_position_reported "BTC/USDT" Scenes.listed_but_empty)
                 [Sim.btc 0]); [reflexivity |].
    constructor; [| constructor].
    right. exists 0%Q. split; reflexivity.
Defined.

Lemma buy_when_flat_opens_one_long_witness :
  truthy (test_mode Sim.live) = false
  /\ snd (get_current_position "BTC/USDT" Runs.is_flat) = inr None
  /\ dict_truthy Sim.accepted = true
  /\ exists st' r,
      execute_trade Sim.live "BTC/USDT" "BUY" (1 # 100) None None ""
        Runs.is_flat = (st', inr r)
      /\ added Runs.is_flat st'
           [EvFetchPositions ["BTC/USDT"];
            EvMarketBuy "BTC/USDT" (1 # 100) "LONG";
            EvSleep 2; EvFetchPositions ["BTC/USDT"]]
      /\ r !! "success" = Some (VBool true)
      /\ r !! "order_id" = Some (dict_get Sim.accepted "id")
      /\ r !! "message" = Some (VStr "订单执行成功")
      /\ trade_history st' = trade_history Runs.is_flat ++ [HTrade r].
Proof.
  split; [reflexivity |]. split; [reflexivity |]. split; [reflexivity |].
  apply (buy_when_flat_opens_one_long Sim.live "BTC/USDT" (1 # 100) None None
           "" Runs.is_flat Sim.accepted Sim.flat);
    reflexivity.
Defined.

Lemma sell_closes_long_then_opens_short_witness :
  truthy (test_mode Sim.live) = false
  /\ snd (get_current_position "BTC/USDT" Runs.is_long)
     = inr (Some Runs.long_001)
  /\ exists st' r rest,
      execute_trade Sim.live "BTC/USDT" "SELL" (3 # 100) None None ""
        Runs.is_long = (st', inr r)
      /\ added Runs.is_long st'
           ([EvFetchPositions ["BTC/USDT"];
             EvMarketSell "BTC/USDT" (1 # 100) "LONG";
             EvSleep 1;
             EvMarketSell "BTC/USDT" (3 # 100) "SHORT"] ++ rest)
      /\ Forall (fun e => is_market_order e = false) rest.
Proof.
  split; [reflexivity |]. split; [reflexivity |].
  apply (sell_closes_long_then_opens_short Sim.live "BTC/USDT" (3 # 100)
           None None "" Runs.is_long Runs.long_001 Sim.accepted);
    reflexivity.
Defined.

Lemma close_sends_the_position_size_witness :
  truthy (test_mode Sim.live) = false
  /\ snd (get_current_position "BTC/USDT" Runs.is_short)
     = inr (Some Runs.short_002)
  /\ exists st' r rest,
      execute_trade Sim.live "BTC/USDT" "CLOSE_SHORT" (7 # 1) None None ""
        Runs.is_short = (st', inr r)
      /\ added Runs.is_short st'
           ([EvFetchPositions ["BTC/USDT"];
             EvMarketBuy "BTC/USDT" (2 # 100) "SHORT"] ++ rest)
      /\ Forall (fun e => is_market_order e = false) rest.
Proof.
  split; [reflexivity |]. split; [reflexivity |].
  apply (close_sends_the_position_size Sim.live "BTC/USDT" "CLOSE_SHORT"
           (7 # 1) None None "" Runs.is_short Runs.short_002);
    [reflexivity | reflexivity | right; split; reflexivity].
Defined.

Lemma refused_opening_after_close_witness :
  truthy (test_mode Sim.live) = false
  /\ snd (get_current_position "BTC/USDT" Scenes.closes_then_refuses)
     = inr (Some Runs.short_002)
  /\ exists st' r,
      execute_trade Sim.live "BTC/USDT" "BUY" (1 # 100) None None ""
        Scenes.closes_then_refuses = (st', inr r)
      /\ added Scenes.closes_then_refuses st'
           [EvFetchPositions ["BTC/USDT"];
            EvMarketBuy "BTC/USDT" (2 # 100) "SHORT";
            EvSleep 1;
            EvMarketBuy "BTC/USDT" (1 # 100) "LONG"]
      /\ r !! "success" = Some (VBool false)
      /\ r !! "message" = Some (VStr "订单执行失败: margin is insufficient")
      /\ r !! "order_id" = None
      /\ trade_history st' = trade_history Scenes.closes_then_refuses.
Proof.
  split; [reflexivity |]. split; [reflexivity |].
  eapply (refused_opening_after_close Sim.live "BTC/USDT" (1 # 100) None None
            "" Scenes.closes_then_refuses Runs.short_002 Sim.accepted _
            (Exn "InsufficientFunds" "margin is insufficient"));
    reflexivity.
Defined.

Lemma live_success_needs_hold_or_order_witness :
  truthy (test_mode Sim.live) = false
  /\ exists st' r,
      execute_trade Sim.live "BTC/USDT" "BUY" (1 # 100) None None ""
        Runs.is_flat = (st', inr r)
      /\ r !! "success" = Some (VBool true)
      /\ ("BUY" = "HOLD"
          \/ exists evs,
              added Runs.is_flat st' evs
              /\ Exists (fun e => is_market_order e = true) evs).
Proof.
  split; [reflexivity |].
  assert (Hplaced :
            dispatch "BTC/USDT" "BUY" (1 # 100)
              (position_seen "BTC/USDT" (world Runs.is_flat))
              (entry_state Sim.live "BTC/USDT" "BUY" (1 # 100) ""
                 Runs.is_flat)
            = (fst (dispatch "BTC/USDT" "BUY" (1 # 100)
                      (position_seen "BTC/USDT" (world Runs.is_flat))
                      (entry_state Sim.live "BTC/USDT" "BUY" (1 # 100) ""
                         Runs.is_flat)),
               inr (Some Sim.accepted)))
    by (vm_compute; reflexivity).
  destruct (execute_trade_placed Sim.live "BTC/USDT" "BUY" (1 # 100) None None
              "" Runs.is_flat _ Sim.accepted eq_refl Hplaced eq_refl eq_refl)
    as (st' & new_position & Hrun & _).
  cbv zeta in Hrun.
  assert (Hsuccess :
            (<["new_position" := opt_pos new_position]>
               (placed_result Sim.accepted
                  (initial_result Sim.live "BTC/USDT" "BUY" (1 # 100) ""
                     (w_now (world Runs.is_flat)))) : gmap string pyval)
            !! "success" = Some (VBool true)).
  { rewrite lookup_insert_ne by discriminate. apply placed_result_success. }
  eexists _, _. split; [exact Hrun |]. split; [exact Hsuccess |].
  exact (live_success_needs_hold_or_order Sim.live "BTC/USDT" "BUY" (1 # 100)
           None None "" Runs.is_flat _ _ eq_refl Hrun Hsuccess).
Defined.

Lemma close_position_reports_the_order_witness :
  truthy (test_mode Sim.live) = false
  /\ snd (get_current_position "BTC/USDT" Runs.is_long)
     = inr (Some Runs.long_001)
  /\ exists st' r,
      close_position Sim.live "BTC/USDT" Runs.is_long = (st', inr r)
      /\ r !! "status" = Some (VStr "success")
      /\ r !! "order_id" = Some (VStr "1")
      /\ r !! "quantity" = Some (VNum (1 # 100))
      /\ trade_history st' =
         trade_history Runs.is_long
         ++ [HClose "2024-01-01 00:00:00" "close_long" "BTC/USDT" (1 # 100) r].
Proof.
  split; [reflexivity |]. split; [reflexivity |].
  exact (close_position_reports_the_order Sim.live "BTC/USDT" Runs.is_long
           Runs.long_001 eq_refl eq_refl).
Defined.

Lemma close_position_without_order_witness :
  snd (get_current_position "BTC/USDT" Runs.is_flat) = inr None
  /\ (exists st' r,
        close_position Sim.live "BTC/USDT" Runs.is_flat = (st', inr r)
        /\ added Runs.is_flat st' [EvFetchPositions ["BTC/USDT"]]
        /\ r !! "status" = Some (VStr "info")
        /\ trade_history st' = trade_history Runs.is_flat)
  /\ truthy (test_mode Sim.paper) = true
  /\ snd (get_current_position "BTC/USDT" Runs.is_long)
     = inr (Some Runs.long_001)
  /\ exists st' r,
      close_position Sim.paper "BTC/USDT" Runs.is_long = (st', inr r)
      /\ added Runs.is_long st' [EvFetchPositions ["BTC/USDT"]]
      /\ r !! "status" = Some (VStr "test")
      /\ r !! "quantity" = Some (VNum (p_size Runs.long_001))
      /\ trade_history st' =
         trade_history Runs.is_long
         ++ [HClose (w_now (world st')) ("close_" +:+ p_side Runs.long_001)
                    "BTC/USDT" (p_size Runs.long_001) r].
Proof.
  split; [reflexivity |]. split.
  - apply (proj1 (close_position_without_order Sim.live "BTC/USDT"
                    Runs.is_flat)).
    reflexivity.
  - split; [reflexivity |]. split; [reflexivity |].
    apply (proj2 (close_position_without_order Sim.paper "BTC/USDT"
                    Runs.is_long) Runs.long_001);
      reflexivity.
Defined.

Lemma retryable_words_match_in_any_case_witness :
  lower "Connection" ∈ retryable_words
  /\ contains "Connection" "HTTPSConnectionPool: Connection refused" = true
  /\ is_retryable (lower "HTTPSConnectionPool: Connection refused") = true.
Proof.
  assert (Hword : lower "Connection" ∈ retryable_words)
    by (unfold retryable_words; cbn; set_solver).
  split; [exact Hword |]. split; [reflexivity |].
  apply (retryable_words_match_in_any_case "Connection"
           "HTTPSConnectionPool: Connection refused");
    [exact Hword | reflexivity].
Defined.


Lemma llm_retry_negative_never_invokes_witness :
  (-1 < 0)%Z
  /\ llm_retry (-1) 5 2 Runs.overloaded Runs.is_flat
     = (Runs.is_flat,
        inl (Exn "TypeError" "exceptions must derive from BaseException")).
Proof.
  split; [lia |].
  apply (llm_retry_negative_never_invokes (-1) 5 2 Runs.overloaded
           Runs.is_flat).
  lia.
Defined.

Lemma llm_retry_returns_the_first_success_witness :
  (0 < 3)%Z
  /\ llm_retry 3 5 2 Scenes.recovering Runs.is_flat
     = (invoked Runs.is_flat, inr "pong")
  /\ is_retryable (lower "Error code: 503 - service unavailable") = true
  /\ sleepable (backoff_delay 5 2 0) = true
  /\ (exists s2,
        llm_retry 3 5 2 Scenes.recovering Runs.refusing = (s2, inr "pong")
        /\ added Runs.refusing s2 [EvInvoke; EvSleep 5; EvInvoke])
  /\ sleepable (backoff_delay (-5) 2 0) = false
  /\ exists s1 refusal,
      llm_retry 3 (-5) 2 Scenes.recovering Runs.refusing = (s1, inl refusal)
      /\ added Runs.refusing s1 [EvInvoke]
      /\ (exn_type refusal = "ValueError"
          \/ exn_type refusal = "OverflowError").
Proof.
  split; [lia |]. split; [| split; [reflexivity |]].
  - apply (proj1 (llm_retry_returns_the_first_success 3 5 2 Scenes.recovering
                    Runs.is_flat (invoked Runs.is_flat) (invoked Runs.is_flat)
                    (Exn "" "") "pong" ltac:(lia))).
    reflexivity.
  - split; [reflexivity |]. split; [| split; [reflexivity |]].
    + eexists. split.
      * eapply (proj1 (proj2 (llm_retry_returns_the_first_success 3 5 2
                                Scenes.recovering Runs.refusing _ _
                                (Exn "APIError"
                                     "Error code: 503 - service unavailable")
                                "pong" ltac:(lia))));
          [vm_compute; reflexivity | reflexivity | reflexivity
          | vm_compute; reflexivity].
      * reflexivity.
    + destruct (proj2 (proj2 (llm_retry_returns_the_first_success 3 (-5) 2
                                Scenes.recovering Runs.refusing
                                (fst (Scenes.recovering
                                        (invoked Runs.refusing)))
                                Runs.refusing
                                (Exn "APIError"
                                     "Error code: 503 - service unavailable")
                                "pong" ltac:(lia)))
                      eq_refl eq_refl eq_refl)
        as (refusal & Hrun & Htype).
      eexists _, refusal. split; [exact Hrun |]. split; [reflexivity |].
      exact Htype.
Defined.

Lemma multi_agent_decision_runs_the_executor_witness :
  decision_action "BUY now, SELL later" <> "HOLD"
  /\ ct_config Scenes.multi_agent !! "position_size" = Some (VNum (1 # 1000))
  /\ exists st' r evs,
      execute_trade Sim.live "BTC/USDT" "BUY" (1 # 1000) None None
        "Multi-agent decision" Runs.is_flat = (st', inr r)
      /\ _execute_trade_decision Scenes.multi_agent "BUY now, SELL later"
           "BTC/USDT" Runs.is_flat = (st', inr tt)
      /\ added Runs.is_flat st' evs
      /\ Forall (fun e => is_conditional_order e = false) evs.
Proof.
  assert (Hkeyword : decision_action "BUY now, SELL later" <> "HOLD")
    by (vm_compute; discriminate).
  split; [exact Hkeyword |]. split; [reflexivity |].
  exact (proj2 (multi_agent_decision_runs_the_executor Scenes.multi_agent
                  "BUY now, SELL later" "BTC/USDT" Runs.is_flat Hkeyword)
               (1 # 1000) eq_refl).
Defined.

Lemma simple_graph_missing_config_raises_witness :
  marked_action "趋势向上。**最终决策: BUY**" = Some "BUY"
  /\ sg_config (SimpleCryptoTradingGraph_init ∅ true) !! "crypto_symbol" = None
  /\ simple_execute_trade (SimpleCryptoTradingGraph_init ∅ true)
       "趋势向上。**最终决策: BUY**" Runs.is_flat
     = (Runs.is_flat, inl (Exn "KeyError" "crypto_symbol")).
Proof.
  split; [reflexivity |]. split; [reflexivity |].
  apply (proj1 (simple_graph_missing_config_raises
                  (SimpleCryptoTradingGraph_init ∅ true)
                  (BinanceExecutor_init ∅ VNone)
                  "趋势向上。**最终决策: BUY**" "BUY" Runs.is_flat
                  eq_refl eq_refl eq_refl)).
  reflexivity.
Defined.

Lemma next_timeframe_time_is_the_coming_boundary_witness :
  TradingScheduler.parse_timeframe Scenes.int_numerals "7m" = inr 7%Z
  /\ valid_time Scenes.late_evening
  /\ representable_day (TradingScheduler.dt_ordinal Scenes.late_evening)
  /\ coming_boundary 7 Scenes.late_evening = 1442%Z
  /\ exists next,
      TradingScheduler.get_next_timeframe_time Scenes.int_numerals "7m"
        Scenes.late_evening = inr next
      /\ valid_time next
      /\ representable_day (TradingScheduler.dt_ordinal next)
      /\ TradingScheduler.dt_second next = 0%Z
      /\ TradingScheduler.dt_microsecond next = 0%Z
      /\ since_midnight Scenes.late_evening next
         = coming_boundary 7 Scenes.late_evening
      /\ coming_boundary 7 Scenes.late_evening
         = (minute_of_day Scenes.late_evening
            - minute_of_day Scenes.late_evening mod 7 + 7)%Z
      /\ (since_midnight Scenes.late_evening next mod 7 = 0)%Z
      /\ (timestamp Scenes.late_evening < timestamp next
          <= timestamp Scenes.late_evening + 7 * 60000000)%Z.
Proof.
  assert (Hnow : valid_time Scenes.late_evening)
    by (unfold valid_time; cbn; lia).
  assert (Htoday : representable_day
                     (TradingScheduler.dt_ordinal Scenes.late_evening))
    by (unfold representable_day; cbn; lia).
  split; [reflexivity |]. split; [exact Hnow |]. split; [exact Htoday |].
  split; [reflexivity |].
  apply (next_timeframe_time_is_the_coming_boundary Scenes.int_numerals "7m"
           7%Z Scenes.late_evening);
    [reflexivity | lia | exact Hnow | exact Htoday
    | unfold representable_day; vm_compute; split; discriminate].
Defined.

Lemma listed_timeframes_stay_on_the_daily_grid_witness :
  TradingScheduler.TIMEFRAME_MINUTES !! "15m" = Some 15%Z
  /\ valid_time Scenes.late_evening
  /\ TradingScheduler.parse_timeframe Scenes.int_numerals "15m" = inr 15%Z
  /\ exists next,
      TradingScheduler.get_next_timeframe_time Scenes.int_numerals "15m"
        Scenes.late_evening = inr next
      /\ (minute_of_day next mod 15 = 0)%Z
      /\ (timestamp Scenes.late_evening < timestamp next)%Z
      /\ (TradingScheduler.dt_ordinal next
          = TradingScheduler.dt_ordinal Scenes.late_evening
          \/ (TradingScheduler.dt_ordinal next
              = (TradingScheduler.dt_ordinal Scenes.late_evening + 1)%Z
              /\ minute_of_day next = 0%Z)).
Proof.
  assert (Hnow : valid_time Scenes.late_evening)
    by (unfold valid_time; cbn; lia).
  split; [reflexivity |]. split; [exact Hnow |].
  apply (listed_timeframes_stay_on_the_daily_grid Scenes.int_numerals "15m"
           15%Z Scenes.late_evening);
    [reflexivity | exact Hnow].
Defined.

Lemma timeframe_without_minutes_breaks_the_scheduler_witness :
  TradingScheduler.parse_timeframe Scenes.int_numerals "0m" = inr 0%Z
  /\ (forall fuel,
        TradingScheduler.get_aligned_intervals Scenes.int_numerals fuel "0m"
        = inr None)
  /\ (exists message,
        TradingScheduler.get_next_timeframe_time Scenes.int_numerals "0m"
          Scenes.late_evening
        = inl (Exn "ZeroDivisionError" message))
  /\ (exists message,
        TradingScheduler.is_on_timeframe Scenes.int_numerals "0m"
          Scenes.late_evening
        = inl (Exn "ZeroDivisionError" message))
  /\ TradingScheduler.parse_timeframe Scenes.int_numerals "-5m" = inr (-5)%Z
  /\ coming_boundary (-5) Scenes.late_evening = 1435%Z
  /\ exists next,
      TradingScheduler.get_next_timeframe_time Scenes.int_numerals "-5m"
        Scenes.late_evening = inr next
      /\ representable_day (TradingScheduler.dt_ordinal next)
      /\ since_midnight Scenes.late_evening next
         = coming_boundary (-5) Scenes.late_evening
      /\ (timestamp next < timestamp Scenes.late_evening)%Z.
Proof.
  assert (Hnow : valid_time Scenes.late_evening)
    by (unfold valid_time; cbn; lia).
  assert (Htoday : representable_day
                     (TradingScheduler.dt_ordinal Scenes.late_evening))
    by (unfold representable_day; cbn; lia).
  split; [reflexivity |].
  destruct (timeframe_without_minutes_breaks_the_scheduler
              Scenes.int_numerals "0m" 0%Z Scenes.late_evening eq_refl
              ltac:(lia))
    as (Hloop & Hzero & _).
  split; [exact Hloop |]. destruct (Hzero eq_refl) as [Hnext Hon].
  split; [exact Hnext |]. split; [exact Hon |].
  split; [reflexivity |]. split; [reflexivity |].
  apply (proj2 (proj2 (timeframe_without_minutes_breaks_the_scheduler
                         Scenes.int_numerals "-5m" (-5)%Z Scenes.late_evening
                         eq_refl ltac:(lia))));
    [lia | exact Hnow | exact Htoday
    | unfold representable_day; vm_compute; split; discriminate].
Defined.

Lemma aligned_intervals_cover_the_day_witness :
  TradingScheduler.parse_timeframe Scenes.int_numerals "4h" = inr 240%Z
  /\ exists n : nat,
      Z.of_nat n = (1439 / 240 + 1)%Z
      /\ (forall fuel,
            (n < fuel)%nat ->
            TradingScheduler.get_aligned_intervals Scenes.int_numerals fuel
              "4h"
            = inr (Some (map (fun i => hhmm (Z.of_nat i * 240)) (seq 0 n))))
      /\ forall i : nat, (i < n)%nat -> (0 <= Z.of_nat i * 240 < 1440)%Z.
Proof.
  split; [reflexivity |].
  apply (aligned_intervals_cover_the_day Scenes.int_numerals "4h" 240%Z);
    [reflexivity | lia].
Defined.

Lemma monitor_keeps_the_newest_logs_witness :
  (0 <= Monitor.max_logs Monitor.TradingMonitor_init)%Z
  /\ Monitor.trading_logs
       (add_logs [Scenes.first_log; Scenes.second_log]
          Monitor.TradingMonitor_init)
     = take (Z.to_nat (Monitor.max_logs Monitor.TradingMonitor_init))
            (reverse (map stamp [Scenes.first_log; Scenes.second_log])
             ++ Monitor.trading_logs Monitor.TradingMonitor_init)
  /\ Monitor.get_latest_logs 1
       (add_logs [Scenes.first_log; Scenes.second_log]
          Monitor.TradingMonitor_init)
     = take (Z.to_nat 1)
            (reverse (map stamp [Scenes.first_log; Scenes.second_log])
             ++ Monitor.trading_logs Monitor.TradingMonitor_init).
Proof.
  assert (Hmax : (0 <= Monitor.max_logs Monitor.TradingMonitor_init)%Z)
    by (cbn; lia).
  split; [exact Hmax |].
  destruct (monitor_keeps_the_newest_logs
              [Scenes.first_log; Scenes.second_log]
              Monitor.TradingMonitor_init Hmax ltac:(cbn; lia))
    as (Hlogs & _ & _ & Hlatest).
  split; [exact Hlogs |]. apply Hlatest. cbn. lia.
Defined.
